(** * Cloud abstraction layer: command gateway, tool routing and listing

    A shallow embedding of the TypeScript sources
      - [src/utils/security.ts]          (class [SecurityValidator])
      - [src/utils/command-executor.ts]  (class [CommandExecutor])
      - [src/tools/gcp-tools.ts], [src/tools/azure-tools.ts]
      - [src/index.ts], [src/http-server.ts]
    followed by the properties of the command gateway and of the router.

    Conventions of the embedding.
      - A JavaScript string is the list of its UTF-16 code units.
      - [async] functions are computations in the monad [M]: they thread
        the trace of calls made to the outside (child processes, storage
        clients) and either return a value or throw an [Error] whose
        message is recorded.
      - What the JavaScript runtime and the cloud collaborators supply
        ([String.prototype.toLowerCase], [JSON.stringify], [JSON.parse],
        [child_process.exec], the storage clients) is a field of the
        record [Platform]; every definition that reaches one of them takes
        the platform as its first argument. *)

From Stdlib Require Import List NArith ZArith Bool String Ascii Lia.
Import ListNotations.

Set Implicit Arguments.
Set Warnings "-register-all".

(* ===================================================================== *)
(** * JavaScript strings *)
(* ===================================================================== *)

Module Js.

(** A string value: the sequence of its UTF-16 code units. *)
Definition jsstring := list N.

(** The code units of a literal of the source text (all literals of the
    sources are ASCII). *)
Definition lit (s : string) : jsstring :=
  map N_of_ascii (list_ascii_of_string s).

Fixpoint eqb (a b : jsstring) : bool :=
  match a, b with
  | [], [] => true
  | x :: a', y :: b' => N.eqb x y && eqb a' b'
  | _, _ => false
  end.

(** [s.length === 0] *)
Definition isEmpty (s : jsstring) : bool :=
  match s with [] => true | _ :: _ => false end.

(** [s.startsWith(p)] *)
Fixpoint startsWith (s p : jsstring) {struct p} : bool :=
  match p with
  | [] => true
  | c :: p' =>
      match s with
      | [] => false
      | d :: s' => N.eqb d c && startsWith s' p'
      end
  end.

(** [s.includes(p)] *)
Fixpoint includes (s p : jsstring) : bool :=
  startsWith s p ||
  match s with
  | [] => false
  | _ :: s' => includes s' p
  end.

(** ECMAScript [WhiteSpace] and [LineTerminator] code units, the ones
    [String.prototype.trim] strips. *)
Definition isWhiteSpace (c : N) : bool :=
  ((9 <=? c) && (c <=? 13) ||
   (c =? 32) || (c =? 160) || (c =? 5760) ||
   (8192 <=? c) && (c <=? 8202) ||
   (c =? 8232) || (c =? 8233) || (c =? 8239) || (c =? 8287) ||
   (c =? 12288) || (c =? 65279))%N.

Fixpoint trimStart (s : jsstring) : jsstring :=
  match s with
  | [] => []
  | c :: s' => if isWhiteSpace c then trimStart s' else s
  end.

Definition trimEnd (s : jsstring) : jsstring :=
  rev (trimStart (rev s)).

(** [s.trim()] *)
Definition trim (s : jsstring) : jsstring := trimEnd (trimStart s).

(** [parts.join(sep)] *)
Fixpoint join (sep : jsstring) (parts : list jsstring) : jsstring :=
  match parts with
  | [] => []
  | [p] => p
  | p :: rest => p ++ sep ++ join sep rest
  end.

(** Decimal rendering of a non-negative index, as template interpolation
    [`${i + 1}`] gives it. *)
Fixpoint digits (fuel : nat) (n : N) (acc : jsstring) : jsstring :=
  match fuel with
  | O => acc
  | S fuel' =>
      let acc' := (48 + n mod 10)%N :: acc in
      if (n / 10 =? 0)%N then acc' else digits fuel' (n / 10)%N acc'
  end.

Definition ofN (n : N) : jsstring := digits (S (N.size_nat n)) n [].

(** Truthiness of a possibly undefined string: [undefined] and [''] are
    falsy. *)
Definition truthy (v : option jsstring) : bool :=
  match v with
  | Some (_ :: _) => true
  | _ => false
  end.

(** [v || d] for a possibly undefined string [v]. *)
Definition orElse (v : option jsstring) (d : jsstring) : jsstring :=
  match v with
  | Some (c :: s) => c :: s
  | _ => d
  end.

(** [toLowerCase] on the ASCII range: what the runtime's function does on
    a string whose code units are all below 128.  Used to run the model
    on concrete ASCII commands. *)
Definition asciiLowerUnit (c : N) : N :=
  if ((65 <=? c) && (c <=? 90))%N then (c + 32)%N else c.

Definition asciiToLowerCase (s : jsstring) : jsstring := map asciiLowerUnit s.

End Js.

Import Js.

Declare Scope js_scope.
Delimit Scope js_scope with js.
Notation "a +++ b" := (@app N a b) (at level 60, right associativity) : js_scope.
Open Scope js_scope.

(* ===================================================================== *)
(** * security.ts : SecurityValidator *)
(* ===================================================================== *)

(** The return type [{ valid: boolean; reason?: string }]. *)
Record Validation := mkValidation {
  valid : bool;
  reason : option jsstring
}.

Module SecurityValidator.

Definition MAX_TIMEOUT_MS : Z := 30000.
Definition MAX_BUFFER_SIZE : Z := 10 * 1024 * 1024.

Definition BLOCKED_GCP_COMMANDS : list jsstring :=
  [lit "auth"; lit "config"; lit "init"; lit "beta"; lit "alpha"].

Definition BLOCKED_AZURE_COMMANDS : list jsstring :=
  [lit "login"; lit "account"; lit "config"].

Definition blockedReason (blocked : jsstring) : jsstring :=
  lit "Command blocked: " +++ blocked +++
  lit " commands are not allowed for security reasons".

(** The loop [for (const blocked of LIST) if (normalized.startsWith(blocked))
    return {valid: false, reason: ...}]: [Some] is the early return. *)
Fixpoint checkBlocked (normalizedCommand : jsstring) (blockedList : list jsstring)
  : option Validation :=
  match blockedList with
  | [] => None
  | blocked :: rest =>
      if startsWith normalizedCommand blocked
      then Some (mkValidation false (Some (blockedReason blocked)))
      else checkBlocked normalizedCommand rest
  end.

Section Validator.

(** [String.prototype.toLowerCase] of the runtime. *)
Variable toLowerCase : jsstring -> jsstring.

Definition normalize (command : jsstring) : jsstring :=
  toLowerCase (trim command).

Definition validateGcpCommand (command : jsstring) : Validation :=
  if isEmpty command || isEmpty (trim command)
  then mkValidation false (Some (lit "Empty command"))
  else
    let normalizedCommand := toLowerCase (trim command) in
    match checkBlocked normalizedCommand BLOCKED_GCP_COMMANDS with
    | Some rejection => rejection
    | None =>
        if includes normalizedCommand (lit "--format") &&
           includes normalizedCommand (lit "eval")
        then mkValidation false
               (Some (lit "Potentially dangerous format evaluation detected"))
        else mkValidation true None
    end.

Definition validateAzureCommand (command : jsstring) : Validation :=
  if isEmpty command || isEmpty (trim command)
  then mkValidation false (Some (lit "Empty command"))
  else
    let normalizedCommand := toLowerCase (trim command) in
    match checkBlocked normalizedCommand BLOCKED_AZURE_COMMANDS with
    | Some rejection => rejection
    | None => mkValidation true None
    end.

Definition getMaxTimeout : Z := MAX_TIMEOUT_MS.
Definition getMaxBufferSize : Z := MAX_BUFFER_SIZE.

End Validator.

End SecurityValidator.

(* ===================================================================== *)
(** * JavaScript values, effects and collaborators *)
(* ===================================================================== *)

(** JSON-like values: tool arguments, parsed CLI output, the objects the
    handlers serialise.  An object is its list of entries in insertion
    order, the order [Object.entries] follows. *)
Inductive Json :=
| JUndefined
| JNull
| JBool (b : bool)
| JNum (n : Z)
| JString (s : jsstring)
| JArray (elements : list Json)
| JObject (entries : list (jsstring * Json)).

Fixpoint lookup (entries : list (jsstring * Json)) (key : jsstring) : Json :=
  match entries with
  | [] => JUndefined
  | (k, v) :: rest => if Js.eqb k key then v else lookup rest key
  end.

(** Property access [o.key] and [o?.key]: [undefined] when the property is
    missing, and when [o] is not an object (what [?.] gives; where the
    sources write a plain [.], [o] is an argument mapping or an object the
    collaborator's types guarantee). *)
Definition field (o : Json) (key : string) : Json :=
  match o with
  | JObject entries => lookup entries (lit key)
  | _ => JUndefined
  end.

(** JavaScript truthiness. *)
Definition truthyJson (v : Json) : bool :=
  match v with
  | JUndefined | JNull => false
  | JBool b => b
  | JNum n => negb (n =? 0)%Z
  | JString s => negb (isEmpty s)
  | JArray _ | JObject _ => true
  end.

(** The casts [v as string], [v as number], [v as Record<string, string>]:
    the embedding follows the TypeScript types and the tools' input
    schemas, an argument of another type than the declared one is read as
    [undefined].  Numbers are the integers. *)
Definition asString (v : Json) : option jsstring :=
  match v with JString s => Some s | _ => None end.

Definition asNumber (v : Json) : option Z :=
  match v with JNum n => Some n | _ => None end.

Definition asRecord (v : Json) : option (list (jsstring * Json)) :=
  match v with JObject entries => Some entries | _ => None end.

(** [v || d] for a possibly undefined number. *)
Definition orNum (v : option Z) (d : Z) : Z :=
  match v with
  | Some n => if (n =? 0)%Z then d else n
  | None => d
  end.

(** Template interpolation [`${v}`] of a possibly undefined string. *)
Definition interp (v : option jsstring) : jsstring :=
  match v with
  | Some s => s
  | None => lit "undefined"
  end.

(** ** The arguments the casts read as the code does

    The casts are erased when the code runs: a handler sees the value the
    caller sent, whatever its type, and tests it for truthiness before it
    uses it.  [asString], [asNumber] and [asRecord] give what the code sees
    on the falsy values (every use is behind [if (v)], [!v] or [v || d])
    and on the values of the declared type; on a truthy value of another
    type they do not.  The predicates below name the values on which they
    do; the theorems that follow an argument through a handler assume them
    of that argument. *)

(** [Number.isSafeInteger(n)]: the integers a double holds exactly, and
    whose neighbours it holds exactly. *)
Definition isSafeInteger (n : Z) : bool :=
  (Z.abs n <=? 9007199254740991)%Z.

(** A string, or a falsy value. *)
Definition stringArgument (v : Json) : bool :=
  match v with
  | JString _ => true
  | _ => negb (truthyJson v)
  end.

(** A whole number, or a falsy value. *)
Definition integerArgument (v : Json) : bool :=
  match v with
  | JNum n => isSafeInteger n
  | _ => negb (truthyJson v)
  end.

(** [Object.entries] lists the keys that are array indices first, in
    numeric order, and the other keys in insertion order; an object holds
    a key once.  The list of entries is in that order when no key starts
    with a digit and no key comes twice. *)
Definition isDigit (c : N) : bool := ((48 <=? c) && (c <=? 57))%N.

Definition startsWithDigit (key : jsstring) : bool :=
  match key with
  | c :: _ => isDigit c
  | [] => false
  end.

Fixpoint distinctKeys (entries : list (jsstring * Json)) : bool :=
  match entries with
  | [] => true
  | (key, _) :: rest =>
      negb (existsb (fun kv => Js.eqb key (fst kv)) rest) && distinctKeys rest
  end.

(** An object whose entries are listed in the order of [Object.entries],
    or a falsy value. *)
Definition recordArgument (v : Json) : bool :=
  match v with
  | JObject entries =>
      forallb (fun kv => negb (startsWithDigit (fst kv))) entries &&
      distinctKeys entries
  | _ => negb (truthyJson v)
  end.

(** The value of [error.code] and of [exitCode]: a number (the exit status)
    or a string (Node's symbolic codes such as [ENOENT]). *)
Inductive Code :=
| CNum (n : Z)
| CStr (s : jsstring).

Definition codeJson (c : Code) : Json :=
  match c with
  | CNum n => JNum n
  | CStr s => JString s
  end.

(** [c !== 0] *)
Definition isNonZero (c : Code) : bool :=
  match c with
  | CNum n => negb (n =? 0)%Z
  | CStr _ => true
  end.

(** command-executor.ts, [interface CommandResult]. *)
Record CommandResult := mkCommandResult {
  stdout : jsstring;
  stderr : jsstring;
  exitCode : Code
}.

(** The error [execAsync] rejects with; every property may be missing. *)
Record ExecError := mkExecError {
  error_stdout : option jsstring;
  error_stderr : option jsstring;
  error_message : option jsstring;
  error_code : option Code
}.

(** What awaiting [execAsync(fullCommand, options)] gives. *)
Inductive ExecOutcome :=
| Resolved (out err : jsstring)
| Rejected (error : ExecError).

(** Storage items, with the properties the handlers read. *)
Record GcsBucket := mkGcsBucket {
  bucket_name : jsstring;
  bucket_metadata : Json
}.

Record GcsFile := mkGcsFile {
  file_name : jsstring;
  file_metadata : Json
}.

Record ContainerItem := mkContainerItem {
  container_name : jsstring;
  container_metadata : Json;
  container_properties : Json
}.

Record BlobItem := mkBlobItem {
  blob_name : jsstring;
  blob_properties : Json
}.

(** A collaborator call either returns or throws an error with a message. *)
Inductive SdkResult (A : Type) :=
| SdkOk (a : A)
| SdkError (message : jsstring).

Arguments SdkOk {A} a.
Arguments SdkError {A} message.

(** An async iterator: the items it yields, in order, after which it either
    completes ([failure = None]) or throws. *)
Record Enumeration (A : Type) := mkEnumeration {
  items : list A;
  failure : option jsstring
}.

(** [new Storage()] and [new Storage({ projectId })]. *)
Inductive Storage :=
| mkStorage (projectId : option jsstring).

(** [new BlobServiceClient(accountUrl, credential)]. *)
Inductive Credential :=
| StorageSharedKeyCredential (accountName accountKey : jsstring)
| DefaultAzureCredential.

Record BlobServiceClient := mkBlobServiceClient {
  accountUrl : jsstring;
  credential : Credential
}.

(** Calls that leave the process. *)
Inductive Event :=
| Exec (fullCommand : jsstring) (timeout maxBuffer : Z)
| GetBuckets (storage : Storage)
| GetFiles (bucketName prefix : jsstring) (maxResults : Z)
| Download (bucketName objectName : jsstring) (first last : Z)
| GetMetadata (bucketName objectName : jsstring)
| ListContainers (client : BlobServiceClient)
| ListBlobsFlat (client : BlobServiceClient) (containerName prefix : jsstring)
| Next
| BlobDownload (client : BlobServiceClient) (containerName blobName : jsstring)
               (offset count : Z)
| GetProperties (client : BlobServiceClient) (containerName blobName : jsstring).

Definition Trace := list Event.

(** The runtime and the collaborators.  Every answer may depend on the
    calls made so far. *)
Record Platform := mkPlatform {
  (* String.prototype.toLowerCase *)
  toLowerCase : jsstring -> jsstring;
  (* String(v), the conversion a template literal applies *)
  toString : Json -> jsstring;
  (* JSON.stringify(v, null, 2) *)
  stringify : Json -> jsstring;
  (* JSON.parse(s); None when it throws *)
  parse : jsstring -> option Json;
  (* promisify(exec)(fullCommand, { timeout, maxBuffer }) *)
  execAsync : Trace -> jsstring -> Z -> Z -> ExecOutcome;
  (* storage.getBuckets() *)
  getBuckets : Trace -> Storage -> SdkResult (list GcsBucket);
  (* storage.bucket(bucketName).getFiles({ prefix, maxResults }) *)
  getFiles : Trace -> jsstring -> jsstring -> Z -> SdkResult (list GcsFile);
  (* bucket.file(objectName).download({ start, end }), decoded as UTF-8 *)
  download : Trace -> jsstring -> jsstring -> Z -> Z -> SdkResult jsstring;
  (* bucket.file(objectName).getMetadata() *)
  getMetadata : Trace -> jsstring -> jsstring -> SdkResult Json;
  (* blobServiceClient.listContainers() *)
  listContainers : Trace -> BlobServiceClient -> Enumeration ContainerItem;
  (* containerClient.listBlobsFlat({ prefix }) *)
  listBlobsFlat : Trace -> BlobServiceClient -> jsstring -> jsstring ->
                  Enumeration BlobItem;
  (* blobClient.download(offset, count) read to its end, decoded as UTF-8 *)
  blobDownload : Trace -> BlobServiceClient -> jsstring -> jsstring -> Z -> Z ->
                 SdkResult jsstring;
  (* blobClient.getProperties() *)
  getProperties : Trace -> BlobServiceClient -> jsstring -> jsstring ->
                  SdkResult Json
}.

(** ** The monad of asynchronous, throwing computations *)

Inductive Result (A : Type) :=
| Ok (a : A)
| Throw (message : jsstring).

Arguments Ok {A} a.
Arguments Throw {A} message.

Definition M (A : Type) := Trace -> Result A * Trace.

Definition ret {A} (a : A) : M A := fun t => (Ok a, t).

Definition throw {A} (message : jsstring) : M A := fun t => (Throw message, t).

Definition bind {A B} (m : M A) (k : A -> M B) : M B :=
  fun t =>
    match m t with
    | (Ok a, t') => k a t'
    | (Throw message, t') => (Throw message, t')
    end.

(** [try { m } catch (error) { handler(error.message) }] *)
Definition tryCatch {A} (m : M A) (handler : jsstring -> M A) : M A :=
  fun t =>
    match m t with
    | (Ok a, t') => (Ok a, t')
    | (Throw message, t') => handler message t'
    end.

(** A call to the outside: the answer is computed from the calls made so
    far, and the call is appended to them. *)
Definition call {A} (e : Event) (answer : Trace -> A) : M A :=
  fun t => (Ok (answer t), t ++ [e]).

(** Awaiting a collaborator promise. *)
Definition await {A} (e : Event) (answer : Trace -> SdkResult A) : M A :=
  fun t =>
    match answer t with
    | SdkOk a => (Ok a, t ++ [e])
    | SdkError message => (Throw message, t ++ [e])
    end.

Notation "x <- m ;; k" := (bind m (fun x => k))
  (at level 61, m at next level, right associativity).

(** The uniform response of every tool. *)
Record Content := mkContent {
  type : jsstring;
  text : jsstring
}.

Record ToolResponse := mkToolResponse {
  content : list Content;
  isError : option bool
}.

Definition textContent (s : jsstring) : list Content :=
  [mkContent (lit "text") s].

(* ===================================================================== *)
(** * command-executor.ts : CommandExecutor *)
(* ===================================================================== *)

Module CommandExecutor.

Import SecurityValidator.

(** [error.code || 1] *)
Definition codeOr1 (c : option Code) : Code :=
  match c with
  | Some (CNum n) => if (n =? 0)%Z then CNum 1 else CNum n
  | Some (CStr (u :: s)) => CStr (u :: s)
  | Some (CStr []) => CNum 1
  | None => CNum 1
  end.

(** The two [return]s of the [try { ... } catch (error) { ... }] block:
    the result built when [execAsync] resolves and the one built from the
    error it rejects with. *)
Definition settle (outcome : ExecOutcome) : CommandResult :=
  match outcome with
  | Resolved out err =>
      mkCommandResult (orElse (Some out) []) (orElse (Some err) []) (CNum 0)
  | Rejected error =>
      mkCommandResult
        (orElse (error_stdout error) [])
        (orElse (error_stderr error) (orElse (error_message error) []))
        (codeOr1 (error_code error))
  end.

(** The [try { ... await execAsync(...) ... } catch (error) { ... }] block
    shared by the two methods. *)
Definition run (P : Platform) (fullCommand : jsstring) : M CommandResult :=
  outcome <- call (Exec fullCommand getMaxTimeout getMaxBufferSize)
                  (fun t => execAsync P t fullCommand getMaxTimeout getMaxBufferSize) ;;
  ret (settle outcome).

Definition executeGcpCommand (P : Platform) (command : jsstring)
    (projectId : option jsstring) : M CommandResult :=
  let validation := validateGcpCommand (toLowerCase P) command in
  if negb (valid validation)
  then throw (orElse (reason validation) (lit "Command validation failed"))
  else
    let fullCommand :=
      if truthy projectId
      then lit "gcloud " +++ command +++ lit " --project=" +++ interp projectId
      else lit "gcloud " +++ command in
    run P fullCommand.

Definition executeAzureCommand (P : Platform) (command : jsstring)
    (subscriptionId : option jsstring) : M CommandResult :=
  let validation := validateAzureCommand (toLowerCase P) command in
  if negb (valid validation)
  then throw (orElse (reason validation) (lit "Command validation failed"))
  else
    let fullCommand :=
      if truthy subscriptionId
      then lit "az " +++ command +++ lit " --subscription " +++ interp subscriptionId
      else lit "az " +++ command in
    run P fullCommand.

End CommandExecutor.

(* ===================================================================== *)
(** * Shared pieces of the tool classes *)
(* ===================================================================== *)

Definition nl : jsstring := [10%N].

(** [`${v}`] for an arbitrary value. *)
Definition template (P : Platform) (v : Json) : jsstring :=
  match v with
  | JString s => s
  | _ => toString P v
  end.

(** [array.map((x, i) => f x i)] *)
Fixpoint mapi {A B} (f : A -> nat -> B) (i : nat) (l : list A) : list B :=
  match l with
  | [] => []
  | x :: rest => f x i :: mapi f (S i) rest
  end.

(** The response every command-wrapping handler builds:
    [{ content: [{ type: 'text', text: JSON.stringify({ stdout, stderr,
    exitCode }, null, 2) }], isError: result.exitCode !== 0 }]. *)
Definition commandResponse (P : Platform) (result : CommandResult) : ToolResponse :=
  mkToolResponse
    (textContent
       (stringify P
          (JObject [(lit "stdout", JString (stdout result));
                    (lit "stderr", JString (stderr result));
                    (lit "exitCode", codeJson (exitCode result))])))
    (Some (isNonZero (exitCode result))).

(** The [catch] of both [handleTool] methods:
    [`Error: ${error.message || String(error)}`] with [isError: true];
    [String(error)] of an [Error] whose message is empty is ["Error"]. *)
Definition errorResponse (message : jsstring) : ToolResponse :=
  mkToolResponse
    (textContent (lit "Error: " +++ orElse (Some message) (lit "Error")))
    (Some true).

(** The tool descriptors of [listTools]: [{ name, description,
    inputSchema: { type, properties, required } }]; [required] is missing
    from the schemas that require nothing. *)
Module Schema.

Record Property := mkProperty {
  key : string;
  type : string;
  description : jsstring
}.

Record InputSchema := mkInputSchema {
  schemaType : string;
  properties : list Property;
  required : option (list string)
}.

Record Tool := mkTool {
  name : jsstring;
  summary : jsstring;
  inputSchema : InputSchema
}.

End Schema.

(* ===================================================================== *)
(** * tools/gcp-tools.ts : GcpTools *)
(* ===================================================================== *)

Module GcpTools.

Import CommandExecutor.

(** The instance state: [private storage: Storage | null], [null] when the
    constructor's [new Storage()] threw. *)
Record t := mkGcpTools {
  storage : option Storage
}.

Definition notInitialized : jsstring :=
  lit "GCS client not initialized. Ensure Google Cloud credentials are configured.".

Definition handleRunGcloudCommand (P : Platform) (args : Json) : M ToolResponse :=
  let command := asString (field args "command") in
  let projectId := asString (field args "projectId") in
  if negb (truthy command)
  then throw (lit "Command is required")
  else
    result <- executeGcpCommand P (interp command) projectId ;;
    ret (commandResponse P result).

Definition bucketEntry (bucket : GcsBucket) : Json :=
  JObject [(lit "name", JString (bucket_name bucket));
           (lit "location", field (bucket_metadata bucket) "location");
           (lit "created", field (bucket_metadata bucket) "timeCreated");
           (lit "updated", field (bucket_metadata bucket) "updated")].

(** [new Storage({ projectId })] and [new Storage()] are taken to return a
    client: the embedding has no constructor that throws, although the
    state [storage = None] arises from one that did.  What is stated of
    this handler end to end is stated with the shared client present and
    no project named, where no constructor runs. *)
Definition handleListBuckets (P : Platform) (this : t) (args : Json) : M ToolResponse :=
  let projectId := asString (field args "projectId") in
  let storage :=
    if truthy projectId then mkStorage projectId
    else match storage this with
         | Some client => client
         | None => mkStorage None
         end in
  tryCatch
    (buckets <- await (GetBuckets storage) (fun t => getBuckets P t storage) ;;
     let bucketList := map bucketEntry buckets in
     ret (mkToolResponse (textContent (stringify P (JArray bucketList))) None))
    (fun message => throw (lit "Failed to list buckets: " +++ message)).

Definition objectEntry (file : GcsFile) : Json :=
  JObject [(lit "name", JString (file_name file));
           (lit "size", field (file_metadata file) "size");
           (lit "contentType", field (file_metadata file) "contentType");
           (lit "updated", field (file_metadata file) "updated")].

Definition handleListObjects (P : Platform) (this : t) (args : Json) : M ToolResponse :=
  match storage this with
  | None => throw notInitialized
  | Some _ =>
      let bucketName := asString (field args "bucketName") in
      let prefix := orElse (asString (field args "prefix")) [] in
      let maxResults := orNum (asNumber (field args "maxResults")) 100 in
      if negb (truthy bucketName)
      then throw (lit "Bucket name is required")
      else
        tryCatch
          (files <- await (GetFiles (interp bucketName) prefix maxResults)
                          (fun t => getFiles P t (interp bucketName) prefix maxResults) ;;
           let objectList := map objectEntry files in
           ret (mkToolResponse (textContent (stringify P (JArray objectList))) None))
          (fun message => throw (lit "Failed to list objects: " +++ message))
  end.

Definition handleReadObjectContent (P : Platform) (this : t) (args : Json)
  : M ToolResponse :=
  match storage this with
  | None => throw notInitialized
  | Some _ =>
      let bucketName := asString (field args "bucketName") in
      let objectName := asString (field args "objectName") in
      let maxBytes := orNum (asNumber (field args "maxBytes")) (1024 * 1024) in
      if negb (truthy bucketName) || negb (truthy objectName)
      then throw (lit "Bucket name and object name are required")
      else
        tryCatch
          (content <- await (Download (interp bucketName) (interp objectName) 0 (maxBytes - 1))
                            (fun t => download P t (interp bucketName) (interp objectName)
                                               0 (maxBytes - 1)) ;;
           ret (mkToolResponse (textContent content) None))
          (fun message => throw (lit "Failed to read object: " +++ message))
  end.

Definition handleGetObjectMetadata (P : Platform) (this : t) (args : Json)
  : M ToolResponse :=
  match storage this with
  | None => throw notInitialized
  | Some _ =>
      let bucketName := asString (field args "bucketName") in
      let objectName := asString (field args "objectName") in
      if negb (truthy bucketName) || negb (truthy objectName)
      then throw (lit "Bucket name and object name are required")
      else
        tryCatch
          (metadata <- await (GetMetadata (interp bucketName) (interp objectName))
                             (fun t => getMetadata P t (interp bucketName) (interp objectName)) ;;
           ret (mkToolResponse (textContent (stringify P metadata)) None))
          (fun message => throw (lit "Failed to get object metadata: " +++ message))
  end.

(** The [try { JSON.parse ... } catch { ... }] tail shared by the two
    handlers that parse the CLI's JSON output; [empty] is the value used
    when stdout is empty. *)
Definition parsedResponse (P : Platform) (result : CommandResult)
    (empty : Json) (fallback : jsstring) : ToolResponse :=
  match (if isEmpty (stdout result) then Some empty else parse P (stdout result)) with
  | Some parsed =>
      mkToolResponse (textContent (stringify P parsed))
                     (Some (isNonZero (exitCode result)))
  | None =>
      mkToolResponse
        (textContent (orElse (Some (stdout result))
                        (orElse (Some (stderr result)) fallback)))
        (Some true)
  end.

Definition handleListGceInstances (P : Platform) (args : Json) : M ToolResponse :=
  let projectId := asString (field args "projectId") in
  let zone := asString (field args "zone") in
  let status := asString (field args "status") in
  let command := lit "compute instances list" in
  let command := if truthy zone then command +++ lit " --zones=" +++ interp zone
                 else command in
  let command := if truthy status
                 then command +++ lit " --filter=" +++ [34%N] +++ lit "status:" +++
                      interp status +++ [34%N]
                 else command in
  let command := command +++ lit " --format=json" in
  result <- executeGcpCommand P command projectId ;;
  ret (parsedResponse P result (JArray []) (lit "Failed to parse instance list")).

(** Start, stop and restart differ by the verb only. *)
Definition instanceCommand (P : Platform) (verb : string) (args : Json)
  : M ToolResponse :=
  let instance := asString (field args "instance") in
  let zone := asString (field args "zone") in
  let projectId := asString (field args "projectId") in
  if negb (truthy instance) || negb (truthy zone)
  then throw (lit "Instance name and zone are required")
  else
    let command := lit "compute instances " +++ lit verb +++ lit " " +++
                   interp instance +++ lit " --zone=" +++ interp zone in
    result <- executeGcpCommand P command projectId ;;
    ret (commandResponse P result).

Definition handleStartGceInstance (P : Platform) := instanceCommand P "start".
Definition handleStopGceInstance (P : Platform) := instanceCommand P "stop".
Definition handleRestartGceInstance (P : Platform) := instanceCommand P "reset".

Definition handleGetGceInstanceInfo (P : Platform) (args : Json) : M ToolResponse :=
  let instance := asString (field args "instance") in
  let zone := asString (field args "zone") in
  let projectId := asString (field args "projectId") in
  if negb (truthy instance) || negb (truthy zone)
  then throw (lit "Instance name and zone are required")
  else
    let command := lit "compute instances describe " +++ interp instance +++
                   lit " --zone=" +++ interp zone +++ lit " --format=json" in
    result <- executeGcpCommand P command projectId ;;
    ret (parsedResponse P result (JObject []) (lit "Failed to parse instance info")).

(** [Object.entries(labels).map(([key, value]) => `${key}=${value}`).join(',')] *)
Definition labelsStr (P : Platform) (labels : list (jsstring * Json)) : jsstring :=
  join (lit ",")
       (map (fun kv => fst kv +++ lit "=" +++ template P (snd kv)) labels).

Definition machineTypeCommand (instance zone : jsstring)
    (machineType : option jsstring) : jsstring :=
  let command := lit "compute instances set-machine-type " +++ instance +++
                 lit " --zone=" +++ zone in
  if truthy machineType
  then command +++ lit " --machine-type=" +++ interp machineType
  else command.

Definition labelCommand (P : Platform) (instance zone : jsstring)
    (labels : list (jsstring * Json)) : jsstring :=
  lit "compute instances add-labels " +++ instance +++ lit " --zone=" +++ zone +++
  lit " --labels=" +++ labelsStr P labels.

(** [`Operation ${i + 1}:\n${r.stdout}\n${r.stderr}`] *)
Definition operationText (r : CommandResult) (i : nat) : jsstring :=
  lit "Operation " +++ ofN (N.of_nat (i + 1)) +++ lit ":" +++ nl +++
  stdout r +++ nl +++ stderr r.

Definition combinedOutput (results : list CommandResult) : jsstring :=
  join (nl +++ nl) (mapi operationText 0 results).

(** [results.some((r) => r.exitCode !== 0)] *)
Definition hasError (results : list CommandResult) : bool :=
  existsb (fun r => isNonZero (exitCode r)) results.

Definition handleModifyGceInstance (P : Platform) (args : Json) : M ToolResponse :=
  let instance := asString (field args "instance") in
  let zone := asString (field args "zone") in
  let projectId := asString (field args "projectId") in
  let machineType := asString (field args "machineType") in
  let labels := asRecord (field args "labels") in
  if negb (truthy instance) || negb (truthy zone)
  then throw (lit "Instance name and zone are required")
  else
    let command := machineTypeCommand (interp instance) (interp zone) machineType in
    let results : list CommandResult := [] in
    results <- (if truthy machineType
                then result <- executeGcpCommand P command projectId ;;
                     ret (results ++ [result])
                else ret results) ;;
    results <- (match labels with
                | Some entries =>
                    result <- executeGcpCommand P
                                (labelCommand P (interp instance) (interp zone) entries)
                                projectId ;;
                    ret (results ++ [result])
                | None => ret results
                end) ;;
    if (List.length results =? 0)%nat
    then throw (lit "Either machineType or labels must be provided")
    else
      ret (mkToolResponse (textContent (combinedOutput results))
                          (Some (hasError results))).

(** The [switch (name)] of [handleTool]; names are compared as strings. *)
Definition named (name : jsstring) (tool : string) : bool := Js.eqb name (lit tool).

Definition handleTool (P : Platform) (this : t) (name : jsstring) (args : Json)
  : M ToolResponse :=
  tryCatch
    (if named name "gcp_run_gcloud_command" then handleRunGcloudCommand P args
     else if named name "gcp_list_buckets" then handleListBuckets P this args
     else if named name "gcp_list_objects" then handleListObjects P this args
     else if named name "gcp_read_object_content" then handleReadObjectContent P this args
     else if named name "gcp_get_object_metadata" then handleGetObjectMetadata P this args
     else if named name "gcp_list_gce_instances" then handleListGceInstances P args
     else if named name "gcp_start_gce_instance" then handleStartGceInstance P args
     else if named name "gcp_stop_gce_instance" then handleStopGceInstance P args
     else if named name "gcp_restart_gce_instance" then handleRestartGceInstance P args
     else if named name "gcp_get_gce_instance_info" then handleGetGceInstanceInfo P args
     else if named name "gcp_modify_gce_instance" then handleModifyGceInstance P args
     else throw (lit "Unknown GCP tool: " +++ name))
    (fun message => ret (errorResponse message)).

(** [listTools()]: the descriptors of the eleven GCP tools. *)
Definition tools : list Schema.Tool :=
  [
   Schema.mkTool (lit "gcp_run_gcloud_command")
     (lit "Execute a gcloud command safely with security restrictions. Supports project-specific commands.")
     (Schema.mkInputSchema "object"
        [
          Schema.mkProperty "command" "string"
            (lit "The gcloud command to execute (without the " +++ [34%N] +++ lit "gcloud" +++ [34%N] +++ lit " prefix)");
          Schema.mkProperty "projectId" "string"
            (lit "Optional GCP project ID to use for the command")
        ]
        (Some ["command"%string]));
   Schema.mkTool (lit "gcp_list_buckets")
     (lit "List all GCS buckets in a project")
     (Schema.mkInputSchema "object"
        [
          Schema.mkProperty "projectId" "string"
            (lit "Optional GCP project ID. Uses default if not provided.")
        ]
        (None));
   Schema.mkTool (lit "gcp_list_objects")
     (lit "List objects in a GCS bucket with optional prefix filtering")
     (Schema.mkInputSchema "object"
        [
          Schema.mkProperty "bucketName" "string"
            (lit "Name of the GCS bucket");
          Schema.mkProperty "prefix" "string"
            (lit "Optional prefix to filter objects");
          Schema.mkProperty "maxResults" "number"
            (lit "Maximum number of objects to return (default: 100)")
        ]
        (Some ["bucketName"%string]));
   Schema.mkTool (lit "gcp_read_object_content")
     (lit "Read the content of a GCS object")
     (Schema.mkInputSchema "object"
        [
          Schema.mkProperty "bucketName" "string"
            (lit "Name of the GCS bucket");
          Schema.mkProperty "objectName" "string"
            (lit "Name of the object in the bucket");
          Schema.mkProperty "maxBytes" "number"
            (lit "Maximum bytes to read (default: 1MB)")
        ]
        (Some ["bucketName"%string; "objectName"%string]));
   Schema.mkTool (lit "gcp_get_object_metadata")
     (lit "Get metadata for a GCS object")
     (Schema.mkInputSchema "object"
        [
          Schema.mkProperty "bucketName" "string"
            (lit "Name of the GCS bucket");
          Schema.mkProperty "objectName" "string"
            (lit "Name of the object in the bucket")
        ]
        (Some ["bucketName"%string; "objectName"%string]));
   Schema.mkTool (lit "gcp_list_gce_instances")
     (lit "List Google Compute Engine instances")
     (Schema.mkInputSchema "object"
        [
          Schema.mkProperty "projectId" "string"
            (lit "Optional GCP project ID");
          Schema.mkProperty "zone" "string"
            (lit "Zone filter (optional)");
          Schema.mkProperty "status" "string"
            (lit "Status filter: RUNNING, STOPPED, etc. (optional)")
        ]
        (None));
   Schema.mkTool (lit "gcp_start_gce_instance")
     (lit "Start a GCE instance")
     (Schema.mkInputSchema "object"
        [
          Schema.mkProperty "instance" "string"
            (lit "Instance name");
          Schema.mkProperty "zone" "string"
            (lit "Zone where the instance is located");
          Schema.mkProperty "projectId" "string"
            (lit "Optional GCP project ID")
        ]
        (Some ["instance"%string; "zone"%string]));
   Schema.mkTool (lit "gcp_stop_gce_instance")
     (lit "Stop a GCE instance")
     (Schema.mkInputSchema "object"
        [
          Schema.mkProperty "instance" "string"
            (lit "Instance name");
          Schema.mkProperty "zone" "string"
            (lit "Zone where the instance is located");
          Schema.mkProperty "projectId" "string"
            (lit "Optional GCP project ID")
        ]
        (Some ["instance"%string; "zone"%string]));
   Schema.mkTool (lit "gcp_restart_gce_instance")
     (lit "Restart a GCE instance")
     (Schema.mkInputSchema "object"
        [
          Schema.mkProperty "instance" "string"
            (lit "Instance name");
          Schema.mkProperty "zone" "string"
            (lit "Zone where the instance is located");
          Schema.mkProperty "projectId" "string"
            (lit "Optional GCP project ID")
        ]
        (Some ["instance"%string; "zone"%string]));
   Schema.mkTool (lit "gcp_get_gce_instance_info")
     (lit "Get detailed information about a GCE instance")
     (Schema.mkInputSchema "object"
        [
          Schema.mkProperty "instance" "string"
            (lit "Instance name");
          Schema.mkProperty "zone" "string"
            (lit "Zone where the instance is located");
          Schema.mkProperty "projectId" "string"
            (lit "Optional GCP project ID")
        ]
        (Some ["instance"%string; "zone"%string]));
   Schema.mkTool (lit "gcp_modify_gce_instance")
     (lit "Modify GCE instance properties (machine type, labels, etc.)")
     (Schema.mkInputSchema "object"
        [
          Schema.mkProperty "instance" "string"
            (lit "Instance name");
          Schema.mkProperty "zone" "string"
            (lit "Zone where the instance is located");
          Schema.mkProperty "machineType" "string"
            (lit "New machine type (optional)");
          Schema.mkProperty "labels" "object"
            (lit "Labels to add/update (optional)");
          Schema.mkProperty "projectId" "string"
            (lit "Optional GCP project ID")
        ]
        (Some ["instance"%string; "zone"%string]))
  ].

Definition listTools : M (list Schema.Tool) := ret tools.

End GcpTools.

(* ===================================================================== *)
(** * tools/azure-tools.ts : AzureTools *)
(* ===================================================================== *)

Module AzureTools.

Import CommandExecutor.

Definition handleRunAzCommand (P : Platform) (args : Json) : M ToolResponse :=
  let command := asString (field args "command") in
  let subscriptionId := asString (field args "subscriptionId") in
  if negb (truthy command)
  then throw (lit "Command is required")
  else
    result <- executeAzureCommand P (interp command) subscriptionId ;;
    ret (commandResponse P result).

Definition handleListStorageAccounts (P : Platform) (args : Json) : M ToolResponse :=
  let subscriptionId := asString (field args "subscriptionId") in
  let resourceGroup := asString (field args "resourceGroup") in
  let command := lit "storage account list" in
  let command := if truthy resourceGroup
                 then command +++ lit " --resource-group " +++ interp resourceGroup
                 else command in
  result <- executeAzureCommand P command subscriptionId ;;
  if isNonZero (exitCode result)
  then throw (lit "Failed to list storage accounts: " +++ stderr result)
  else
    match parse P (stdout result) with
    | None => throw (lit "Failed to parse storage accounts output")
    | Some accounts =>
        ret (mkToolResponse (textContent (stringify P accounts)) None)
    end.

Definition getBlobServiceClient (accountName : jsstring) (accountKey : option jsstring)
  : BlobServiceClient :=
  let accountUrl := lit "https://" +++ accountName +++ lit ".blob.core.windows.net" in
  if truthy accountKey
  then mkBlobServiceClient accountUrl
         (StorageSharedKeyCredential accountName (interp accountKey))
  else mkBlobServiceClient accountUrl DefaultAzureCredential.

Definition containerEntry (container : ContainerItem) : Json :=
  JObject [(lit "name", JString (container_name container));
           (lit "metadata", container_metadata container);
           (lit "properties",
            JObject [(lit "lastModified",
                      field (container_properties container) "lastModified");
                     (lit "etag", field (container_properties container) "etag")])].

(** [for await (const container of ...) { containers.push({...}) }]: every
    step asks the iterator for its next element. *)
Fixpoint collectContainers (items : list ContainerItem) (failure : option jsstring)
    (containers : list Json) : M (list Json) :=
  fun t =>
    match items with
    | [] =>
        match failure with
        | Some message => (Throw message, t ++ [Next])
        | None => (Ok containers, t ++ [Next])
        end
    | container :: rest =>
        collectContainers rest failure (containers ++ [containerEntry container])
                          (t ++ [Next])
    end.

Definition handleListContainers (P : Platform) (args : Json) : M ToolResponse :=
  let accountName := asString (field args "accountName") in
  let accountKey := asString (field args "accountKey") in
  if negb (truthy accountName)
  then throw (lit "Account name is required")
  else
    tryCatch
      (let blobServiceClient := getBlobServiceClient (interp accountName) accountKey in
       iterator <- call (ListContainers blobServiceClient)
                        (fun t => listContainers P t blobServiceClient) ;;
       containers <- collectContainers (items iterator) (failure iterator) [] ;;
       ret (mkToolResponse (textContent (stringify P (JArray containers))) None))
      (fun message => throw (lit "Failed to list containers: " +++ message)).

Definition blobEntry (blob : BlobItem) : Json :=
  JObject [(lit "name", JString (blob_name blob));
           (lit "size", field (blob_properties blob) "contentLength");
           (lit "contentType", field (blob_properties blob) "contentType");
           (lit "lastModified", field (blob_properties blob) "lastModified");
           (lit "etag", field (blob_properties blob) "etag")].

(** [for await (const blob of ...) { if (count >= maxResults) break;
    blobs.push({...}); count++; }] *)
Fixpoint collectBlobs (maxResults : Z) (items : list BlobItem)
    (failure : option jsstring) (count : Z) (blobs : list Json) : M (list Json) :=
  fun t =>
    match items with
    | [] =>
        match failure with
        | Some message => (Throw message, t ++ [Next])
        | None => (Ok blobs, t ++ [Next])
        end
    | blob :: rest =>
        if (count >=? maxResults)%Z
        then (Ok blobs, t ++ [Next])
        else collectBlobs maxResults rest failure (count + 1)
                          (blobs ++ [blobEntry blob]) (t ++ [Next])
    end.

Definition handleListBlobs (P : Platform) (args : Json) : M ToolResponse :=
  let accountName := asString (field args "accountName") in
  let containerName := asString (field args "containerName") in
  let prefix := orElse (asString (field args "prefix")) [] in
  let maxResults := orNum (asNumber (field args "maxResults")) 100 in
  let accountKey := asString (field args "accountKey") in
  if negb (truthy accountName) || negb (truthy containerName)
  then throw (lit "Account name and container name are required")
  else
    tryCatch
      (let blobServiceClient := getBlobServiceClient (interp accountName) accountKey in
       iterator <- call (ListBlobsFlat blobServiceClient (interp containerName) prefix)
                        (fun t => listBlobsFlat P t blobServiceClient
                                                (interp containerName) prefix) ;;
       blobs <- collectBlobs maxResults (items iterator) (failure iterator) 0 [] ;;
       ret (mkToolResponse (textContent (stringify P (JArray blobs))) None))
      (fun message => throw (lit "Failed to list blobs: " +++ message)).

Definition handleReadBlobContent (P : Platform) (args : Json) : M ToolResponse :=
  let accountName := asString (field args "accountName") in
  let containerName := asString (field args "containerName") in
  let blobName := asString (field args "blobName") in
  let maxBytes := orNum (asNumber (field args "maxBytes")) (1024 * 1024) in
  let accountKey := asString (field args "accountKey") in
  if negb (truthy accountName) || negb (truthy containerName) || negb (truthy blobName)
  then throw (lit "Account name, container name, and blob name are required")
  else
    tryCatch
      (let blobServiceClient := getBlobServiceClient (interp accountName) accountKey in
       content <- await (BlobDownload blobServiceClient (interp containerName)
                                      (interp blobName) 0 maxBytes)
                        (fun t => blobDownload P t blobServiceClient
                                    (interp containerName) (interp blobName) 0 maxBytes) ;;
       ret (mkToolResponse (textContent content) None))
      (fun message => throw (lit "Failed to read blob: " +++ message)).

Definition handleGetBlobMetadata (P : Platform) (args : Json) : M ToolResponse :=
  let accountName := asString (field args "accountName") in
  let containerName := asString (field args "containerName") in
  let blobName := asString (field args "blobName") in
  let accountKey := asString (field args "accountKey") in
  if negb (truthy accountName) || negb (truthy containerName) || negb (truthy blobName)
  then throw (lit "Account name, container name, and blob name are required")
  else
    tryCatch
      (let blobServiceClient := getBlobServiceClient (interp accountName) accountKey in
       properties <- await (GetProperties blobServiceClient (interp containerName)
                                          (interp blobName))
                           (fun t => getProperties P t blobServiceClient
                                       (interp containerName) (interp blobName)) ;;
       let metadata :=
         JObject [(lit "name", JString (interp blobName));
                  (lit "contentType", field properties "contentType");
                  (lit "contentLength", field properties "contentLength");
                  (lit "lastModified", field properties "lastModified");
                  (lit "etag", field properties "etag");
                  (lit "metadata", field properties "metadata");
                  (lit "blobType", field properties "blobType");
                  (lit "accessTier", field properties "accessTier")] in
       ret (mkToolResponse (textContent (stringify P metadata)) None))
      (fun message => throw (lit "Failed to get blob metadata: " +++ message)).

Definition named (name : jsstring) (tool : string) : bool := Js.eqb name (lit tool).

Definition handleTool (P : Platform) (name : jsstring) (args : Json) : M ToolResponse :=
  tryCatch
    (if named name "azure_run_az_command" then handleRunAzCommand P args
     else if named name "azure_list_storage_accounts" then handleListStorageAccounts P args
     else if named name "azure_list_containers" then handleListContainers P args
     else if named name "azure_list_blobs" then handleListBlobs P args
     else if named name "azure_read_blob_content" then handleReadBlobContent P args
     else if named name "azure_get_blob_metadata" then handleGetBlobMetadata P args
     else throw (lit "Unknown Azure tool: " +++ name))
    (fun message => ret (errorResponse message)).

(** [listTools()]: the descriptors of the six Azure tools. *)
Definition tools : list Schema.Tool :=
  [
   Schema.mkTool (lit "azure_run_az_command")
     (lit "Execute an Azure CLI command safely with security restrictions. Supports subscription-specific commands.")
     (Schema.mkInputSchema "object"
        [
          Schema.mkProperty "command" "string"
            (lit "The az command to execute (without the " +++ [34%N] +++ lit "az" +++ [34%N] +++ lit " prefix)");
          Schema.mkProperty "subscriptionId" "string"
            (lit "Optional Azure subscription ID to use for the command")
        ]
        (Some ["command"%string]));
   Schema.mkTool (lit "azure_list_storage_accounts")
     (lit "List all storage accounts in a subscription")
     (Schema.mkInputSchema "object"
        [
          Schema.mkProperty "subscriptionId" "string"
            (lit "Optional Azure subscription ID. Uses default if not provided.");
          Schema.mkProperty "resourceGroup" "string"
            (lit "Optional resource group name to filter by")
        ]
        (None));
   Schema.mkTool (lit "azure_list_containers")
     (lit "List containers in an Azure Storage account")
     (Schema.mkInputSchema "object"
        [
          Schema.mkProperty "accountName" "string"
            (lit "Name of the Azure Storage account");
          Schema.mkProperty "accountKey" "string"
            (lit "Optional storage account key. Uses DefaultAzureCredential if not provided.")
        ]
        (Some ["accountName"%string]));
   Schema.mkTool (lit "azure_list_blobs")
     (lit "List blobs in an Azure Storage container with optional prefix filtering")
     (Schema.mkInputSchema "object"
        [
          Schema.mkProperty "accountName" "string"
            (lit "Name of the Azure Storage account");
          Schema.mkProperty "containerName" "string"
            (lit "Name of the container");
          Schema.mkProperty "prefix" "string"
            (lit "Optional prefix to filter blobs");
          Schema.mkProperty "maxResults" "number"
            (lit "Maximum number of blobs to return (default: 100)");
          Schema.mkProperty "accountKey" "string"
            (lit "Optional storage account key. Uses DefaultAzureCredential if not provided.")
        ]
        (Some ["accountName"%string; "containerName"%string]));
   Schema.mkTool (lit "azure_read_blob_content")
     (lit "Read the content of an Azure Storage blob")
     (Schema.mkInputSchema "object"
        [
          Schema.mkProperty "accountName" "string"
            (lit "Name of the Azure Storage account");
          Schema.mkProperty "containerName" "string"
            (lit "Name of the container");
          Schema.mkProperty "blobName" "string"
            (lit "Name of the blob");
          Schema.mkProperty "maxBytes" "number"
            (lit "Maximum bytes to read (default: 1MB)");
          Schema.mkProperty "accountKey" "string"
            (lit "Optional storage account key. Uses DefaultAzureCredential if not provided.")
        ]
        (Some ["accountName"%string; "containerName"%string; "blobName"%string]));
   Schema.mkTool (lit "azure_get_blob_metadata")
     (lit "Get metadata for an Azure Storage blob")
     (Schema.mkInputSchema "object"
        [
          Schema.mkProperty "accountName" "string"
            (lit "Name of the Azure Storage account");
          Schema.mkProperty "containerName" "string"
            (lit "Name of the container");
          Schema.mkProperty "blobName" "string"
            (lit "Name of the blob");
          Schema.mkProperty "accountKey" "string"
            (lit "Optional storage account key. Uses DefaultAzureCredential if not provided.")
        ]
        (Some ["accountName"%string; "containerName"%string; "blobName"%string]))
  ].

Definition listTools : M (list Schema.Tool) := ret tools.

End AzureTools.

(* ===================================================================== *)
(** * index.ts : the stdio server's CallTool handler *)
(* ===================================================================== *)

(** [args || {}] *)
Definition orEmptyObject (args : Json) : Json :=
  if truthyJson args then args else JObject [].

Module McpServer.

(** The request handler registered for [CallToolRequestSchema];
    [name] and [args] are [request.params.name] and
    [request.params.arguments]. *)
Definition callTool (P : Platform) (gcpTools : GcpTools.t)
    (name : jsstring) (args : Json) : M ToolResponse :=
  if startsWith name (lit "gcp_")
  then GcpTools.handleTool P gcpTools name (orEmptyObject args)
  else if startsWith name (lit "azure_")
  then AzureTools.handleTool P name (orEmptyObject args)
  else throw (lit "Unknown tool: " +++ name).

(** The request handler registered for [ListToolsRequestSchema]:
    [{ tools: [...gcpToolList, ...azureToolList] }]. *)
Definition listTools : M (list Schema.Tool) :=
  gcpToolList <- GcpTools.listTools ;;
  azureToolList <- AzureTools.listTools ;;
  ret (gcpToolList ++ azureToolList).

End McpServer.

(* ===================================================================== *)
(** * http-server.ts : the Express routes that dispatch *)
(* ===================================================================== *)

Module HttpServer.

(** What [res.json(result)] and [res.status(code).json({ error })] send. *)
Inductive Body :=
| ResultBody (result : ToolResponse)
| ErrorBody (error : jsstring).

Record Response := mkResponse {
  status : Z;
  body : Body
}.

(** Reading a property of [req.body] throws a [TypeError] when the body is
    [undefined] or [null]. *)
Definition property (o : Json) (key : string) : M Json :=
  match o with
  | JUndefined =>
      throw (lit "Cannot read properties of undefined (reading '" +++ lit key +++ lit "')")
  | JNull =>
      throw (lit "Cannot read properties of null (reading '" +++ lit key +++ lit "')")
  | _ => ret (field o key)
  end.

Definition dispatch (P : Platform) (gcpTools : GcpTools.t)
    (toolName : jsstring) (args : Json) : M Response :=
  if startsWith toolName (lit "gcp_")
  then result <- GcpTools.handleTool P gcpTools toolName args ;;
       ret (mkResponse 200 (ResultBody result))
  else if startsWith toolName (lit "azure_")
  then result <- AzureTools.handleTool P toolName args ;;
       ret (mkResponse 200 (ResultBody result))
  else ret (mkResponse 400 (ErrorBody (lit "Unknown tool: " +++ toolName))).

(** [app.post('/tools/:toolName', ...)] *)
Definition postTool (P : Platform) (gcpTools : GcpTools.t)
    (toolName : jsstring) (reqBody : Json) : M Response :=
  tryCatch
    (arguments <- property reqBody "arguments" ;;
     let args := if truthyJson arguments then arguments
                 else orEmptyObject reqBody in
     dispatch P gcpTools toolName args)
    (fun message => ret (mkResponse 500 (ErrorBody message))).

(** The pattern [const { name, arguments: args } = req.body] throws a
    [TypeError] when the body is [undefined] or [null]. *)
Definition destructure (o : Json) : M (Json * Json) :=
  match o with
  | JUndefined =>
      throw (lit "Cannot destructure property 'name' of 'req.body' as it is undefined.")
  | JNull =>
      throw (lit "Cannot destructure property 'name' of 'req.body' as it is null.")
  | _ => ret (field o "name", field o "arguments")
  end.

(** [app.post('/mcp/call', ...)]; calling [startsWith] on a name that is
    not a string throws a [TypeError]. *)
Definition postMcpCall (P : Platform) (gcpTools : GcpTools.t) (reqBody : Json)
  : M Response :=
  tryCatch
    (params <- destructure reqBody ;;
     let name := fst params in
     let args := snd params in
     if negb (truthyJson name)
     then ret (mkResponse 400 (ErrorBody (lit "Tool name is required")))
     else
       match name with
       | JString name => dispatch P gcpTools name (orEmptyObject args)
       | _ => throw (lit "name.startsWith is not a function")
       end)
    (fun message => ret (mkResponse 500 (ErrorBody message))).

End HttpServer.

(* ===================================================================== *)
(** * The two providers, as the contracts name them *)
(* ===================================================================== *)

Inductive Provider := Gcp | Azure.

Definition denylist (provider : Provider) : list jsstring :=
  match provider with
  | Gcp => SecurityValidator.BLOCKED_GCP_COMMANDS
  | Azure => SecurityValidator.BLOCKED_AZURE_COMMANDS
  end.

(** [validate(providerKind, rawCommand)]: the validator method of the
    provider. *)
Definition validate (toLowerCase : jsstring -> jsstring) (provider : Provider)
    (command : jsstring) : Validation :=
  match provider with
  | Gcp => SecurityValidator.validateGcpCommand toLowerCase command
  | Azure => SecurityValidator.validateAzureCommand toLowerCase command
  end.

(** [executeGcp(command, projectId?)] and [executeAzure(command,
    subscriptionId?)]: the executor method of the provider. *)
Definition execute (P : Platform) (provider : Provider) (command : jsstring)
    (scopeId : option jsstring) : M CommandResult :=
  match provider with
  | Gcp => CommandExecutor.executeGcpCommand P command scopeId
  | Azure => CommandExecutor.executeAzureCommand P command scopeId
  end.

(** The invocation the contract of the executor describes: the CLI name, a
    space, the raw command, and the scoping flag when a scope identifier
    (a non-empty string) is supplied. *)
Definition cliName (provider : Provider) : jsstring :=
  match provider with
  | Gcp => lit "gcloud"
  | Azure => lit "az"
  end.

Definition scopeFlag (provider : Provider) : jsstring :=
  match provider with
  | Gcp => lit " --project="
  | Azure => lit " --subscription "
  end.

Definition invocation (provider : Provider) (command : jsstring)
    (scopeId : option jsstring) : jsstring :=
  match scopeId with
  | Some (c :: s) => cliName provider +++ lit " " +++ command +++
                     scopeFlag provider +++ (c :: s)
  | _ => cliName provider +++ lit " " +++ command
  end.

(** The call to the outside that runs an invocation under the policy
    bounds. *)
Definition spawn (fullCommand : jsstring) : Event :=
  Exec fullCommand SecurityValidator.MAX_TIMEOUT_MS SecurityValidator.MAX_BUFFER_SIZE.

(** A command made of white space only (the empty command included). *)
Definition whitespaceOnly (command : jsstring) : bool :=
  forallb isWhiteSpace command.

(** [c] is a truthy value of [error.code]: a non-zero number or a
    non-empty string. *)
Definition truthyCode (c : Code) : bool :=
  match c with
  | CNum n => negb (n =? 0)%Z
  | CStr s => negb (isEmpty s)
  end.

(** The commands of the sub-operations of [gcp_modify_gce_instance], in
    the order of the handler: the machine-type change when [machineType]
    is given, then the label update when [labels] is given. *)
Definition modifySteps (P : Platform) (args : Json) : list jsstring :=
  let instance := interp (asString (field args "instance")) in
  let zone := interp (asString (field args "zone")) in
  let machineType := asString (field args "machineType") in
  (if truthy machineType
   then [lit "compute instances set-machine-type " +++ instance +++
         lit " --zone=" +++ zone +++ lit " --machine-type=" +++ interp machineType]
   else []) ++
  match asRecord (field args "labels") with
  | Some entries => [GcpTools.labelCommand P instance zone entries]
  | None => []
  end.

(** Running invocations one after the other from trace [t]: one result per
    invocation, each process seeing the calls made before it. *)
Fixpoint runSteps (P : Platform) (invocations : list jsstring) (t : Trace)
  : list CommandResult :=
  match invocations with
  | [] => []
  | fullCommand :: rest =>
      CommandExecutor.settle
        (execAsync P t fullCommand
                   SecurityValidator.MAX_TIMEOUT_MS SecurityValidator.MAX_BUFFER_SIZE)
      :: runSteps P rest (t ++ [spawn fullCommand])
  end.

(** The successful response of a listing handler: the serialised array of
    its entries, [isError] unset. *)
Definition listing (P : Platform) (entries : list Json) : ToolResponse :=
  mkToolResponse (textContent (stringify P (JArray entries))) None.

(* ===================================================================== *)
(** * A closed platform, to run the embedding *)
(* ===================================================================== *)

Module Demo.

Definition ofZ (n : Z) : jsstring :=
  match n with
  | Zneg p => lit "-" +++ ofN (Npos p)
  | _ => ofN (Z.to_N n)
  end.

Definition quote (s : jsstring) : jsstring := [34%N] +++ s +++ [34%N].

(** A compact serialiser, standing for [JSON.stringify]. *)
Fixpoint compact (v : Json) : jsstring :=
  match v with
  | JUndefined | JNull => lit "null"
  | JBool true => lit "true"
  | JBool false => lit "false"
  | JNum n => ofZ n
  | JString s => quote s
  | JArray elements => lit "[" +++ join (lit ",") (map compact elements) +++ lit "]"
  | JObject entries =>
      lit "{" +++
      join (lit ",")
           (map (fun kv => match kv with
                           | (k, x) => quote k +++ lit ":" +++ compact x
                           end) entries) +++
      lit "}"
  end.

(** The platform whose child processes answer [exec], whose container
    listing yields [containers] and whose blob listing yields [blobs]; the
    other collaborators return empty answers. *)
Definition platform (exec : Trace -> jsstring -> ExecOutcome)
    (containers : list ContainerItem) (blobs : list BlobItem) : Platform :=
  {| toLowerCase := asciiToLowerCase;
     toString := compact;
     stringify := compact;
     parse := fun _ => None;
     execAsync := fun t fullCommand _ _ => exec t fullCommand;
     getBuckets := fun _ _ => SdkOk [];
     getFiles := fun _ _ _ _ => SdkOk [];
     download := fun _ _ _ _ _ => SdkOk [];
     getMetadata := fun _ _ _ => SdkOk (JObject []);
     listContainers := fun _ _ => mkEnumeration containers None;
     listBlobsFlat := fun _ _ _ _ => mkEnumeration blobs None;
     blobDownload := fun _ _ _ _ _ _ => SdkOk [];
     getProperties := fun _ _ _ _ => SdkOk (JObject []) |}.

(** Every process exits with status 0 and prints nothing. *)
Definition succeeds : Trace -> jsstring -> ExecOutcome :=
  fun _ _ => Resolved [] [].

(** Every process is killed by the timeout: no exit status, partial
    output, an error message. *)
Definition timesOut : Trace -> jsstring -> ExecOutcome :=
  fun _ fullCommand =>
    Rejected (mkExecError (Some (lit "partial")) (Some [])
                          (Some (lit "Command failed: " +++ fullCommand)) None).

(** The first process succeeds, every later one exits with status 2. *)
Definition failsAfterFirst : Trace -> jsstring -> ExecOutcome :=
  fun t _ =>
    match t with
    | [] => Resolved (lit "done") []
    | _ :: _ => Rejected (mkExecError (Some []) (Some (lit "denied"))
                                      (Some (lit "Command failed")) (Some (CNum 2)))
    end.

Definition quiet : Platform := platform succeeds [] [].

Definition container (n : nat) : ContainerItem :=
  mkContainerItem (lit "c" +++ ofN (N.of_nat n)) JUndefined JUndefined.

Definition blob (n : nat) : BlobItem :=
  mkBlobItem (lit "b" +++ ofN (N.of_nat n)) (JObject []).

Definition gcp : GcpTools.t := GcpTools.mkGcpTools (Some (mkStorage None)).

Definition gcpWithoutStorage : GcpTools.t := GcpTools.mkGcpTools None.

Definition object (entries : list (string * Json)) : Json :=
  JObject (map (fun kv => (lit (fst kv), snd kv)) entries).

Definition str (s : string) : Json := JString (lit s).

(** Arguments of [gcp_modify_gce_instance]: both modifications, and none. *)
Definition modifyArgs : Json :=
  object [("instance"%string, str "vm");
          ("zone"%string, str "z");
          ("projectId"%string, str "p");
          ("machineType"%string, str "n1");
          ("labels"%string,
           object [("env"%string, str "prod"); ("team"%string, str "core")])].

Definition instanceArgs : Json :=
  object [("instance"%string, str "vm"); ("zone"%string, str "z")].

(** A label update whose key carries both tokens of the GCP format rule. *)
Definition suspiciousArgs : Json :=
  object [("instance"%string, str "vm");
          ("zone"%string, str "z");
          ("machineType"%string, str "n1");
          ("labels"%string, object [("eval--format"%string, str "1")])].

(** Arguments of the Azure listings. *)
Definition accountArgs : Json :=
  object [("accountName"%string, str "acct")].

Definition blobArgs : Json :=
  object [("accountName"%string, str "acct");
          ("containerName"%string, str "logs");
          ("maxResults"%string, JNum 2)].

(** Backing collections: three blobs, and one container more than the
    default cap. *)
Definition threeBlobs : list BlobItem := map blob (seq 1 3).

Definition manyContainers : list ContainerItem := map container (seq 1 101).

End Demo.

(* ===================================================================== *)
(** * What the router may do outside the process *)
(* ===================================================================== *)



(** Strings of ASCII code units, and runtimes whose [toLowerCase] is the
    ASCII one on them (every conforming runtime). *)
Definition isAscii (s : jsstring) : bool := forallb (fun c => c <? 128)%N s.

Definition lowersAscii (toLowerCase : jsstring -> jsstring) : Prop :=
  forall s, isAscii s = true -> toLowerCase s = asciiToLowerCase s.

(** The tool that runs a raw command of a provider, and the argument that
    carries its scope identifier ([projectId], [subscriptionId]). *)
Definition runCommandTool (provider : Provider) : jsstring :=
  match provider with
  | Gcp => lit "gcp_run_gcloud_command"
  | Azure => lit "azure_run_az_command"
  end.

Definition scopeArgument (provider : Provider) (args : Json) : option jsstring :=
  match provider with
  | Gcp => asString (field args "projectId")
  | Azure => asString (field args "subscriptionId")
  end.

(** The command [gcp_list_gce_instances] builds: the zone and status
    filters when they are given, and always the JSON format flag. *)
Definition listInstancesCommand (args : Json) : jsstring :=
  lit "compute instances list" +++
  match asString (field args "zone") with
  | Some (c :: s) => lit " --zones=" +++ (c :: s)
  | _ => []
  end +++
  match asString (field args "status") with
  | Some (c :: s) => lit " --filter=" +++ [34%N] +++ lit "status:" +++ (c :: s) +++ [34%N]
  | _ => []
  end +++
  lit " --format=json".

(** The command [azure_list_storage_accounts] builds. *)
Definition storageAccountsCommand (args : Json) : jsstring :=
  lit "storage account list" +++
  match asString (field args "resourceGroup") with
  | Some (c :: s) => lit " --resource-group " +++ (c :: s)
  | _ => []
  end.

(** The tool names a catalogue advertises. *)
Definition advertised (tools : list Schema.Tool) (name : jsstring) : bool :=
  existsb (fun tool => Js.eqb name (Schema.name tool)) tools.

(** The properties a tool's schema requires. *)
Definition requiredKeys (tool : Schema.Tool) : list string :=
  match Schema.required (Schema.inputSchema tool) with
  | Some keys => keys
  | None => []
  end.

(** The name of the argument that carries the scope identifier. *)
Definition scopeKey (provider : Provider) : string :=
  match provider with
  | Gcp => "projectId"
  | Azure => "subscriptionId"
  end.



(* ===================================================================== *)
(** * More closed inputs *)
(* ===================================================================== *)

Module Lab.

Definition file (n : nat) : GcsFile :=
  mkGcsFile (lit "f" +++ ofN (N.of_nat n))
            (JObject [(lit "size", JNum (Z.of_nat n))]).

(** A platform whose storage answers: three files whatever the cap, one
    bucket, the content ["hello"], small metadata objects; its processes
    exit with 0 and print nothing. *)
Definition stocked : Platform :=
  {| toLowerCase := asciiToLowerCase;
     toString := Demo.compact;
     stringify := Demo.compact;
     parse := fun _ => None;
     execAsync := fun _ _ _ _ => Resolved [] [];
     getBuckets := fun _ _ => SdkOk [mkGcsBucket (lit "b") JUndefined];
     getFiles := fun _ _ _ _ => SdkOk (map file (seq 1 3));
     download := fun _ _ _ _ _ => SdkOk (lit "hello");
     getMetadata := fun _ _ _ => SdkOk (JObject [(lit "size", JNum 5)]);
     listContainers := fun _ _ => mkEnumeration [] None;
     listBlobsFlat := fun _ _ _ _ => mkEnumeration [] None;
     blobDownload := fun _ _ _ _ _ _ => SdkOk (lit "hello");
     getProperties := fun _ _ _ _ => SdkOk (JObject [(lit "etag", Demo.str "e1")]) |}.

Definition bucketArgs : Json :=
  Demo.object [("bucketName"%string, Demo.str "b");
               ("prefix"%string, Demo.str "logs/");
               ("maxResults"%string, JNum 2)].

Definition objectArgs : Json :=
  Demo.object [("bucketName"%string, Demo.str "b");
               ("objectName"%string, Demo.str "o");
               ("maxBytes"%string, JNum 10)].

Definition blobArgs : Json :=
  Demo.object [("accountName"%string, Demo.str "acct");
               ("containerName"%string, Demo.str "logs");
               ("blobName"%string, Demo.str "x")].

Definition evalArgs : Json :=
  Demo.object [("instance"%string, Demo.str "Eval-box");
               ("zone"%string, Demo.str "us-central1-a")].

Definition loginArgs : Json :=
  Demo.object [("command"%string, Demo.str "login --use-device-code")].

Definition listVmArgs : Json :=
  Demo.object [("command"%string, Demo.str "vm list");
               ("subscriptionId"%string, Demo.str "sub-1")].

Definition blankArgs : Json :=
  Demo.object [("command"%string, JString [32; 9]%N)].

Definition callBody : Json :=
  Demo.object [("name"%string, Demo.str "gcp_list_objects");
               ("arguments"%string, JObject [])].

Definition wrappedBody : Json :=
  Demo.object [("arguments"%string, bucketArgs)].

End Lab.

(* ===================================================================== *)
(** * Facts about strings *)
(* ===================================================================== *)

Lemma startsWith_app (p s : jsstring) : startsWith (p ++ s) p = true.
Proof.
  induction p as [|c p IH]; simpl; [reflexivity|].
  now rewrite N.eqb_refl, IH.
Qed.

Lemma startsWith_prefix (s p : jsstring) :
  startsWith s p = true -> exists rest, s = p ++ rest.
Proof.
  revert s; induction p as [|c p IH]; intros s H; simpl in *.
  - now exists s.
  - destruct s as [|d s]; [discriminate|].
    apply andb_prop in H as [Hd Hs].
    apply N.eqb_eq in Hd; subst d.
    destruct (IH _ Hs) as [rest ->].
    now exists rest.
Qed.

Lemma includes_startsWith (s p : jsstring) :
  startsWith s p = true -> includes s p = true.
Proof.
  intros H. destruct s; simpl; rewrite H; reflexivity.
Qed.

Lemma includes_app (a b c : jsstring) : includes (a ++ b ++ c) b = true.
Proof.
  induction a as [|x a IH].
  - apply includes_startsWith. exact (startsWith_app b c).
  - cbn [app includes]. fold (includes (a ++ b ++ c) b).
    rewrite IH. apply orb_true_r.
Qed.


Lemma trimStart_whitespace (s : jsstring) :
  forallb isWhiteSpace s = true -> trimStart s = [].
Proof.
  induction s as [|c s IH]; simpl; [reflexivity|].
  intros H. apply andb_prop in H as [Hc Hs].
  rewrite Hc. auto.
Qed.

Lemma trim_whitespace (s : jsstring) :
  whitespaceOnly s = true -> trim s = [].
Proof.
  intros H. unfold trim. now rewrite (trimStart_whitespace s H).
Qed.

Lemma trimStart_nil_whitespace (s : jsstring) :
  trimStart s = [] -> forallb isWhiteSpace s = true.
Proof.
  induction s as [|c s IH]; simpl; [reflexivity|].
  destruct (isWhiteSpace c); [auto | discriminate].
Qed.

(** [trim] gives the empty string exactly on the white-space-only
    strings. *)
Lemma trim_nil_iff (s : jsstring) :
  trim s = [] <-> whitespaceOnly s = true.
Proof.
  split; [|apply trim_whitespace].
  unfold trim, trimEnd. intros H.
  apply trimStart_nil_whitespace.
  destruct (trimStart s) as [|c r] eqn:E; [reflexivity|].
  exfalso.
  assert (Hc : isWhiteSpace c = false).
  { clear H. induction s as [|d s IH]; simpl in E; [discriminate|].
    destruct (isWhiteSpace d) eqn:Hd; [auto|].
    now injection E as <- _. }
  assert (Hrev : forall (l : jsstring) x, isWhiteSpace x = false ->
                   trimStart (l ++ [x]) <> []).
  { intros l x Hx. induction l as [|y l IHl]; simpl.
    - now rewrite Hx.
    - destruct (isWhiteSpace y); [exact IHl | discriminate]. }
  apply (f_equal (@rev N)) in H. rewrite rev_involutive in H. simpl in H.
  revert H. change (rev (c :: r)) with (rev r ++ [c]). now apply Hrev.
Qed.

(* ===================================================================== *)
(** * Facts about the validator *)
(* ===================================================================== *)

Module ValidatorFacts.

Import SecurityValidator.

Lemma blockedReason_nonempty (blocked : jsstring) : blockedReason blocked <> [].
Proof. discriminate. Qed.

(** The denylist loop returns at its first matching entry. *)
Lemma checkBlocked_hit (normalized : jsstring) (blockedList : list jsstring)
    (blocked : jsstring) :
  In blocked blockedList -> startsWith normalized blocked = true ->
  exists first, In first blockedList /\
    startsWith normalized first = true /\
    checkBlocked normalized blockedList =
      Some (mkValidation false (Some (blockedReason first))).
Proof.
  induction blockedList as [|b rest IH]; simpl; [tauto|].
  intros Hin Hsw.
  destruct (startsWith normalized b) eqn:Hb.
  - exists b. auto.
  - destruct Hin as [-> | Hin]; [congruence|].
    destruct (IH Hin Hsw) as (first & Hf & Hs & Hc).
    exists first. auto.
Qed.

Lemma checkBlocked_miss (normalized : jsstring) (blockedList : list jsstring) :
  checkBlocked normalized blockedList = None <->
  forall blocked, In blocked blockedList -> startsWith normalized blocked = false.
Proof.
  induction blockedList as [|b rest IH]; simpl.
  - split; [tauto | reflexivity].
  - destruct (startsWith normalized b) eqn:Hb.
    + split; [discriminate|]. intros H. specialize (H b (or_introl eq_refl)).
      congruence.
    + rewrite IH. split.
      * intros H x [<- | Hx]; auto.
      * intros H x Hx. auto.
Qed.

Lemma checkBlocked_some (normalized : jsstring) (blockedList : list jsstring)
    (v : Validation) :
  checkBlocked normalized blockedList = Some v ->
  exists blocked, In blocked blockedList /\
    startsWith normalized blocked = true /\
    v = mkValidation false (Some (blockedReason blocked)).
Proof.
  induction blockedList as [|b rest IH]; simpl; [discriminate|].
  destruct (startsWith normalized b) eqn:Hb.
  - intros [= <-]. exists b. auto.
  - intros H. destruct (IH H) as (x & Hx & Hs & Hv). exists x. auto.
Qed.

(** Both validators reject with a reason, and a non-empty one. *)
Lemma rejection_has_reason (toLowerCase : jsstring -> jsstring)
    (provider : Provider) (command : jsstring) :
  valid (validate toLowerCase provider command) = false ->
  exists why, why <> [] /\
    validate toLowerCase provider command = mkValidation false (Some why).
Proof.
  destruct provider; simpl;
    [unfold validateGcpCommand | unfold validateAzureCommand];
    (destruct (isEmpty command || isEmpty (trim command));
     [intros _; eexists; split; [|reflexivity]; discriminate|]);
    (destruct (checkBlocked _ _) as [v|] eqn:Hc;
     [apply checkBlocked_some in Hc as (b & _ & _ & ->); intros _;
      eexists; split; [|reflexivity]; apply blockedReason_nonempty|]).
  - destruct (includes _ _ && includes _ _); simpl; [|discriminate].
    intros _; eexists; split; [|reflexivity]; discriminate.
  - simpl. discriminate.
Qed.

(** A command whose normalized text starts with an entry of the denylist
    is rejected. *)
Lemma denylisted_invalid (toLowerCase : jsstring -> jsstring)
    (provider : Provider) (command blocked : jsstring) :
  In blocked (denylist provider) ->
  startsWith (normalize toLowerCase command) blocked = true ->
  valid (validate toLowerCase provider command) = false.
Proof.
  intros Hin Hsw.
  destruct provider; cbn [denylist validate] in *;
    [unfold validateGcpCommand | unfold validateAzureCommand];
    (destruct (isEmpty command || isEmpty (trim command)); [reflexivity|]);
    destruct (checkBlocked_hit _ _ _ Hin Hsw) as (first & _ & _ & Hc);
    unfold normalize in Hc; rewrite Hc; reflexivity.
Qed.

End ValidatorFacts.

(* ===================================================================== *)
(** * Facts about the executor *)
(* ===================================================================== *)

Module ExecutorFacts.

Import SecurityValidator CommandExecutor ValidatorFacts.

Lemma orElse_nonempty (s d : jsstring) : s <> [] -> orElse (Some s) d = s.
Proof. destruct s; [congruence | reflexivity]. Qed.

Lemma orElse_same (s : jsstring) : orElse (Some s) [] = s.
Proof. destruct s; reflexivity. Qed.

(** The string both methods build is the invocation of the contract. *)
Lemma fullCommand_gcp (command : jsstring) (projectId : option jsstring) :
  (if truthy projectId
   then lit "gcloud " +++ command +++ lit " --project=" +++ interp projectId
   else lit "gcloud " +++ command) = invocation Gcp command projectId.
Proof. destruct projectId as [[|c s]|]; reflexivity. Qed.

Lemma fullCommand_azure (command : jsstring) (subscriptionId : option jsstring) :
  (if truthy subscriptionId
   then lit "az " +++ command +++ lit " --subscription " +++ interp subscriptionId
   else lit "az " +++ command) = invocation Azure command subscriptionId.
Proof. destruct subscriptionId as [[|c s]|]; reflexivity. Qed.

Section Executor.

Variable P : Platform.

(** A rejected command throws the reason and leaves no trace. *)
Lemma execute_rejected provider command scopeId t why :
  validate (toLowerCase P) provider command = mkValidation false (Some why) ->
  why <> [] ->
  execute P provider command scopeId t = (Throw why, t).
Proof.
  intros Hv Hw.
  destruct provider; cbn [execute validate] in *;
    [unfold executeGcpCommand | unfold executeAzureCommand];
    rewrite Hv; cbn [valid reason negb];
    rewrite (orElse_nonempty _ Hw); reflexivity.
Qed.

(** An accepted command goes to the shared execution block with the
    invocation of the contract. *)
Lemma execute_accepted provider command scopeId t :
  valid (validate (toLowerCase P) provider command) = true ->
  execute P provider command scopeId t =
  run P (invocation provider command scopeId) t.
Proof.
  intros Hv.
  destruct provider; cbn [execute validate] in *;
    [unfold executeGcpCommand | unfold executeAzureCommand];
    rewrite Hv; cbn [negb];
    [rewrite fullCommand_gcp | rewrite fullCommand_azure]; reflexivity.
Qed.

(** The execution block always returns, after exactly one spawn. *)
Lemma run_returns fullCommand t :
  run P fullCommand t =
    (Ok (settle (execAsync P t fullCommand MAX_TIMEOUT_MS MAX_BUFFER_SIZE)),
     t ++ [spawn fullCommand]).
Proof. reflexivity. Qed.

Lemma run_trace fullCommand t :
  snd (run P fullCommand t) = t ++ [spawn fullCommand].
Proof. reflexivity. Qed.

(** The GCP method on an accepted command. *)
Lemma executeGcpCommand_accepted command projectId t :
  valid (validateGcpCommand (toLowerCase P) command) = true ->
  executeGcpCommand P command projectId t =
    (Ok (settle (execAsync P t (invocation Gcp command projectId)
                           MAX_TIMEOUT_MS MAX_BUFFER_SIZE)),
     t ++ [spawn (invocation Gcp command projectId)]).
Proof.
  intros Hv. apply (execute_accepted Gcp command projectId t Hv).
Qed.

(** The GCP method on a rejected command. *)
Lemma executeGcpCommand_rejected command projectId t :
  valid (validateGcpCommand (toLowerCase P) command) = false ->
  exists why, executeGcpCommand P command projectId t = (Throw why, t).
Proof.
  intros Hv.
  destruct (rejection_has_reason (toLowerCase P) Gcp command Hv) as (why & Hne & Hr).
  exists why. apply (execute_rejected Gcp command projectId t Hr Hne).
Qed.

Lemma codeOr1_nonzero c : isNonZero (codeOr1 c) = true.
Proof.
  destruct c as [[n|[|u s]]|]; simpl; try reflexivity.
  destruct (n =? 0)%Z eqn:E; simpl; [reflexivity | now rewrite E].
Qed.

End Executor.

End ExecutorFacts.

(* ===================================================================== *)
(** * The command gateway *)
(* ===================================================================== *)

Section Gateway.

Import SecurityValidator CommandExecutor ValidatorFacts ExecutorFacts.

Variable P : Platform.

(** C1.  A command whose normalized (trimmed, lower-cased) text starts
    with an entry of its provider's denylist is not permitted, the
    validator gives a non-empty reason, and the executor of the provider
    throws that reason without spawning a process: the trace of outside
    calls is unchanged. *)
Theorem denylisted_command_is_rejected_and_never_run
    (provider : Provider) (command : jsstring) (scopeId : option jsstring)
    (t : Trace) (blocked : jsstring) :
  In blocked (denylist provider) ->
  startsWith (normalize (toLowerCase P) command) blocked = true ->
  exists why,
    why <> [] /\
    validate (toLowerCase P) provider command = mkValidation false (Some why) /\
    execute P provider command scopeId t = (Throw why, t).
Proof.
  intros Hin Hsw.
  pose proof (denylisted_invalid _ _ _ _ Hin Hsw) as Hinvalid.
  destruct (rejection_has_reason _ _ _ Hinvalid) as (why & Hne & Hv).
  exists why. repeat split; auto.
  now apply execute_rejected.
Qed.

(** C2.  For a validated command the executor returns, whatever the child
    process did.  When the process resolves, the result is its stdout, its
    stderr and exit code 0.  When it rejects (non-zero exit, timeout, spawn
    failure), stdout is the partial output the error carries (else empty),
    stderr is the error's stderr when non-empty, else the error's message,
    and the exit code is the error's code when that is truthy, else 1; so
    the exit code is 0 exactly when the process resolved. *)
Theorem executor_normalizes_every_outcome
    (provider : Provider) (command : jsstring) (scopeId : option jsstring)
    (t : Trace) :
  valid (validate (toLowerCase P) provider command) = true ->
  exists result,
    execute P provider command scopeId t =
      (Ok result, t ++ [spawn (invocation provider command scopeId)]) /\
    (exitCode result = CNum 0 <->
     exists out err,
       execAsync P t (invocation provider command scopeId)
                 MAX_TIMEOUT_MS MAX_BUFFER_SIZE = Resolved out err) /\
    match execAsync P t (invocation provider command scopeId)
                    MAX_TIMEOUT_MS MAX_BUFFER_SIZE with
    | Resolved out err => result = mkCommandResult out err (CNum 0)
    | Rejected error =>
        stdout result =
          match error_stdout error with Some partial => partial | None => [] end /\
        stderr result =
          (if truthy (error_stderr error) then interp (error_stderr error)
           else match error_message error with
                | Some message => message
                | None => []
                end) /\
        exitCode result =
          match error_code error with
          | Some code => if truthyCode code then code else CNum 1
          | None => CNum 1
          end
    end.
Proof.
  intros Hv. rewrite (execute_accepted _ _ _ _ _ Hv), run_returns.
  destruct (execAsync P t _ MAX_TIMEOUT_MS MAX_BUFFER_SIZE) as [out err|error] eqn:E.
  - eexists; split; [reflexivity|]. cbn [settle exitCode]. rewrite !orElse_same.
    split; [|reflexivity]. split; [eauto | reflexivity].
  - eexists; split; [reflexivity|]. cbn [settle exitCode stdout stderr]. split.
    + split.
      * intros H. pose proof (codeOr1_nonzero (error_code error)) as Hnz.
        rewrite H in Hnz. discriminate.
      * intros (out & err & H). discriminate.
    + repeat split.
      * destruct (error_stdout error) as [[|c s]|]; reflexivity.
      * destruct (error_stderr error) as [[|c s]|]; cbn [truthy orElse interp];
          try reflexivity;
          destruct (error_message error) as [[|c s]|]; reflexivity.
      * destruct (error_code error) as [[n|[|u s]]|]; cbn; try reflexivity.
        destruct (n =? 0)%Z; reflexivity.
Qed.

(** C4.  For a command the validator accepts, the one string handed to
    [execAsync] is the CLI name, a space and the raw command, unmodified,
    followed by [" --project=" + scopeId] (GCP) or
    [" --subscription " + scopeId] (Azure) exactly when a scope identifier
    (a non-empty string) is supplied; it runs under the policy's timeout
    and output cap. *)
Theorem accepted_command_is_passed_verbatim
    (provider : Provider) (command : jsstring) (scopeId : option jsstring)
    (t : Trace) :
  valid (validate (toLowerCase P) provider command) = true ->
  snd (execute P provider command scopeId t) =
    t ++ [Exec (cliName provider +++ lit " " +++ command +++
                match scopeId with
                | Some (c :: s) => scopeFlag provider +++ (c :: s)
                | _ => []
                end) 30000 10485760].
Proof.
  intros Hv. rewrite (execute_accepted _ _ _ _ _ Hv), run_trace.
  unfold spawn, invocation.
  destruct scopeId as [[|c s]|]; destruct provider; cbn;
    rewrite ?app_nil_r; reflexivity.
Qed.

End Gateway.

(* ===================================================================== *)
(** * The validator's structural rules *)
(* ===================================================================== *)

Section Rules.

Import SecurityValidator ValidatorFacts.

Variable toLowerCase : jsstring -> jsstring.

(** C7, as amended.  For both providers, an empty or white-space-only
    command is not permitted and the reason is the string
    ["Empty command"]. *)
Theorem blank_command_is_rejected_as_Empty_command
    (provider : Provider) (command : jsstring) :
  whitespaceOnly command = true ->
  validate toLowerCase provider command =
    mkValidation false (Some (lit "Empty command")).
Proof.
  intros H. apply trim_whitespace in H.
  destruct provider; cbn [validate];
    [unfold validateGcpCommand | unfold validateAzureCommand];
    rewrite H; cbn [isEmpty]; rewrite orb_true_r; reflexivity.
Qed.

(** C8.  A GCP command whose normalized text contains both ["--format"]
    and ["eval"] is not permitted, with a non-empty reason.  The Azure
    validator has no such rule: it permits every command that is not blank
    and does not start with an entry of the Azure denylist, these two
    tokens or not. *)
Theorem format_evaluation_is_rejected_for_gcp_only (command : jsstring) :
  includes (normalize toLowerCase command) (lit "--format") = true ->
  includes (normalize toLowerCase command) (lit "eval") = true ->
  (exists why,
     why <> [] /\
     validateGcpCommand toLowerCase command = mkValidation false (Some why)) /\
  (whitespaceOnly command = false ->
   existsb (startsWith (normalize toLowerCase command)) BLOCKED_AZURE_COMMANDS = false ->
   validateAzureCommand toLowerCase command = mkValidation true None).
Proof.
  intros Hf He. split.
  - apply (rejection_has_reason toLowerCase Gcp).
    cbn [validate]. unfold validateGcpCommand.
    destruct (isEmpty command || isEmpty (trim command)); [reflexivity|].
    destruct (checkBlocked _ _) as [v|] eqn:Hc.
    + apply checkBlocked_some in Hc as (b & _ & _ & ->). reflexivity.
    + unfold normalize in Hf, He. rewrite Hf, He. reflexivity.
  - intros Hws Hdeny. unfold validateAzureCommand.
    assert (Htrim : isEmpty (trim command) = false).
    { destruct (trim command) eqn:E; [|reflexivity].
      apply trim_nil_iff in E. congruence. }
    assert (Hcmd : isEmpty command = false).
    { destruct command; [discriminate | reflexivity]. }
    rewrite Hcmd, Htrim. cbn [orb].
    replace (checkBlocked (toLowerCase (trim command)) BLOCKED_AZURE_COMMANDS)
      with (@None Validation); [reflexivity|].
    symmetry. apply checkBlocked_miss. intros b Hb.
    destruct (startsWith (toLowerCase (trim command)) b) eqn:Hs; [|reflexivity].
    assert (existsb (startsWith (normalize toLowerCase command))
                    BLOCKED_AZURE_COMMANDS = true)
      by (apply existsb_exists; exists b; auto).
    congruence.
Qed.

End Rules.

(* ===================================================================== *)
(** * Facts about the handlers *)
(* ===================================================================== *)

Module HandlerFacts.

Import SecurityValidator CommandExecutor ExecutorFacts.

Lemma isNonZero_iff (c : Code) : isNonZero c = true <-> c <> CNum 0.
Proof.
  destruct c as [n|s]; simpl.
  - rewrite negb_true_iff, Z.eqb_neq. split; [congruence|].
    intros H E. apply H. now rewrite E.
  - split; [discriminate | reflexivity].
Qed.

Lemma hasError_iff (results : list CommandResult) :
  GcpTools.hasError results = true <->
  exists r, In r results /\ exitCode r <> CNum 0.
Proof.
  unfold GcpTools.hasError. rewrite existsb_exists.
  split; intros (r & Hin & Hr); exists r; split; auto;
    now apply isNonZero_iff.
Qed.

Lemma runSteps_length P invocations t :
  List.length (runSteps P invocations t) = List.length invocations.
Proof.
  revert t; induction invocations as [|c rest IH]; intros t; simpl; auto.
Qed.

(** An argument that is a non-empty string is the property of an object:
    the argument mapping is truthy. *)
Lemma truthy_field_object (args : Json) (key : string) :
  truthy (asString (field args key)) = true -> orEmptyObject args = args.
Proof.
  destruct args; simpl; try discriminate. reflexivity.
Qed.

(** A falsy value is not a non-empty string. *)
Lemma falsy_asString (v : Json) :
  truthyJson v = false -> truthy (asString v) = false.
Proof.
  destruct v as [| | | |[|c s]| |]; simpl; congruence.
Qed.

(** A property that is not a non-empty string in [args] is not one in
    [args || {}] either. *)
Lemma falsy_field_orEmptyObject (args : Json) (key : string) :
  truthy (asString (field args key)) = false ->
  truthy (asString (field (orEmptyObject args) key)) = false.
Proof.
  unfold orEmptyObject. destruct (truthyJson args); [auto | reflexivity].
Qed.

(** The machine-type command when a machine type is given. *)
Lemma machineTypeCommand_given instance zone machineType :
  truthy machineType = true ->
  GcpTools.machineTypeCommand instance zone machineType =
    lit "compute instances set-machine-type " +++ instance +++
    lit " --zone=" +++ zone +++ lit " --machine-type=" +++ interp machineType.
Proof.
  intros H. unfold GcpTools.machineTypeCommand. rewrite H.
  cbn [lit list_ascii_of_string map app]. rewrite <- !app_assoc. reflexivity.
Qed.

(** The handler on steps the validator accepts. *)
Lemma handleModifyGceInstance_accepted P (args : Json) (t : Trace) :
  truthy (asString (field args "instance")) = true ->
  truthy (asString (field args "zone")) = true ->
  modifySteps P args <> [] ->
  (forall step, In step (modifySteps P args) ->
                valid (validateGcpCommand (toLowerCase P) step) = true) ->
  let invocations :=
    map (fun step => invocation Gcp step (asString (field args "projectId")))
        (modifySteps P args) in
  let results := runSteps P invocations t in
  GcpTools.handleModifyGceInstance P args t =
    (Ok (mkToolResponse (textContent (GcpTools.combinedOutput results))
                        (Some (GcpTools.hasError results))),
     t ++ map spawn invocations).
Proof.
  intros Hi Hz Hsteps Hvalid invocations results.
  subst results invocations. revert Hsteps Hvalid.
  unfold modifySteps, GcpTools.handleModifyGceInstance.
  rewrite Hi, Hz. cbn [negb orb].
  destruct (truthy (asString (field args "machineType"))) eqn:Hm;
    destruct (asRecord (field args "labels")) as [entries|] eqn:Hl;
    cbn [app]; intros Hsteps Hvalid; try congruence;
    try rewrite (machineTypeCommand_given _ _ _ Hm); unfold bind.
  - rewrite executeGcpCommand_accepted by (apply Hvalid; left; reflexivity).
    cbn [ret app].
    rewrite executeGcpCommand_accepted by (apply Hvalid; right; left; reflexivity).
    cbn [map runSteps]. rewrite <- app_assoc. reflexivity.
  - rewrite executeGcpCommand_accepted by (apply Hvalid; left; reflexivity).
    cbn [map runSteps]. reflexivity.
  - cbn [ret].
    rewrite executeGcpCommand_accepted by (apply Hvalid; left; reflexivity).
    cbn [map runSteps]. reflexivity.
  - exfalso. apply Hsteps. reflexivity.
Qed.

(** The handler returns a response only if the required arguments are
    there, a modification is requested and every step passed the
    validator. *)
Lemma handleModifyGceInstance_returns P (args : Json) (t : Trace) response t' :
  GcpTools.handleModifyGceInstance P args t = (Ok response, t') ->
  truthy (asString (field args "instance")) = true /\
  truthy (asString (field args "zone")) = true /\
  modifySteps P args <> [] /\
  (forall step, In step (modifySteps P args) ->
                valid (validateGcpCommand (toLowerCase P) step) = true).
Proof.
  unfold modifySteps, GcpTools.handleModifyGceInstance.
  destruct (truthy (asString (field args "instance"))) eqn:Hi;
    [|discriminate].
  destruct (truthy (asString (field args "zone"))) eqn:Hz; [|discriminate].
  cbn [negb orb].
  destruct (truthy (asString (field args "machineType"))) eqn:Hm;
    destruct (asRecord (field args "labels")) as [entries|] eqn:Hl;
    cbn [app]; try rewrite (machineTypeCommand_given _ _ _ Hm); unfold bind.
  - match goal with
    | |- context [executeGcpCommand P ?c ?p t] =>
        destruct (valid (validateGcpCommand (toLowerCase P) c)) eqn:V1;
        [rewrite (executeGcpCommand_accepted P c p t V1)
        |destruct (executeGcpCommand_rejected P c p t V1) as [why ->];
         discriminate]
    end.
    cbn [ret app].
    match goal with
    | |- context [executeGcpCommand P ?c ?p ?u] =>
        destruct (valid (validateGcpCommand (toLowerCase P) c)) eqn:V2;
        [rewrite (executeGcpCommand_accepted P c p u V2)
        |destruct (executeGcpCommand_rejected P c p u V2) as [why ->];
         discriminate]
    end.
    intros _. repeat split; [discriminate|].
    intros step [<- | [<- | []]]; assumption.
  - match goal with
    | |- context [executeGcpCommand P ?c ?p t] =>
        destruct (valid (validateGcpCommand (toLowerCase P) c)) eqn:V1;
        [rewrite (executeGcpCommand_accepted P c p t V1)
        |destruct (executeGcpCommand_rejected P c p t V1) as [why ->];
         discriminate]
    end.
    intros _. repeat split; [discriminate|].
    intros step [<- | []]; assumption.
  - cbn [ret].
    match goal with
    | |- context [executeGcpCommand P ?c ?p t] =>
        destruct (valid (validateGcpCommand (toLowerCase P) c)) eqn:V1;
        [rewrite (executeGcpCommand_accepted P c p t V1)
        |destruct (executeGcpCommand_rejected P c p t V1) as [why ->];
         discriminate]
    end.
    intros _. repeat split; [discriminate|].
    intros step [<- | []]; assumption.
  - cbn. discriminate.
Qed.

(** The async loops. *)
Lemma collectContainers_all items failure containers t :
  AzureTools.collectContainers items failure containers t =
    (match failure with
     | Some message => Throw message
     | None => Ok (containers ++ map AzureTools.containerEntry items)
     end,
     t ++ repeat Next (S (List.length items))).
Proof.
  revert containers t; induction items as [|c rest IH]; intros containers t.
  - simpl. rewrite app_nil_r. destruct failure; reflexivity.
  - cbn [AzureTools.collectContainers]. rewrite IH.
    cbn [map List.length repeat]. rewrite <- !app_assoc. reflexivity.
Qed.

Lemma collectBlobs_capped maxResults items failure count blobs t :
  AzureTools.collectBlobs maxResults items failure count blobs t =
    let room := Z.to_nat (maxResults - count) in
    (match failure with
     | Some message =>
         if (List.length items <=? room)%nat then Throw message
         else Ok (blobs ++ map AzureTools.blobEntry (firstn room items))
     | None => Ok (blobs ++ map AzureTools.blobEntry (firstn room items))
     end,
     t ++ repeat Next (S (Nat.min (List.length items) room))).
Proof.
  revert count blobs t; induction items as [|b rest IH]; intros count blobs t.
  - cbn. rewrite firstn_nil, app_nil_r. destruct failure; reflexivity.
  - cbn [AzureTools.collectBlobs].
    destruct (count >=? maxResults)%Z eqn:Hc.
    + assert (Hroom : Z.to_nat (maxResults - count) = 0%nat) by lia.
      cbn zeta. rewrite Hroom. cbn. rewrite app_nil_r.
      destruct failure; reflexivity.
    + rewrite IH. cbn zeta.
      assert (Hroom : Z.to_nat (maxResults - count) =
                      S (Z.to_nat (maxResults - (count + 1)))) by lia.
      rewrite Hroom. cbn [firstn map List.length Nat.min Nat.leb repeat].
      rewrite <- !app_assoc. reflexivity.
Qed.

End HandlerFacts.

(* ===================================================================== *)
(** * The tool router *)
(* ===================================================================== *)

Section Router.

Import SecurityValidator CommandExecutor ExecutorFacts HandlerFacts.

Variable P : Platform.
Variable gcpTools : GcpTools.t.


(** C9, as amended.  Dispatching [gcp_list_objects] with no (or a falsy)
    [bucketName] gives a response with [isError] true and makes no outside
    call.  Its text is ["Error: Bucket name is required"] when the storage
    client was constructed; when it was not, the handler's first guard
    answers instead and the text is the client-not-initialized message. *)
Theorem list_objects_without_bucket_name_is_an_error
    (args : Json) (t : Trace) :
  truthyJson (field args "bucketName") = false ->
  exists message,
    McpServer.callTool P gcpTools (lit "gcp_list_objects") args t =
      (Ok (mkToolResponse (textContent (lit "Error: " +++ message)) (Some true)), t) /\
    message = match GcpTools.storage gcpTools with
              | Some _ => lit "Bucket name is required"
              | None => GcpTools.notInitialized
              end.
Proof.
  intros H. apply falsy_asString, falsy_field_orEmptyObject in H.
  eexists; split; [|reflexivity].
  change (McpServer.callTool P gcpTools (lit "gcp_list_objects") args t)
    with (tryCatch (GcpTools.handleListObjects P gcpTools (orEmptyObject args))
                   (fun message => ret (errorResponse message)) t).
  unfold tryCatch, GcpTools.handleListObjects.
  destruct (GcpTools.storage gcpTools); [rewrite H|]; reflexivity.
Qed.

(** C10.  Dispatching [gcp_modify_gce_instance] with the required
    [instance] and [zone] and with neither [machineType] nor [labels]
    gives a response with [isError] true whose text contains
    ["Either machineType or labels must be provided"]; the executor is not
    called: the trace of outside calls is unchanged. *)
Theorem modify_instance_without_modification_is_an_error
    (args : Json) (t : Trace) :
  truthy (asString (field args "instance")) = true ->
  truthy (asString (field args "zone")) = true ->
  field args "machineType" = JUndefined ->
  field args "labels" = JUndefined ->
  exists message,
    McpServer.callTool P gcpTools (lit "gcp_modify_gce_instance") args t =
      (Ok (mkToolResponse (textContent message) (Some true)), t) /\
    includes message (lit "Either machineType or labels must be provided") = true.
Proof.
  intros Hi Hz Hm Hl.
  eexists; split.
  - change (McpServer.callTool P gcpTools (lit "gcp_modify_gce_instance") args t)
      with (tryCatch (GcpTools.handleModifyGceInstance P (orEmptyObject args))
                     (fun message => ret (errorResponse message)) t).
    rewrite (truthy_field_object args "instance" Hi).
    unfold tryCatch, GcpTools.handleModifyGceInstance.
    rewrite Hi, Hz, Hm, Hl. reflexivity.
  - reflexivity.
Qed.

(** C6.  The handler of [gcp_modify_gce_instance] runs its steps one
    after the other, the machine-type change first and the label update
    second.  Whenever it returns a response, every step was run, in that
    order, and nothing else was (nothing is rolled back when a later step
    fails); the response is built from one result per step, its [isError]
    is true exactly when some step's exit code is not 0, and its text is
    the steps' outputs labelled ["Operation 1:"], ["Operation 2:"], joined
    by a blank line.  It does return a response when [instance] and
    [zone] are given, at least one modification is requested and the
    validator accepts the command of every step.  The arguments are of
    their declared types where they are given: [instance], [zone],
    [projectId] and [machineType] are strings (or falsy) and [labels] is
    an object (or falsy). *)
Theorem modify_instance_runs_its_steps_in_order (args : Json) (t : Trace) :
  stringArgument (field args "instance") = true ->
  stringArgument (field args "zone") = true ->
  stringArgument (field args "projectId") = true ->
  stringArgument (field args "machineType") = true ->
  recordArgument (field args "labels") = true ->
  let invocations :=
    map (fun step => invocation Gcp step (asString (field args "projectId")))
        (modifySteps P args) in
  let results := runSteps P invocations t in
  let report :=
    mkToolResponse
      (textContent
         (join (nl +++ nl)
            (mapi (fun r i => lit "Operation " +++ ofN (N.of_nat (i + 1)) +++
                              lit ":" +++ nl +++ stdout r +++ nl +++ stderr r)
                  0 results)))
      (Some (existsb (fun r => isNonZero (exitCode r)) results)) in
  (forall response t',
     GcpTools.handleModifyGceInstance P args t = (Ok response, t') ->
     response = report /\ t' = t ++ map spawn invocations) /\
  (truthy (asString (field args "instance")) = true ->
   truthy (asString (field args "zone")) = true ->
   modifySteps P args <> [] ->
   (forall step, In step (modifySteps P args) ->
                 valid (validateGcpCommand (toLowerCase P) step) = true) ->
   GcpTools.handleModifyGceInstance P args t =
     (Ok report, t ++ map spawn invocations)) /\
  List.length results = List.length (modifySteps P args) /\
  (existsb (fun r => isNonZero (exitCode r)) results = true <->
   exists r, In r results /\ exitCode r <> CNum 0).
Proof.
  intros _ _ _ _ _ invocations results report.
  split; [|split; [|split; [|apply hasError_iff]]].
  - intros response t' Hrun.
    destruct (handleModifyGceInstance_returns P args t Hrun)
      as (Hi & Hz & Hsteps & Hvalid).
    rewrite (handleModifyGceInstance_accepted P args t Hi Hz Hsteps Hvalid) in Hrun.
    injection Hrun as <- <-. split; reflexivity.
  - apply handleModifyGceInstance_accepted.
  - unfold results, invocations. now rewrite runSteps_length, length_map.
Qed.

End Router.

(* ===================================================================== *)
(** * Listing operations *)
(* ===================================================================== *)

Section Listings.

Import HandlerFacts.

Variable P : Platform.

(** The blob listing: the first [maxResults] blobs of the enumeration, in
    its order; the enumeration is asked for one element more than are
    kept, and its failure is seen only if it comes before the cap. *)
Lemma handleListBlobs_capped (args : Json) (t : Trace) :
  truthy (asString (field args "accountName")) = true ->
  truthy (asString (field args "containerName")) = true ->
  let client := AzureTools.getBlobServiceClient
                  (interp (asString (field args "accountName")))
                  (asString (field args "accountKey")) in
  let containerName := interp (asString (field args "containerName")) in
  let prefix := orElse (asString (field args "prefix")) [] in
  let cap := Z.to_nat (orNum (asNumber (field args "maxResults")) 100) in
  let backing := listBlobsFlat P t client containerName prefix in
  AzureTools.handleListBlobs P args t =
    (match failure backing with
     | Some message =>
         if (List.length (items backing) <=? cap)%nat
         then Throw (lit "Failed to list blobs: " +++ message)
         else Ok (listing P (map AzureTools.blobEntry (firstn cap (items backing))))
     | None => Ok (listing P (map AzureTools.blobEntry (firstn cap (items backing))))
     end,
     t ++ [ListBlobsFlat client containerName prefix] ++
     repeat Next (S (Nat.min (List.length (items backing)) cap))).
Proof.
  intros Ha Hc client containerName prefix cap backing.
  unfold AzureTools.handleListBlobs. rewrite Ha, Hc. cbn [negb orb].
  unfold tryCatch, bind, call. fold client containerName prefix backing.
  rewrite collectBlobs_capped. cbn zeta. rewrite Z.sub_0_r. fold cap.
  rewrite <- app_assoc. cbn [app].
  destruct (failure backing) as [message|];
    [destruct (List.length (items backing) <=? cap)%nat|]; reflexivity.
Qed.

(** The container listing: every container of the enumeration. *)
Lemma handleListContainers_all (args : Json) (t : Trace) :
  truthy (asString (field args "accountName")) = true ->
  let client := AzureTools.getBlobServiceClient
                  (interp (asString (field args "accountName")))
                  (asString (field args "accountKey")) in
  let backing := listContainers P t client in
  AzureTools.handleListContainers P args t =
    (match failure backing with
     | Some message => Throw (lit "Failed to list containers: " +++ message)
     | None => Ok (listing P (map AzureTools.containerEntry (items backing)))
     end,
     t ++ [ListContainers client] ++ repeat Next (S (List.length (items backing)))).
Proof.
  intros Ha client backing.
  unfold AzureTools.handleListContainers. rewrite Ha. cbn [negb].
  unfold tryCatch, bind, call. fold client backing.
  rewrite collectContainers_all. rewrite <- app_assoc. cbn [app].
  destruct (failure backing); reflexivity.
Qed.

(** The object listing: one call to [getFiles], which receives the
    prefix and the cap, and one entry per file it answers. *)
Lemma handleListObjects_forwards (this : GcpTools.t) (args : Json) (t : Trace) :
  GcpTools.storage this <> None ->
  truthy (asString (field args "bucketName")) = true ->
  let bucketName := interp (asString (field args "bucketName")) in
  let prefix := orElse (asString (field args "prefix")) [] in
  let maxResults := orNum (asNumber (field args "maxResults")) 100 in
  GcpTools.handleListObjects P this args t =
    (match getFiles P t bucketName prefix maxResults with
     | SdkOk files => Ok (listing P (map GcpTools.objectEntry files))
     | SdkError message => Throw (lit "Failed to list objects: " +++ message)
     end,
     t ++ [GetFiles bucketName prefix maxResults]).
Proof.
  intros Hs Hb bucketName prefix maxResults.
  unfold GcpTools.handleListObjects.
  destruct (GcpTools.storage this); [|congruence].
  rewrite Hb. cbn [negb]. unfold tryCatch, bind, await.
  fold bucketName prefix maxResults.
  destruct (getFiles P t bucketName prefix maxResults); reflexivity.
Qed.

(** The bucket listing: every bucket [getBuckets] answers. *)
Lemma handleListBuckets_all (this : GcpTools.t) (args : Json) (t : Trace) :
  let projectId := asString (field args "projectId") in
  let storage :=
    if truthy projectId then mkStorage projectId
    else match GcpTools.storage this with
         | Some client => client
         | None => mkStorage None
         end in
  GcpTools.handleListBuckets P this args t =
    (match getBuckets P t storage with
     | SdkOk buckets => Ok (listing P (map GcpTools.bucketEntry buckets))
     | SdkError message => Throw (lit "Failed to list buckets: " +++ message)
     end,
     t ++ [GetBuckets storage]).
Proof.
  intros projectId storage.
  unfold GcpTools.handleListBuckets, tryCatch, bind, await.
  fold projectId storage.
  destruct (getBuckets P t storage); reflexivity.
Qed.

(** C5, as amended.  [azure_list_blobs] returns at most [maxResults]
    entries (100 when [maxResults] is absent or 0, none when it is
    negative): the first ones of the enumeration, in its order; the cap is
    applied while enumerating, the enumeration being asked for at most
    [maxResults + 1] elements, and a failure of the enumeration beyond
    the cap is never met.  [azure_list_containers] takes no [maxResults]
    and has no cap: it returns an entry for every container of the backing
    collection, whatever its size.  The account and container names are
    non-empty strings; where they are given, [maxResults] is a whole
    number and [prefix] and [accountKey] are strings. *)
Theorem blob_listing_is_capped_and_container_listing_is_not
    (blobArgs containerArgs : Json) (t : Trace) :
  truthy (asString (field blobArgs "accountName")) = true ->
  truthy (asString (field blobArgs "containerName")) = true ->
  stringArgument (field blobArgs "prefix") = true ->
  integerArgument (field blobArgs "maxResults") = true ->
  stringArgument (field blobArgs "accountKey") = true ->
  truthy (asString (field containerArgs "accountName")) = true ->
  stringArgument (field containerArgs "accountKey") = true ->
  let cap := Z.to_nat (orNum (asNumber (field blobArgs "maxResults")) 100) in
  let blobClient := AzureTools.getBlobServiceClient
                      (interp (asString (field blobArgs "accountName")))
                      (asString (field blobArgs "accountKey")) in
  let containerName := interp (asString (field blobArgs "containerName")) in
  let prefix := orElse (asString (field blobArgs "prefix")) [] in
  let blobs := listBlobsFlat P t blobClient containerName prefix in
  let kept := firstn cap (items blobs) in
  let asked := S (Nat.min (List.length (items blobs)) cap) in
  let containerClient := AzureTools.getBlobServiceClient
                           (interp (asString (field containerArgs "accountName")))
                           (asString (field containerArgs "accountKey")) in
  let containers := listContainers P t containerClient in
  (field blobArgs "maxResults" = JUndefined \/ field blobArgs "maxResults" = JNum 0 ->
   cap = 100%nat) /\
  (forall n, field blobArgs "maxResults" = JNum n -> (n < 0)%Z -> kept = []) /\
  (List.length kept <= cap)%nat /\
  (asked <= cap + 1)%nat /\
  AzureTools.handleListBlobs P blobArgs t =
    (match failure blobs with
     | Some message =>
         if (List.length (items blobs) <=? cap)%nat
         then Throw (lit "Failed to list blobs: " +++ message)
         else Ok (listing P (map AzureTools.blobEntry kept))
     | None => Ok (listing P (map AzureTools.blobEntry kept))
     end,
     t ++ [ListBlobsFlat blobClient containerName prefix] ++ repeat Next asked) /\
  AzureTools.handleListContainers P containerArgs t =
    (match failure containers with
     | Some message => Throw (lit "Failed to list containers: " +++ message)
     | None => Ok (listing P (map AzureTools.containerEntry (items containers)))
     end,
     t ++ [ListContainers containerClient] ++
     repeat Next (S (List.length (items containers)))).
Proof.
  intros Hba Hbc _ _ _ Hca _ cap blobClient containerName prefix blobs kept asked
         containerClient containers.
  repeat split.
  - intros [H | H]; unfold cap; now rewrite H.
  - intros n H Hn. unfold kept, cap. rewrite H. cbn [asNumber orNum].
    destruct (n =? 0)%Z eqn:E; [lia|].
    now replace (Z.to_nat n) with 0%nat by lia.
  - unfold kept. rewrite length_firstn. lia.
  - unfold asked. lia.
  - apply (handleListBlobs_capped blobArgs t Hba Hbc).
  - apply (handleListContainers_all containerArgs t Hca).
Qed.

End Listings.

(* ===================================================================== *)
(** * The theorems at concrete inputs *)
(* ===================================================================== *)

Module Concrete.

Import SecurityValidator.

(** ** Scenarios of the specification *)

Example scenario_A_auth_list_is_not_permitted :
  valid (validate asciiToLowerCase Gcp (lit "auth list")) = false.
Proof. reflexivity. Qed.

Example scenario_A_instances_list_is_permitted :
  validate asciiToLowerCase Gcp (lit "compute instances list") =
    mkValidation true None.
Proof. reflexivity. Qed.

Example scenario_D_failing_process :
  fst (execute (Demo.platform Demo.timesOut [] []) Gcp (lit "version") None []) =
    Ok (mkCommandResult (lit "partial") (lit "Command failed: gcloud version")
                        (CNum 1)).
Proof. reflexivity. Qed.

(** A step the validator rejects makes the handler throw at that step: the
    machine type has been changed, the labels are not touched, nothing is
    undone, and the dispatcher reports the rejection. *)
Example rejected_step_leaves_earlier_steps_applied :
  McpServer.callTool Demo.quiet Demo.gcp (lit "gcp_modify_gce_instance")
                     Demo.suspiciousArgs [] =
    (Ok (errorResponse (lit "Potentially dangerous format evaluation detected")),
     [spawn (lit "gcloud compute instances set-machine-type vm --zone=z --machine-type=n1")]).
Proof. reflexivity. Qed.

(** ** C1 *)

Lemma denylisted_command_witness :
  In (lit "auth") (denylist Gcp) /\
  startsWith (normalize (toLowerCase Demo.quiet) (lit "  AUTH list")) (lit "auth") = true /\
  exists why,
    why <> [] /\
    validate (toLowerCase Demo.quiet) Gcp (lit "  AUTH list") =
      mkValidation false (Some why) /\
    execute Demo.quiet Gcp (lit "  AUTH list") (Some (lit "p")) [] = (Throw why, []).
Proof.
  split; [simpl; auto|]. split; [reflexivity|].
  apply (denylisted_command_is_rejected_and_never_run
           Demo.quiet Gcp (lit "  AUTH list") (Some (lit "p")) [] (lit "auth")).
  - simpl; auto.
  - reflexivity.
Defined.

(** ** C2 *)

Lemma executor_outcome_witness :
  valid (validate (toLowerCase (Demo.platform Demo.timesOut [] [])) Gcp
                  (lit "compute instances list")) = true /\
  exists result,
    execute (Demo.platform Demo.timesOut [] []) Gcp (lit "compute instances list")
            None [] =
      (Ok result, [spawn (lit "gcloud compute instances list")]) /\
    exitCode result = CNum 1 /\
    stdout result = lit "partial" /\
    stderr result = lit "Command failed: gcloud compute instances list".
Proof.
  split; [reflexivity|].
  destruct (executor_normalizes_every_outcome
              (Demo.platform Demo.timesOut [] []) Gcp
              (lit "compute instances list") None [] eq_refl)
    as (result & Hrun & _ & Hout).
  exists result. split; [exact Hrun|].
  vm_compute in Hout. destruct Hout as (Hso & Hse & Hcode).
  repeat split; assumption.
Defined.

(** ** C4 *)

Lemma verbatim_invocation_witness :
  valid (validate (toLowerCase Demo.quiet) Azure (lit "VM list -o table")) = true /\
  snd (execute Demo.quiet Azure (lit "VM list -o table") (Some (lit "sub-1")) []) =
    [Exec (lit "az VM list -o table --subscription sub-1") 30000 10485760].
Proof.
  split; [reflexivity|].
  apply (accepted_command_is_passed_verbatim
           Demo.quiet Azure (lit "VM list -o table") (Some (lit "sub-1")) []).
  reflexivity.
Defined.

(** ** C7 *)

(** The reason the code gives starts with a capital letter. *)
Lemma blank_command_reason_counterexample :
  whitespaceOnly [] = true /\
  validate asciiToLowerCase Gcp [] = mkValidation false (Some (lit "Empty command")) /\
  validate asciiToLowerCase Azure [] = mkValidation false (Some (lit "Empty command")) /\
  reason (validate asciiToLowerCase Gcp []) <> Some (lit "empty command") /\
  reason (validate asciiToLowerCase Azure []) <> Some (lit "empty command").
Proof. repeat split; discriminate. Qed.

Lemma blank_command_witness :
  whitespaceOnly [32; 9; 160; 10]%N = true /\
  validate asciiToLowerCase Azure [32; 9; 160; 10]%N =
    mkValidation false (Some (lit "Empty command")).
Proof.
  split; [reflexivity|].
  apply (blank_command_is_rejected_as_Empty_command asciiToLowerCase Azure
           [32; 9; 160; 10]%N).
  reflexivity.
Defined.

(** ** C8 *)

Lemma format_evaluation_witness :
  (exists why,
     why <> [] /\
     validateGcpCommand asciiToLowerCase (lit "vm list --FORMAT=Eval(x)") =
       mkValidation false (Some why)) /\
  validateAzureCommand asciiToLowerCase (lit "vm list --FORMAT=Eval(x)") =
    mkValidation true None.
Proof.
  destruct (format_evaluation_is_rejected_for_gcp_only asciiToLowerCase
              (lit "vm list --FORMAT=Eval(x)") eq_refl eq_refl) as [Hgcp Hazure].
  split; [exact Hgcp|].
  apply Hazure; reflexivity.
Defined.

(** ** C3 *)



(** ** C9 *)

(** Without a storage client the first guard of the handler answers, and
    its message does not mention the bucket name. *)
Lemma list_objects_counterexample :
  field (JObject []) "bucketName" = JUndefined /\
  McpServer.callTool Demo.quiet Demo.gcpWithoutStorage (lit "gcp_list_objects")
                     (JObject []) [] =
    (Ok (mkToolResponse
           (textContent (lit "Error: GCS client not initialized. Ensure Google Cloud credentials are configured."))
           (Some true)), []) /\
  includes (lit "Error: GCS client not initialized. Ensure Google Cloud credentials are configured.")
           (lit "Bucket name") = false.
Proof. repeat split. Qed.

Lemma list_objects_witness :
  truthyJson (field (JObject []) "bucketName") = false /\
  McpServer.callTool Demo.quiet Demo.gcp (lit "gcp_list_objects") (JObject []) [] =
    (Ok (mkToolResponse (textContent (lit "Error: Bucket name is required"))
                        (Some true)), []).
Proof.
  split; [reflexivity|].
  destruct (list_objects_without_bucket_name_is_an_error
              Demo.quiet Demo.gcp (JObject []) [] eq_refl) as (message & Hrun & ->).
  exact Hrun.
Defined.

(** ** C10 *)

Lemma modify_without_modification_witness :
  truthy (asString (field Demo.instanceArgs "instance")) = true /\
  truthy (asString (field Demo.instanceArgs "zone")) = true /\
  field Demo.instanceArgs "machineType" = JUndefined /\
  field Demo.instanceArgs "labels" = JUndefined /\
  exists message,
    McpServer.callTool Demo.quiet Demo.gcp (lit "gcp_modify_gce_instance")
                       Demo.instanceArgs [] =
      (Ok (mkToolResponse (textContent message) (Some true)), []) /\
    includes message (lit "Either machineType or labels must be provided") = true.
Proof.
  repeat (split; [reflexivity|]).
  apply (modify_instance_without_modification_is_an_error
           Demo.quiet Demo.gcp Demo.instanceArgs []); reflexivity.
Defined.

(** ** C6 *)

(** The machine type is changed, then the label update exits with status
    2: both steps ran, in order, nothing else did, and the response is an
    error that shows both outputs. *)
Lemma modify_steps_witness :
  stringArgument (field Demo.modifyArgs "projectId") = true /\
  stringArgument (field Demo.modifyArgs "machineType") = true /\
  recordArgument (field Demo.modifyArgs "labels") = true /\
  modifySteps (Demo.platform Demo.failsAfterFirst [] []) Demo.modifyArgs =
    [lit "compute instances set-machine-type vm --zone=z --machine-type=n1";
     lit "compute instances add-labels vm --zone=z --labels=env=prod,team=core"] /\
  GcpTools.handleModifyGceInstance (Demo.platform Demo.failsAfterFirst [] [])
                                   Demo.modifyArgs [] =
    (Ok (mkToolResponse
           (textContent
              (lit "Operation 1:" +++ nl +++ lit "done" +++ nl +++ nl +++ nl +++
               lit "Operation 2:" +++ nl +++ nl +++ lit "denied"))
           (Some true)),
     [spawn (lit "gcloud compute instances set-machine-type vm --zone=z --machine-type=n1 --project=p");
      spawn (lit "gcloud compute instances add-labels vm --zone=z --labels=env=prod,team=core --project=p")]).
Proof.
  repeat (split; [reflexivity|]).
  assert (Hsteps : modifySteps (Demo.platform Demo.failsAfterFirst [] [])
                               Demo.modifyArgs <> [])
    by (vm_compute; discriminate).
  assert (Hvalid : forall step,
            In step (modifySteps (Demo.platform Demo.failsAfterFirst [] [])
                                 Demo.modifyArgs) ->
            valid (validateGcpCommand
                     (toLowerCase (Demo.platform Demo.failsAfterFirst [] []))
                     step) = true)
    by (intros step [<- | [<- | []]]; reflexivity).
  destruct (@modify_instance_runs_its_steps_in_order
              (Demo.platform Demo.failsAfterFirst [] []) Demo.modifyArgs []
              eq_refl eq_refl eq_refl eq_refl eq_refl)
    as (_ & Hrun & _ & _).
  rewrite (Hrun eq_refl eq_refl Hsteps Hvalid). reflexivity.
Defined.

(** ** C5 *)

(** 101 containers behind the account: 101 entries in the response. *)
Lemma container_listing_counterexample :
  List.length Demo.manyContainers = 101%nat /\
  fst (AzureTools.handleListContainers
         (Demo.platform Demo.succeeds Demo.manyContainers []) Demo.accountArgs []) =
    Ok (listing (Demo.platform Demo.succeeds Demo.manyContainers [])
                (map AzureTools.containerEntry Demo.manyContainers)) /\
  (100 < List.length (map AzureTools.containerEntry Demo.manyContainers))%nat.
Proof.
  split; [reflexivity|]. split; [vm_compute; reflexivity|].
  vm_compute. lia.
Qed.

Lemma listing_witness :
  truthy (asString (field Demo.blobArgs "accountName")) = true /\
  truthy (asString (field Demo.blobArgs "containerName")) = true /\
  integerArgument (field Demo.blobArgs "maxResults") = true /\
  truthy (asString (field Demo.accountArgs "accountName")) = true /\
  AzureTools.handleListBlobs (Demo.platform Demo.succeeds [] Demo.threeBlobs)
                             Demo.blobArgs [] =
    (Ok (listing (Demo.platform Demo.succeeds [] Demo.threeBlobs)
                 (map AzureTools.blobEntry [Demo.blob 1; Demo.blob 2])),
     [ListBlobsFlat (AzureTools.getBlobServiceClient (lit "acct") None)
                    (lit "logs") [];
      Next; Next; Next]).
Proof.
  repeat (split; [reflexivity|]).
  destruct (@blob_listing_is_capped_and_container_listing_is_not
              (Demo.platform Demo.succeeds [] Demo.threeBlobs)
              Demo.blobArgs Demo.accountArgs []
              eq_refl eq_refl eq_refl eq_refl eq_refl eq_refl eq_refl)
    as (_ & _ & _ & _ & Hblobs & _).
  rewrite Hblobs. reflexivity.
Defined.

End Concrete.

(* ===================================================================== *)
(** * What every dispatch does outside the process *)
(* ===================================================================== *)

Module TraceFacts.

Import SecurityValidator CommandExecutor ExecutorFacts.









Section Allowed.

Variable P : Platform.




End Allowed.




End TraceFacts.

Section Dispatch.

Import TraceFacts.

Variable P : Platform.
Variable gcpTools : GcpTools.t.



(** X3.  The stdio dispatcher throws exactly on the names with neither
    prefix: a name that starts with [gcp_] or [azure_] always gets a
    response, whatever the handler met. *)
Theorem dispatch_returns_iff_prefixed (name : jsstring) (args : Json) (t : Trace) :
  (exists response t', McpServer.callTool P gcpTools name args t = (Ok response, t'))
  <->
  startsWith name (lit "gcp_") || startsWith name (lit "azure_") = true.
Proof.
  unfold McpServer.callTool.
  destruct (startsWith name (lit "gcp_")); cbn [orb].
  - split; [reflexivity|]. intros _.
    unfold GcpTools.handleTool, tryCatch.
    match goal with |- context [let (_, _) := ?m in _] => destruct m as [[r | m'] t'] end;
      eexists; eexists; reflexivity.
  - destruct (startsWith name (lit "azure_")).
    + split; [reflexivity|]. intros _.
      unfold AzureTools.handleTool, tryCatch.
      match goal with |- context [let (_, _) := ?m in _] => destruct m as [[r | m'] t'] end;
        eexists; eexists; reflexivity.
    + split; [|discriminate]. intros (response & t' & H). discriminate.
Qed.

End Dispatch.

(* ===================================================================== *)
(** * The catalogue and the switch *)
(* ===================================================================== *)

Module CatalogueFacts.

Lemma eqb_eq (a b : jsstring) : Js.eqb a b = true <-> a = b.
Proof.
  revert b; induction a as [|x a IH]; intros [|y b]; simpl;
    try (split; [discriminate | discriminate]); [tauto|].
  rewrite andb_true_iff, N.eqb_eq, IH. split.
  - intros [-> ->]. reflexivity.
  - intros [= -> ->]. auto.
Qed.

(** An advertised name is one of the catalogue's. *)
Lemma advertised_In (tools : list Schema.Tool) (name : jsstring) :
  advertised tools name = true <-> In name (map Schema.name tools).
Proof.
  unfold advertised. rewrite existsb_exists, in_map_iff. split.
  - intros (tool & Hin & He). apply eqb_eq in He. exists tool. auto.
  - intros (tool & He & Hin). exists tool. split; [auto|]. apply eqb_eq. auto.
Qed.

End CatalogueFacts.

Section Catalogue.

Import CatalogueFacts.

(** X4.  The [switch] of [GcpTools.handleTool] has a case for exactly the
    eleven names [listTools] advertises: a name is outside the catalogue
    if and only if every call with it is answered, without any outside
    call, by the error response ["Error: Unknown GCP tool: " + name]. *)
Theorem gcp_switch_handles_exactly_the_catalogue (name : jsstring) :
  advertised GcpTools.tools name = false <->
  forall P this args t,
    GcpTools.handleTool P this name args t =
      (Ok (errorResponse (lit "Unknown GCP tool: " +++ name)), t).
Proof.
  split.
  - intros H P this args t. unfold advertised in H.
    cbn [existsb GcpTools.tools Schema.name] in H.
    repeat (apply orb_false_elim in H; destruct H as [?H H]).
    unfold GcpTools.handleTool, GcpTools.named, tryCatch.
    repeat match goal with E : Js.eqb name _ = false |- _ => rewrite E; clear E end.
    reflexivity.
  - intros H. destruct (advertised GcpTools.tools name) eqn:Ha; [|reflexivity].
    exfalso. apply advertised_In in Ha.
    specialize (H Demo.quiet Demo.gcp (JObject []) []).
    cbn [map GcpTools.tools Schema.name In] in Ha.
    repeat (destruct Ha as [<- | Ha]; [vm_compute in H; discriminate H|]).
    exact Ha.
Qed.

(** X5.  Likewise the [switch] of [AzureTools.handleTool] has a case for
    exactly the six names its [listTools] advertises. *)
Theorem azure_switch_handles_exactly_the_catalogue (name : jsstring) :
  advertised AzureTools.tools name = false <->
  forall P args t,
    AzureTools.handleTool P name args t =
      (Ok (errorResponse (lit "Unknown Azure tool: " +++ name)), t).
Proof.
  split.
  - intros H P args t. unfold advertised in H.
    cbn [existsb AzureTools.tools Schema.name] in H.
    repeat (apply orb_false_elim in H; destruct H as [?H H]).
    unfold AzureTools.handleTool, AzureTools.named, tryCatch.
    repeat match goal with E : Js.eqb name _ = false |- _ => rewrite E; clear E end.
    reflexivity.
  - intros H. destruct (advertised AzureTools.tools name) eqn:Ha; [|reflexivity].
    exfalso. apply advertised_In in Ha.
    specialize (H Demo.quiet (JObject []) []).
    cbn [map AzureTools.tools Schema.name In] in Ha.
    repeat (destruct Ha as [<- | Ha]; [vm_compute in H; discriminate H|]).
    exact Ha.
Qed.

(** X6.  The stdio [ListTools] handler answers the GCP descriptors
    followed by the Azure ones without any outside call; the seventeen
    names are distinct, and the prefix test of the dispatcher sends every
    advertised name to the class that advertises it. *)
Theorem advertised_tools_reach_their_class (t : Trace) :
  McpServer.listTools t = (Ok (GcpTools.tools ++ AzureTools.tools), t) /\
  NoDup (map Schema.name (GcpTools.tools ++ AzureTools.tools)) /\
  (forall name, advertised GcpTools.tools name = true ->
                startsWith name (lit "gcp_") = true) /\
  (forall name, advertised AzureTools.tools name = true ->
                startsWith name (lit "gcp_") = false /\
                startsWith name (lit "azure_") = true).
Proof.
  split; [reflexivity|]. split; [|split].
  - cbn [map app GcpTools.tools AzureTools.tools Schema.name].
    repeat (constructor; [cbn [In]; intros Hin;
                          repeat (destruct Hin as [Hin | Hin]; [discriminate Hin|]);
                          exact Hin|]).
    constructor.
  - intros name Ha. apply advertised_In in Ha.
    cbn [map GcpTools.tools Schema.name In] in Ha.
    repeat (destruct Ha as [<- | Ha]; [reflexivity|]). destruct Ha.
  - intros name Ha. apply advertised_In in Ha.
    cbn [map AzureTools.tools Schema.name In] in Ha.
    repeat (destruct Ha as [<- | Ha]; [split; reflexivity|]). destruct Ha.
Qed.

End Catalogue.

Section RequiredArguments.

Import HandlerFacts.

Variable P : Platform.
Variable gcpTools : GcpTools.t.

(** Evaluates the closed string tests of the dispatcher and of the
    switch. *)
Ltac route :=
  unfold McpServer.callTool, GcpTools.handleTool, AzureTools.handleTool,
         GcpTools.named, AzureTools.named;
  cbn [Schema.name];
  repeat match goal with
         | |- context [startsWith ?a ?b] =>
             let v := eval vm_compute in (startsWith a b) in
             change (startsWith a b) with v
         | |- context [Js.eqb ?a ?b] =>
             let v := eval vm_compute in (Js.eqb a b) in
             change (Js.eqb a b) with v
         end;
  cbv beta iota.

(** X7.  The [required] lists of the seventeen input schemas are
    enforced: dispatching an advertised tool with one of its required
    properties missing (or falsy) gives an error response, with [isError]
    true, and makes no outside call. *)
Theorem missing_required_argument_is_an_error
    (tool : Schema.Tool) (key : string) (args : Json) (t : Trace) :
  In tool (GcpTools.tools ++ AzureTools.tools) ->
  In key (requiredKeys tool) ->
  truthyJson (field args key) = false ->
  exists message,
    McpServer.callTool P gcpTools (Schema.name tool) args t =
      (Ok (errorResponse message), t).
Proof.
  intros Hin Hkey Hf.
  apply falsy_asString, falsy_field_orEmptyObject in Hf.
  cbn [app GcpTools.tools AzureTools.tools In] in Hin.
  repeat (destruct Hin as [<- | Hin];
          [cbn [requiredKeys Schema.required Schema.inputSchema In] in Hkey;
           repeat (destruct Hkey as [<- | Hkey];
                   [route;
                    unfold tryCatch,
                      GcpTools.handleRunGcloudCommand, GcpTools.handleListObjects,
                      GcpTools.handleReadObjectContent, GcpTools.handleGetObjectMetadata,
                      GcpTools.handleStartGceInstance, GcpTools.handleStopGceInstance,
                      GcpTools.handleRestartGceInstance, GcpTools.instanceCommand,
                      GcpTools.handleGetGceInstanceInfo, GcpTools.handleModifyGceInstance,
                      AzureTools.handleRunAzCommand, AzureTools.handleListContainers,
                      AzureTools.handleListBlobs, AzureTools.handleReadBlobContent,
                      AzureTools.handleGetBlobMetadata;
                    try destruct (GcpTools.storage gcpTools);
                    rewrite ?Hf; cbn [negb]; rewrite ?orb_true_r; cbn [orb];
                    eexists; reflexivity|]);
           destruct Hkey|]).
  destruct Hin.
Qed.

End RequiredArguments.

(* ===================================================================== *)
(** * The command tools, end to end *)
(* ===================================================================== *)

Section CommandTools.

Import SecurityValidator CommandExecutor ValidatorFacts ExecutorFacts HandlerFacts.

Variable P : Platform.
Variable gcpTools : GcpTools.t.

Lemma callTool_run provider args t :
  McpServer.callTool P gcpTools (runCommandTool provider) args t =
  tryCatch
    (let command := asString (field (orEmptyObject args) "command") in
     if negb (truthy command)
     then throw (lit "Command is required")
     else result <- execute P provider (interp command)
                            (scopeArgument provider (orEmptyObject args)) ;;
          ret (commandResponse P result))
    (fun message => ret (errorResponse message)) t.
Proof. destruct provider; reflexivity. Qed.

Lemma command_given_object (args : Json) command :
  asString (field args "command") = Some command -> orEmptyObject args = args.
Proof. destruct args; simpl; try discriminate. reflexivity. Qed.

(** X8.  Dispatching [gcp_run_gcloud_command] or [azure_run_az_command]
    with a command the provider's validator rejects gives the response
    ["Error: " + reason] with [isError] true, the reason being the
    validator's, and spawns nothing. *)
Theorem run_command_tool_reports_the_rejection
    (provider : Provider) (args : Json) (command : jsstring) (t : Trace) :
  asString (field args "command") = Some command ->
  command <> [] ->
  valid (validate (toLowerCase P) provider command) = false ->
  exists why,
    reason (validate (toLowerCase P) provider command) = Some why /\
    McpServer.callTool P gcpTools
      (runCommandTool provider) args t =
      (Ok (mkToolResponse (textContent (lit "Error: " +++ why)) (Some true)), t).
Proof.
  intros Hc Hne Hv.
  destruct (rejection_has_reason _ _ _ Hv) as (why & Hwhy & Hr).
  exists why. split; [now rewrite Hr|].
  rewrite callTool_run, (command_given_object args Hc), Hc.
  destruct command as [|c s]; [congruence|].
  cbn [truthy negb interp]. unfold tryCatch, bind.
  rewrite (execute_rejected P provider (c :: s) _ t Hr Hwhy).
  unfold ret, errorResponse. now rewrite (orElse_nonempty _ Hwhy).
Qed.

(** X9.  Dispatching one of the two command tools with a command the
    validator accepts spawns exactly the invocation of that command, with
    the scope identifier of the arguments, and answers the serialised
    [{stdout, stderr, exitCode}] of the normalized outcome; [isError] is
    true exactly when the process did not resolve.  The command is a
    string, and so is the scope identifier ([projectId],
    [subscriptionId]) when it is given. *)
Theorem run_command_tool_reports_the_outcome
    (provider : Provider) (args : Json) (command : jsstring) (t : Trace) :
  asString (field args "command") = Some command ->
  stringArgument (field args (scopeKey provider)) = true ->
  valid (validate (toLowerCase P) provider command) = true ->
  let scopeId := scopeArgument provider args in
  let outcome := execAsync P t (invocation provider command scopeId)
                           30000 10485760 in
  let result := settle outcome in
  McpServer.callTool P gcpTools
    (runCommandTool provider) args t =
    (Ok (mkToolResponse
           (textContent
              (stringify P
                 (JObject [(lit "stdout", JString (stdout result));
                           (lit "stderr", JString (stderr result));
                           (lit "exitCode", codeJson (exitCode result))])))
           (Some (isNonZero (exitCode result)))),
     t ++ [Exec (invocation provider command scopeId) 30000 10485760]) /\
  (isNonZero (exitCode result) = true <-> exists error, outcome = Rejected error).
Proof.
  intros Hc _ Hv scopeId outcome result. split.
  - rewrite callTool_run, (command_given_object args Hc), Hc.
    assert (Hne : command <> []).
    { intros ->. revert Hv. destruct provider; discriminate. }
    destruct command as [|c s]; [congruence|].
    cbn [truthy negb interp]. unfold tryCatch, bind.
    rewrite (execute_accepted P provider (c :: s) _ t Hv), run_returns.
    destruct provider; reflexivity.
  - subst result. destruct outcome as [out err | error]; cbn [settle exitCode].
    + split; [discriminate|]. intros (error & H). discriminate.
    + rewrite codeOr1_nonzero. split; eauto.
Qed.

(** X10.  The two command tools tell a missing command from a blank one:
    without a command (or with the empty string) the response is
    ["Error: Command is required"], with a non-empty command made of
    white space only it is ["Error: Empty command"]; nothing is spawned
    in either case. *)
Theorem run_command_tool_on_missing_and_blank_commands
    (provider : Provider) (args : Json) (t : Trace) :
  let tool := runCommandTool provider in
  (truthyJson (field args "command") = false ->
   McpServer.callTool P gcpTools tool args t =
     (Ok (mkToolResponse (textContent (lit "Error: Command is required")) (Some true)),
      t)) /\
  (forall command,
     asString (field args "command") = Some command ->
     command <> [] ->
     whitespaceOnly command = true ->
     McpServer.callTool P gcpTools tool args t =
       (Ok (mkToolResponse (textContent (lit "Error: Empty command")) (Some true)),
        t)).
Proof.
  intros tool. subst tool.
  split.
  - intros Hf. apply falsy_asString, falsy_field_orEmptyObject in Hf.
    rewrite callTool_run. cbv zeta. unfold tryCatch. rewrite Hf. reflexivity.
  - intros command Hc Hne Hws.
    rewrite callTool_run, (command_given_object args Hc), Hc.
    destruct command as [|c s]; [congruence|].
    cbn [truthy negb interp]. unfold tryCatch, bind.
    assert (Hr : validate (toLowerCase P) provider (c :: s) =
                 mkValidation false (Some (lit "Empty command"))).
    { apply trim_whitespace in Hws.
      destruct provider; cbn [validate];
        [unfold validateGcpCommand | unfold validateAzureCommand];
        rewrite Hws; reflexivity. }
    rewrite (execute_rejected P provider (c :: s) _ t Hr) by discriminate.
    reflexivity.
Qed.

End CommandTools.

(* ===================================================================== *)
(** * The verdict of the validator *)
(* ===================================================================== *)

Module VerdictFacts.

Import SecurityValidator ValidatorFacts.

Lemma trimStart_padding (ws s : jsstring) :
  whitespaceOnly ws = true -> trimStart (ws ++ s) = trimStart s.
Proof.
  unfold whitespaceOnly. induction ws as [|c ws IH]; simpl; [reflexivity|].
  intros H. apply andb_prop in H as [Hc Hws]. rewrite Hc. auto.
Qed.

Lemma trimStart_keeps_tail (s x : jsstring) :
  whitespaceOnly s = false -> trimStart (s ++ x) = trimStart s ++ x.
Proof.
  unfold whitespaceOnly. induction s as [|c s IH]; simpl; [discriminate|].
  destruct (isWhiteSpace c); simpl; [auto | reflexivity].
Qed.

Lemma whitespaceOnly_app (a b : jsstring) :
  whitespaceOnly (a ++ b) = whitespaceOnly a && whitespaceOnly b.
Proof. apply forallb_app. Qed.

Lemma whitespaceOnly_rev (s : jsstring) : whitespaceOnly (rev s) = whitespaceOnly s.
Proof.
  unfold whitespaceOnly. induction s as [|c s IH]; simpl; [reflexivity|].
  rewrite forallb_app, IH. simpl. rewrite andb_true_r. apply andb_comm.
Qed.

Lemma trimEnd_padding (s ws : jsstring) :
  whitespaceOnly ws = true -> trimEnd (s ++ ws) = trimEnd s.
Proof.
  intros H. unfold trimEnd. rewrite rev_app_distr, trimStart_padding; auto.
  now rewrite whitespaceOnly_rev.
Qed.

Lemma whitespaceOnly_trimStart (s : jsstring) :
  whitespaceOnly (trimStart s) = whitespaceOnly s.
Proof.
  unfold whitespaceOnly. induction s as [|c s IH]; simpl; [reflexivity|].
  destruct (isWhiteSpace c) eqn:Hc; simpl; [auto | now rewrite Hc].
Qed.

(** White space around a command does not reach the trimmed text. *)
Lemma trim_padding (before command after : jsstring) :
  whitespaceOnly before = true -> whitespaceOnly after = true ->
  trim (before ++ command ++ after) = trim command.
Proof.
  intros Hb Ha. unfold trim. rewrite (trimStart_padding _ _ Hb).
  destruct (whitespaceOnly command) eqn:Hc.
  - rewrite (trimStart_whitespace command Hc).
    rewrite trimStart_whitespace; [reflexivity|].
    fold (whitespaceOnly (command ++ after)).
    now rewrite whitespaceOnly_app, Hc, Ha.
  - rewrite (trimStart_keeps_tail _ _ Hc). now apply trimEnd_padding.
Qed.

(** The test [!command || command.trim().length === 0]. *)
Lemma blank_test (command : jsstring) :
  isEmpty command || isEmpty (trim command) = whitespaceOnly command.
Proof.
  destruct (whitespaceOnly command) eqn:H.
  - rewrite (trim_whitespace command H). apply orb_true_r.
  - destruct command as [|c s]; [discriminate|]. cbn [isEmpty orb].
    destruct (trim (c :: s)) eqn:E; [|reflexivity].
    apply trim_nil_iff in E. congruence.
Qed.

(** The verdict is a function of the normalized text and of blankness. *)
Lemma validate_normalized (toLowerCase : jsstring -> jsstring)
    (provider : Provider) (a b : jsstring) :
  normalize toLowerCase a = normalize toLowerCase b ->
  whitespaceOnly a = whitespaceOnly b ->
  validate toLowerCase provider a = validate toLowerCase provider b.
Proof.
  unfold normalize. intros Hn Hw.
  destruct provider; cbn [validate];
    [unfold validateGcpCommand | unfold validateAzureCommand];
    rewrite !blank_test, Hw, Hn; reflexivity.
Qed.

Lemma checkBlocked_none (normalized : jsstring) (blockedList : list jsstring) :
  checkBlocked normalized blockedList = None <->
  existsb (startsWith normalized) blockedList = false.
Proof.
  induction blockedList as [|b rest IH]; simpl; [tauto|].
  destruct (startsWith normalized b); simpl; [split; discriminate | exact IH].
Qed.

(** Lower-casing ASCII letters neither makes nor removes white space. *)
Lemma isWhiteSpace_lower (c : N) : isWhiteSpace (asciiLowerUnit c) = isWhiteSpace c.
Proof.
  unfold asciiLowerUnit.
  destruct ((65 <=? c) && (c <=? 90))%N eqn:H; [|reflexivity].
  apply andb_prop in H as [H1 H2].
  apply N.leb_le in H1. apply N.leb_le in H2.
  assert (Hnot : forall d, (65 <= d <= 122)%N -> isWhiteSpace d = false).
  { intros d Hd. unfold isWhiteSpace.
    rewrite (proj2 (N.leb_gt d 13)) by lia.
    rewrite (proj2 (N.eqb_neq d 32)) by lia.
    rewrite (proj2 (N.eqb_neq d 160)) by lia.
    rewrite (proj2 (N.eqb_neq d 5760)) by lia.
    rewrite (proj2 (N.leb_gt 8192 d)) by lia.
    rewrite (proj2 (N.eqb_neq d 8232)) by lia.
    rewrite (proj2 (N.eqb_neq d 8233)) by lia.
    rewrite (proj2 (N.eqb_neq d 8239)) by lia.
    rewrite (proj2 (N.eqb_neq d 8287)) by lia.
    rewrite (proj2 (N.eqb_neq d 12288)) by lia.
    rewrite (proj2 (N.eqb_neq d 65279)) by lia.
    now rewrite andb_false_r. }
  rewrite !Hnot by lia. reflexivity.
Qed.

Lemma trimStart_lower (s : jsstring) :
  trimStart (asciiToLowerCase s) = asciiToLowerCase (trimStart s).
Proof.
  unfold asciiToLowerCase. induction s as [|c s IH]; simpl; [reflexivity|].
  rewrite isWhiteSpace_lower. destruct (isWhiteSpace c); [exact IH | reflexivity].
Qed.

Lemma trim_lower (s : jsstring) :
  trim (asciiToLowerCase s) = asciiToLowerCase (trim s).
Proof.
  unfold trim, trimEnd. rewrite trimStart_lower.
  unfold asciiToLowerCase at 1. rewrite <- map_rev.
  fold (asciiToLowerCase (rev (trimStart s))).
  rewrite trimStart_lower. unfold asciiToLowerCase. now rewrite map_rev.
Qed.

Lemma whitespaceOnly_lower (s : jsstring) :
  whitespaceOnly (asciiToLowerCase s) = whitespaceOnly s.
Proof.
  unfold whitespaceOnly, asciiToLowerCase. induction s as [|c s IH]; simpl;
    [reflexivity|]. now rewrite isWhiteSpace_lower, IH.
Qed.

Lemma lower_idempotent (s : jsstring) :
  asciiToLowerCase (asciiToLowerCase s) = asciiToLowerCase s.
Proof.
  unfold asciiToLowerCase. rewrite map_map. apply map_ext. intros c.
  unfold asciiLowerUnit.
  destruct ((65 <=? c) && (c <=? 90))%N eqn:H; [|now rewrite H].
  apply andb_prop in H as [H1 H2].
  apply N.leb_le in H1. apply N.leb_le in H2.
  rewrite (proj2 (N.leb_gt (c + 32) 90)) by lia. now rewrite andb_false_r.
Qed.

Lemma isAscii_app (a b : jsstring) : isAscii (a ++ b) = isAscii a && isAscii b.
Proof. apply forallb_app. Qed.

Lemma isAscii_rev (s : jsstring) : isAscii (rev s) = isAscii s.
Proof.
  unfold isAscii. induction s as [|c s IH]; simpl; [reflexivity|].
  rewrite forallb_app, IH. simpl. rewrite andb_true_r. apply andb_comm.
Qed.

Lemma isAscii_trimStart (s : jsstring) : isAscii s = true -> isAscii (trimStart s) = true.
Proof.
  unfold isAscii. induction s as [|c s IH]; simpl; [reflexivity|].
  intros H. destruct (isWhiteSpace c); [|exact H].
  apply andb_prop in H as [_ H]. auto.
Qed.

Lemma isAscii_trim (s : jsstring) : isAscii s = true -> isAscii (trim s) = true.
Proof.
  intros H. unfold trim, trimEnd. rewrite isAscii_rev.
  apply isAscii_trimStart. rewrite isAscii_rev. now apply isAscii_trimStart.
Qed.

Lemma isAscii_lower (s : jsstring) : isAscii s = true -> isAscii (asciiToLowerCase s) = true.
Proof.
  unfold isAscii, asciiToLowerCase. induction s as [|c s IH]; simpl; [reflexivity|].
  intros H. apply andb_prop in H as [Hc Hs]. rewrite (IH Hs), andb_true_r.
  apply N.ltb_lt in Hc. apply N.ltb_lt. unfold asciiLowerUnit.
  destruct ((65 <=? c) && (c <=? 90))%N eqn:E; [|exact Hc].
  apply andb_prop in E as [_ E]. apply N.leb_le in E. lia.
Qed.

(** On an ASCII command a conforming runtime's normalized text is the
    ASCII lower-casing of the trimmed command. *)
Lemma normalize_ascii (toLowerCase : jsstring -> jsstring) (command : jsstring) :
  lowersAscii toLowerCase -> isAscii command = true ->
  normalize toLowerCase command = asciiToLowerCase (trim command).
Proof.
  intros Hl Ha. unfold normalize. apply Hl. now apply isAscii_trim.
Qed.

End VerdictFacts.

Section Verdict.

Import SecurityValidator ValidatorFacts VerdictFacts.

Variable toLowerCase : jsstring -> jsstring.

(** X11.  A command is permitted exactly when it is not blank, its
    normalized text starts with no entry of the provider's denylist and,
    for GCP, it does not contain both ["--format"] and ["eval"]; a
    permitted command carries no reason. *)
Theorem command_is_permitted_iff (provider : Provider) (command : jsstring) :
  validate toLowerCase provider command = mkValidation true None <->
  whitespaceOnly command = false /\
  existsb (startsWith (normalize toLowerCase command)) (denylist provider) = false /\
  (provider = Gcp ->
   includes (normalize toLowerCase command) (lit "--format") &&
   includes (normalize toLowerCase command) (lit "eval") = false).
Proof.
  unfold normalize.
  destruct provider; cbn [validate denylist];
    [unfold validateGcpCommand | unfold validateAzureCommand];
    rewrite blank_test; destruct (whitespaceOnly command);
    try (split; [discriminate | intros [H _]; discriminate]);
    destruct (checkBlocked _ _) as [v|] eqn:Hc.
  - apply checkBlocked_some in Hc as (b & Hin & Hs & ->).
    split; [discriminate|]. intros (_ & H & _).
    assert (existsb (startsWith (toLowerCase (trim command))) BLOCKED_GCP_COMMANDS = true)
      by (apply existsb_exists; eauto).
    congruence.
  - apply checkBlocked_none in Hc.
    destruct (includes _ _ && includes _ _) eqn:Hfe.
    + split; [discriminate|]. intros (_ & _ & H). specialize (H eq_refl). discriminate.
    + split; auto.
  - apply checkBlocked_some in Hc as (b & Hin & Hs & ->).
    split; [discriminate|]. intros (_ & H & _).
    assert (existsb (startsWith (toLowerCase (trim command))) BLOCKED_AZURE_COMMANDS = true)
      by (apply existsb_exists; eauto).
    congruence.
  - apply checkBlocked_none in Hc. split; [|reflexivity].
    intros _. repeat split; auto. discriminate.
Qed.

(** X12.  White space before and after a command does not change the
    verdict: the padded command gets the validation of the bare one. *)
Theorem padding_does_not_change_the_verdict
    (provider : Provider) (before command after : jsstring) :
  whitespaceOnly before = true ->
  whitespaceOnly after = true ->
  validate toLowerCase provider (before ++ command ++ after) =
  validate toLowerCase provider command.
Proof.
  intros Hb Ha. apply validate_normalized.
  - unfold normalize. now rewrite trim_padding.
  - now rewrite !whitespaceOnly_app, Hb, Ha, andb_true_r.
Qed.

(** X13.  With a runtime whose [toLowerCase] is the ASCII one on ASCII
    strings, the verdict does not depend on the case of ASCII letters: two
    ASCII commands that differ in case only get the same validation. *)
Theorem verdict_ignores_ascii_case (provider : Provider) (a b : jsstring) :
  lowersAscii toLowerCase ->
  isAscii a = true -> isAscii b = true ->
  asciiToLowerCase a = asciiToLowerCase b ->
  validate toLowerCase provider a = validate toLowerCase provider b.
Proof.
  intros Hl Ha Hb Hab. apply validate_normalized.
  - rewrite !normalize_ascii by assumption. now rewrite <- !trim_lower, Hab.
  - now rewrite <- (whitespaceOnly_lower a), <- (whitespaceOnly_lower b), Hab.
Qed.

End Verdict.

(* ===================================================================== *)
(** * The format rule and the tools that ask for JSON *)
(* ===================================================================== *)

Module FormatFacts.

Import SecurityValidator ValidatorFacts VerdictFacts.

Lemma includes_split (s p : jsstring) :
  includes s p = true -> exists a b, s = a ++ p ++ b.
Proof.
  induction s as [|c s IH].
  - simpl. rewrite orb_false_r. intros H.
    apply startsWith_prefix in H as [rest H]. exists [], rest. exact H.
  - cbn [includes]. fold (includes s p). intros H.
    apply orb_prop in H as [H | H].
    + apply startsWith_prefix in H as [rest H]. exists [], rest. exact H.
    + destruct (IH H) as (a & b & ->). exists (c :: a), b. reflexivity.
Qed.

(** A string inside which [p] occurs still includes [p] with text around
    it. *)
Lemma includes_inside (before s after p : jsstring) :
  includes s p = true -> includes (before ++ s ++ after) p = true.
Proof.
  intros H. destruct (includes_split _ _ H) as (a & b & ->).
  replace (before ++ (a ++ p ++ b) ++ after) with ((before ++ a) ++ p ++ (b ++ after))
    by (rewrite <- !app_assoc; reflexivity).
  apply includes_app.
Qed.

(** [trim] leaves a string alone whose first and last code units are not
    white space. *)
Lemma trim_fixed (c d : N) (s : jsstring) :
  isWhiteSpace c = false -> isWhiteSpace d = false ->
  trim (c :: s ++ [d]) = c :: s ++ [d].
Proof.
  intros Hc Hd. unfold trim, trimEnd. cbn [trimStart]. rewrite Hc.
  change (c :: s ++ [d]) with ((c :: s) ++ [d]).
  replace (rev ((c :: s) ++ [d])) with (d :: rev (c :: s))
    by (rewrite rev_app_distr; reflexivity).
  cbn [trimStart]. rewrite Hd.
  change (rev (d :: rev (c :: s))) with (rev (rev (c :: s)) ++ [d]).
  now rewrite rev_involutive.
Qed.

(** The format rule of the GCP validator on an ASCII command that [trim]
    leaves alone and that starts with no denylisted token. *)
Lemma format_rule_fires (toLowerCase : jsstring -> jsstring) (command : jsstring) :
  lowersAscii toLowerCase ->
  isAscii command = true ->
  trim command = command ->
  command <> [] ->
  existsb (startsWith (asciiToLowerCase command)) BLOCKED_GCP_COMMANDS = false ->
  includes (asciiToLowerCase command) (lit "--format") = true ->
  includes (asciiToLowerCase command) (lit "eval") = true ->
  validateGcpCommand toLowerCase command =
    mkValidation false
      (Some (lit "Potentially dangerous format evaluation detected")).
Proof.
  intros Hl Ha Ht Hne Hb Hf He. unfold validateGcpCommand.
  rewrite Ht. destruct command as [|c s]; [congruence|]. cbn [isEmpty orb].
  rewrite (Hl _ Ha). apply checkBlocked_none in Hb. rewrite Hb, Hf, He.
  reflexivity.
Qed.

End FormatFacts.

Section FormatRule.

Import SecurityValidator CommandExecutor ValidatorFacts ExecutorFacts HandlerFacts
       VerdictFacts FormatFacts.

Variable P : Platform.
Variable gcpTools : GcpTools.t.

Hypothesis conforming : lowersAscii (toLowerCase P).

(** X14.  [gcp_get_gce_instance_info] always asks the CLI for
    [--format=json], so the format rule of the validator turns against
    it: for an ASCII instance name or zone that contains ["eval"] in any
    letter case, the tool answers
    ["Error: Potentially dangerous format evaluation detected"] and no
    process is spawned. *)
Theorem instance_info_refuses_names_that_contain_eval
    (args : Json) (instance zone : jsstring) (t : Trace) :
  asString (field args "instance") = Some instance ->
  asString (field args "zone") = Some zone ->
  instance <> [] -> zone <> [] ->
  isAscii instance = true -> isAscii zone = true ->
  includes (asciiToLowerCase instance) (lit "eval") = true \/
  includes (asciiToLowerCase zone) (lit "eval") = true ->
  McpServer.callTool P gcpTools (lit "gcp_get_gce_instance_info") args t =
    (Ok (mkToolResponse
           (textContent
              (lit "Error: Potentially dangerous format evaluation detected"))
           (Some true)), t).
Proof.
  intros Hi Hz Hin Hzn Hai Haz Heval.
  assert (Hargs : orEmptyObject args = args)
    by (destruct args; simpl in Hi; try discriminate; reflexivity).
  change (McpServer.callTool P gcpTools (lit "gcp_get_gce_instance_info") args t)
    with (tryCatch (GcpTools.handleGetGceInstanceInfo P (orEmptyObject args))
                   (fun message => ret (errorResponse message)) t).
  rewrite Hargs. unfold tryCatch, GcpTools.handleGetGceInstanceInfo.
  rewrite Hi, Hz.
  destruct instance as [|i0 instance']; [congruence|].
  destruct zone as [|z0 zone']; [congruence|].
  cbn [truthy negb orb interp]. unfold bind.
  set (instance := i0 :: instance') in *. set (zone := z0 :: zone') in *.
  set (command := lit "compute instances describe " +++ instance +++
                  lit " --zone=" +++ zone +++ lit " --format=json").
  assert (Hv : validateGcpCommand (toLowerCase P) command =
               mkValidation false
                 (Some (lit "Potentially dangerous format evaluation detected"))).
  { assert (Hshape : command =
              99%N :: (lit "ompute instances describe " ++ instance ++
                       lit " --zone=" ++ zone ++ lit " --format=jso") ++ [110%N]).
    { unfold command. rewrite <- !app_assoc. reflexivity. }
    assert (Hlower : asciiToLowerCase command =
              lit "compute instances describe " ++ asciiToLowerCase instance ++
              lit " --zone=" ++ asciiToLowerCase zone ++
              lit " " ++ lit "--format" ++ lit "=json").
    { unfold command, asciiToLowerCase. rewrite !map_app. reflexivity. }
    apply format_rule_fires.
    - exact conforming.
    - unfold command. rewrite !isAscii_app, Hai, Haz. reflexivity.
    - rewrite Hshape. now apply trim_fixed.
    - discriminate.
    - rewrite Hlower. reflexivity.
    - rewrite Hlower.
      replace (lit "compute instances describe " ++ asciiToLowerCase instance ++
               lit " --zone=" ++ asciiToLowerCase zone ++
               lit " " ++ lit "--format" ++ lit "=json")
        with ((lit "compute instances describe " ++ asciiToLowerCase instance ++
               lit " --zone=" ++ asciiToLowerCase zone ++ lit " ") ++
              lit "--format" ++ lit "=json")
        by (rewrite <- !app_assoc; reflexivity).
      apply includes_app.
    - rewrite Hlower. destruct Heval as [He | He].
      + apply includes_inside. exact He.
      + replace (lit "compute instances describe " ++ asciiToLowerCase instance ++
                 lit " --zone=" ++ asciiToLowerCase zone ++
                 lit " " ++ lit "--format" ++ lit "=json")
          with ((lit "compute instances describe " ++ asciiToLowerCase instance ++
                 lit " --zone=") ++ asciiToLowerCase zone ++
                lit " " ++ lit "--format" ++ lit "=json")
          by (rewrite <- !app_assoc; reflexivity).
        apply includes_inside. exact He. }
  fold command.
  assert (Hrun : executeGcpCommand P command (asString (field args "projectId")) t =
                 (Throw (lit "Potentially dangerous format evaluation detected"), t)).
  { apply (execute_rejected P Gcp command _ t Hv). discriminate. }
  rewrite Hrun. reflexivity.
Qed.

End FormatRule.

(* ===================================================================== *)
(** * The tools that parse the CLI's output *)
(* ===================================================================== *)

Module StorageFacts.

(** [args || {}] has the properties of [args]. *)
Lemma field_orEmptyObject (args : Json) (key : string) :
  field (orEmptyObject args) key = field args key.
Proof.
  unfold orEmptyObject. destruct args as [| | b | n | s | l | o]; try reflexivity;
    simpl; [destruct b | destruct (n =? 0)%Z | destruct s]; reflexivity.
Qed.

End StorageFacts.

Section ParsedOutput.

Import SecurityValidator CommandExecutor ExecutorFacts HandlerFacts StorageFacts.

Variable P : Platform.
Variable gcpTools : GcpTools.t.

(** X15.  When the validator accepts its command, [gcp_list_gce_instances]
    spawns it once and answers from stdout alone: the serialised empty
    array when stdout is empty, the re-serialised value when stdout
    parses, the raw stdout otherwise.  [isError] is true when the process
    did not exit with 0 or stdout did not parse; stderr is never shown and
    the fallback text of the handler is never used.  [zone], [status] and
    [projectId] are strings when they are given. *)
Theorem list_instances_answers_from_stdout (args : Json) (t : Trace) :
  stringArgument (field args "zone") = true ->
  stringArgument (field args "status") = true ->
  stringArgument (field args "projectId") = true ->
  let command := listInstancesCommand args in
  valid (validateGcpCommand (toLowerCase P) command) = true ->
  let fullCommand := invocation Gcp command (asString (field args "projectId")) in
  let result := settle (execAsync P t fullCommand 30000 10485760) in
  McpServer.callTool P gcpTools (lit "gcp_list_gce_instances") args t =
    (Ok match stdout result with
        | [] => mkToolResponse (textContent (stringify P (JArray [])))
                               (Some (isNonZero (exitCode result)))
        | _ :: _ =>
            match parse P (stdout result) with
            | Some instances =>
                mkToolResponse (textContent (stringify P instances))
                               (Some (isNonZero (exitCode result)))
            | None => mkToolResponse (textContent (stdout result)) (Some true)
            end
        end,
     t ++ [Exec fullCommand 30000 10485760]).
Proof.
  intros _ _ _ command Hv fullCommand result.
  change (McpServer.callTool P gcpTools (lit "gcp_list_gce_instances") args t)
    with (tryCatch (GcpTools.handleListGceInstances P (orEmptyObject args))
                   (fun message => ret (errorResponse message)) t).
  unfold tryCatch, GcpTools.handleListGceInstances, bind.
  rewrite !field_orEmptyObject.
  match goal with
  | |- context [executeGcpCommand P ?c ?p t] =>
      replace c with command
  end.
  2:{ unfold command, listInstancesCommand.
      destruct (asString (field args "zone")) as [[|z zs]|];
        destruct (asString (field args "status")) as [[|s ss]|];
        cbn [truthy interp]; rewrite <- ?app_assoc; cbn [app];
        rewrite ?app_nil_r; reflexivity. }
  rewrite (executeGcpCommand_accepted P command _ t Hv).
  change (settle (execAsync P t (invocation Gcp command
                                   (asString (field args "projectId")))
                            MAX_TIMEOUT_MS MAX_BUFFER_SIZE)) with result.
  unfold ret, GcpTools.parsedResponse.
  destruct (stdout result) as [|c s] eqn:Hs; cbn [isEmpty].
  - reflexivity.
  - destruct (parse P (c :: s)); reflexivity.
Qed.

(** X16.  When the validator accepts its command,
    [azure_list_storage_accounts] spawns it once and answers
    ["Error: Failed to list storage accounts: " + stderr] when the process
    did not exit with 0, ["Error: Failed to parse storage accounts
    output"] when it did and stdout does not parse (the empty stdout
    included, if the parser rejects it), and the re-serialised value with
    [isError] unset otherwise.  [resourceGroup] and [subscriptionId] are
    strings when they are given. *)
Theorem list_storage_accounts_answers (args : Json) (t : Trace) :
  stringArgument (field args "resourceGroup") = true ->
  stringArgument (field args "subscriptionId") = true ->
  let command := storageAccountsCommand args in
  valid (validateAzureCommand (toLowerCase P) command) = true ->
  let fullCommand := invocation Azure command (asString (field args "subscriptionId")) in
  let result := settle (execAsync P t fullCommand 30000 10485760) in
  McpServer.callTool P gcpTools (lit "azure_list_storage_accounts") args t =
    (Ok (if isNonZero (exitCode result)
         then mkToolResponse
                (textContent (lit "Error: Failed to list storage accounts: " +++
                              stderr result))
                (Some true)
         else match parse P (stdout result) with
              | Some accounts =>
                  mkToolResponse (textContent (stringify P accounts)) None
              | None =>
                  mkToolResponse
                    (textContent (lit "Error: Failed to parse storage accounts output"))
                    (Some true)
              end),
     t ++ [Exec fullCommand 30000 10485760]).
Proof.
  intros _ _ command Hv fullCommand result.
  change (McpServer.callTool P gcpTools (lit "azure_list_storage_accounts") args t)
    with (tryCatch (AzureTools.handleListStorageAccounts P (orEmptyObject args))
                   (fun message => ret (errorResponse message)) t).
  unfold tryCatch, AzureTools.handleListStorageAccounts, bind.
  rewrite !field_orEmptyObject.
  match goal with
  | |- context [executeAzureCommand P ?c ?p t] =>
      replace c with command
  end.
  2:{ unfold command, storageAccountsCommand.
      destruct (asString (field args "resourceGroup")) as [[|z zs]|];
        cbn [truthy interp]; rewrite ?app_nil_r; reflexivity. }
  assert (Hrun : executeAzureCommand P command (asString (field args "subscriptionId")) t =
                 (Ok result, t ++ [spawn fullCommand])).
  { apply (execute_accepted P Azure command _ t Hv). }
  rewrite Hrun.
  destruct (isNonZero (exitCode result)); [reflexivity|].
  destruct (parse P (stdout result)); reflexivity.
Qed.

End ParsedOutput.

(* ===================================================================== *)
(** * The storage tools, end to end *)
(* ===================================================================== *)

Section StorageTools.

Import HandlerFacts StorageFacts.

Variable P : Platform.
Variable gcpTools : GcpTools.t.

(** X17.  With a storage client and a bucket name, [gcp_list_objects]
    makes one call to [getFiles], handing it the prefix (default empty)
    and [maxResults] (default 100), and answers one entry per file the
    client returns, in its order and whatever their number: the handler
    itself cuts nothing.  An error of the client is answered as
    ["Error: Failed to list objects: " + message].  The bucket name is a
    string; where they are given, [prefix] is a string and [maxResults] a
    whole number. *)
Theorem list_objects_relies_on_the_client_for_the_cap
    (args : Json) (bucketName : jsstring) (t : Trace) :
  GcpTools.storage gcpTools <> None ->
  asString (field args "bucketName") = Some bucketName ->
  bucketName <> [] ->
  stringArgument (field args "prefix") = true ->
  integerArgument (field args "maxResults") = true ->
  let prefix := orElse (asString (field args "prefix")) [] in
  let maxResults := orNum (asNumber (field args "maxResults")) 100 in
  McpServer.callTool P gcpTools (lit "gcp_list_objects") args t =
    (Ok match getFiles P t bucketName prefix maxResults with
        | SdkOk files =>
            mkToolResponse
              (textContent (stringify P (JArray (map GcpTools.objectEntry files))))
              None
        | SdkError message =>
            mkToolResponse
              (textContent (lit "Error: Failed to list objects: " +++ message))
              (Some true)
        end,
     t ++ [GetFiles bucketName prefix maxResults]).
Proof.
  intros Hs Hb Hne _ _ prefix maxResults.
  change (McpServer.callTool P gcpTools (lit "gcp_list_objects") args t)
    with (tryCatch (GcpTools.handleListObjects P gcpTools (orEmptyObject args))
                   (fun message => ret (errorResponse message)) t).
  unfold tryCatch.
  rewrite (handleListObjects_forwards P gcpTools (orEmptyObject args) t Hs);
    rewrite !field_orEmptyObject, Hb.
  2:{ destruct bucketName; [congruence | reflexivity]. }
  cbn [interp]. fold prefix maxResults.
  destruct (getFiles P t bucketName prefix maxResults); reflexivity.
Qed.

(** X18.  With the shared storage client constructed and no project
    named ([projectId] absent or falsy), [gcp_list_buckets] lists through
    the shared client: it makes exactly one [getBuckets] call, on that
    client, and answers one entry for every bucket the client returns, in
    its order and whatever their number: the tool takes no [maxResults]
    and cuts nothing.  An error of the client is answered as
    ["Error: Failed to list buckets: " + message]. *)
Theorem list_buckets_lists_every_bucket_of_the_shared_client
    (args : Json) (client : Storage) (t : Trace) :
  GcpTools.storage gcpTools = Some client ->
  truthyJson (field args "projectId") = false ->
  McpServer.callTool P gcpTools (lit "gcp_list_buckets") args t =
    (Ok match getBuckets P t client with
        | SdkOk buckets =>
            mkToolResponse
              (textContent (stringify P (JArray (map GcpTools.bucketEntry buckets))))
              None
        | SdkError message =>
            mkToolResponse
              (textContent (lit "Error: Failed to list buckets: " +++ message))
              (Some true)
        end,
     t ++ [GetBuckets client]).
Proof.
  intros Hs Hp. apply falsy_asString in Hp.
  change (McpServer.callTool P gcpTools (lit "gcp_list_buckets") args t)
    with (tryCatch (GcpTools.handleListBuckets P gcpTools (orEmptyObject args))
                   (fun message => ret (errorResponse message)) t).
  unfold tryCatch.
  rewrite (handleListBuckets_all P gcpTools (orEmptyObject args) t).
  cbv zeta. rewrite !field_orEmptyObject, Hp, Hs.
  destruct (getBuckets P t client); reflexivity.
Qed.

(** X19.  The two content tools bound what they read and answer the
    content itself, not JSON: [gcp_read_object_content] asks for the bytes
    [0 .. maxBytes - 1] of the object, [azure_read_blob_content] for
    [maxBytes] bytes from offset 0, [maxBytes] being 1048576 when absent
    or 0.  An error of the client is answered as
    ["Error: Failed to read object: "] or ["Error: Failed to read blob: "]
    followed by its message.  The names are strings; where they are
    given, [maxBytes] is a whole number and [accountKey] a string. *)
Theorem content_tools_read_a_bounded_range (args : Json) (t : Trace) :
  integerArgument (field args "maxBytes") = true ->
  stringArgument (field args "accountKey") = true ->
  let maxBytes := orNum (asNumber (field args "maxBytes")) 1048576 in
  (forall bucketName objectName,
     GcpTools.storage gcpTools <> None ->
     asString (field args "bucketName") = Some bucketName -> bucketName <> [] ->
     asString (field args "objectName") = Some objectName -> objectName <> [] ->
     McpServer.callTool P gcpTools (lit "gcp_read_object_content") args t =
       (Ok match download P t bucketName objectName 0 (maxBytes - 1) with
           | SdkOk content => mkToolResponse (textContent content) None
           | SdkError message =>
               mkToolResponse
                 (textContent (lit "Error: Failed to read object: " +++ message))
                 (Some true)
           end,
        t ++ [Download bucketName objectName 0 (maxBytes - 1)])) /\
  (forall accountName containerName blobName,
     asString (field args "accountName") = Some accountName -> accountName <> [] ->
     asString (field args "containerName") = Some containerName ->
     containerName <> [] ->
     asString (field args "blobName") = Some blobName -> blobName <> [] ->
     let client := AzureTools.getBlobServiceClient
                     accountName (asString (field args "accountKey")) in
     McpServer.callTool P gcpTools (lit "azure_read_blob_content") args t =
       (Ok match blobDownload P t client containerName blobName 0 maxBytes with
           | SdkOk content => mkToolResponse (textContent content) None
           | SdkError message =>
               mkToolResponse
                 (textContent (lit "Error: Failed to read blob: " +++ message))
                 (Some true)
           end,
        t ++ [BlobDownload client containerName blobName 0 maxBytes])).
Proof.
  intros _ _ maxBytes. split.
  - intros bucketName objectName Hs Hb Hbn Ho Hon.
    change (McpServer.callTool P gcpTools (lit "gcp_read_object_content") args t)
      with (tryCatch (GcpTools.handleReadObjectContent P gcpTools (orEmptyObject args))
                     (fun message => ret (errorResponse message)) t).
    unfold tryCatch, GcpTools.handleReadObjectContent.
    destruct (GcpTools.storage gcpTools); [|congruence].
    rewrite !field_orEmptyObject, Hb, Ho.
    change (1024 * 1024)%Z with 1048576%Z. fold maxBytes.
    destruct bucketName; [congruence|]. destruct objectName; [congruence|].
    cbn [truthy negb orb interp]. unfold tryCatch, bind, await.
    destruct (download P t _ _ 0 (maxBytes - 1)); reflexivity.
  - intros accountName containerName blobName Ha Han Hc Hcn Hb Hbn client.
    change (McpServer.callTool P gcpTools (lit "azure_read_blob_content") args t)
      with (tryCatch (AzureTools.handleReadBlobContent P (orEmptyObject args))
                     (fun message => ret (errorResponse message)) t).
    unfold tryCatch, AzureTools.handleReadBlobContent.
    rewrite !field_orEmptyObject, Ha, Hc, Hb.
    change (1024 * 1024)%Z with 1048576%Z. fold maxBytes.
    destruct accountName; [congruence|]. destruct containerName; [congruence|].
    destruct blobName; [congruence|].
    cbn [truthy negb orb interp]. unfold tryCatch, bind, await.
    fold client.
    destruct (blobDownload P t client _ _ 0 maxBytes); reflexivity.
Qed.

End StorageTools.

(* ===================================================================== *)
(** * The HTTP routes *)
(* ===================================================================== *)

Module RouteFacts.

(** Both tool classes catch what their handlers throw. *)
Lemma gcp_handleTool_returns P this name args t :
  exists response t', GcpTools.handleTool P this name args t = (Ok response, t').
Proof.
  unfold GcpTools.handleTool, tryCatch.
  match goal with |- context [let (_, _) := ?m in _] => destruct m as [[r | m'] t'] end;
    eexists; eexists; reflexivity.
Qed.

Lemma azure_handleTool_returns P name args t :
  exists response t', AzureTools.handleTool P name args t = (Ok response, t').
Proof.
  unfold AzureTools.handleTool, tryCatch.
  match goal with |- context [let (_, _) := ?m in _] => destruct m as [[r | m'] t'] end;
    eexists; eexists; reflexivity.
Qed.

(** On a prefixed name the HTTP dispatch wraps the answer of the stdio
    dispatcher (given the same argument mapping) in a 200. *)
Lemma dispatch_relays P gcpTools name args t :
  startsWith name (lit "gcp_") || startsWith name (lit "azure_") = true ->
  exists response t',
    McpServer.callTool P gcpTools name (orEmptyObject args) t = (Ok response, t') /\
    HttpServer.dispatch P gcpTools name (orEmptyObject args) t =
      (Ok (HttpServer.mkResponse 200 (HttpServer.ResultBody response)), t').
Proof.
  intros Hp. unfold McpServer.callTool, HttpServer.dispatch, bind.
  assert (Hidem : orEmptyObject (orEmptyObject args) = orEmptyObject args).
  { unfold orEmptyObject. destruct (truthyJson args) eqn:E; [now rewrite E | reflexivity]. }
  rewrite Hidem.
  destruct (startsWith name (lit "gcp_")).
  - destruct (gcp_handleTool_returns P gcpTools name (orEmptyObject args) t)
      as (r & t' & ->). eauto.
  - destruct (startsWith name (lit "azure_")); [|discriminate].
    destruct (azure_handleTool_returns P name (orEmptyObject args) t)
      as (r & t' & ->). eauto.
Qed.

End RouteFacts.

Section Routes.

Import RouteFacts.

Variable P : Platform.
Variable gcpTools : GcpTools.t.

(** X20.  For a request body that names a prefixed tool, [POST /mcp/call]
    relays the stdio dispatcher: same outside calls, and the dispatcher's
    response as the body of a status 200, also when that response has
    [isError] true. *)
Theorem mcp_call_route_relays_the_dispatcher
    (body : list (jsstring * Json)) (name : jsstring) (t : Trace) :
  field (JObject body) "name" = JString name ->
  startsWith name (lit "gcp_") || startsWith name (lit "azure_") = true ->
  exists response t',
    McpServer.callTool P gcpTools name (field (JObject body) "arguments") t =
      (Ok response, t') /\
    HttpServer.postMcpCall P gcpTools (JObject body) t =
      (Ok (HttpServer.mkResponse 200 (HttpServer.ResultBody response)), t').
Proof.
  intros Hn Hp.
  destruct (dispatch_relays P gcpTools name (field (JObject body) "arguments") t Hp)
    as (response & t' & Hcall & Hhttp).
  exists response, t'. split.
  - revert Hcall. unfold McpServer.callTool.
    assert (Hidem : forall a, orEmptyObject (orEmptyObject a) = orEmptyObject a).
    { intros a. unfold orEmptyObject.
      destruct (truthyJson a) eqn:E; [now rewrite E | reflexivity]. }
    now rewrite !Hidem.
  - unfold HttpServer.postMcpCall, tryCatch, bind.
    cbn [HttpServer.destructure ret fst snd]. rewrite Hn.
    assert (Hne : name <> []).
    { intros ->. discriminate Hp. }
    destruct name as [|c s]; [congruence|]. cbn [truthyJson isEmpty negb].
    rewrite Hhttp. reflexivity.
Qed.

(** X21.  [POST /tools/:toolName] takes the arguments from the body's
    [arguments] property when that is truthy and from the body itself
    otherwise: posting an argument mapping wrapped in [{arguments: ...}]
    answers as posting it bare does, provided the mapping has no truthy
    [arguments] property of its own. *)
Theorem tools_route_accepts_wrapped_and_bare_arguments
    (toolName : jsstring) (reqBody args : Json) (t : Trace) :
  field reqBody "arguments" = args ->
  truthyJson args = true ->
  truthyJson (field args "arguments") = false ->
  HttpServer.postTool P gcpTools toolName reqBody t =
  HttpServer.postTool P gcpTools toolName args t.
Proof.
  intros Hf Ha Hno.
  assert (Hbody : exists entries, reqBody = JObject entries).
  { destruct reqBody; simpl in Hf; subst args; try discriminate Ha. eauto. }
  destruct Hbody as [entries ->].
  unfold HttpServer.postTool, tryCatch, bind.
  cbn [HttpServer.property ret]. rewrite Hf, Ha.
  destruct args; try discriminate Ha;
    cbn [HttpServer.property ret]; rewrite Hno;
    unfold orEmptyObject; rewrite Ha; reflexivity.
Qed.

(** X22.  [POST /tools/:toolName] always answers.  With a body that is
    neither [undefined] nor [null] the status is 200 when the name is
    prefixed (whatever happened in the handler) and 400 when it is not,
    never 500; with no body it is 500 and nothing is called outside. *)
Theorem tools_route_status (toolName : jsstring) (reqBody : Json) (t : Trace) :
  (reqBody <> JUndefined -> reqBody <> JNull ->
   exists response t',
     HttpServer.postTool P gcpTools toolName reqBody t = (Ok response, t') /\
     HttpServer.status response =
       if startsWith toolName (lit "gcp_") || startsWith toolName (lit "azure_")
       then 200%Z else 400%Z) /\
  (reqBody = JUndefined \/ reqBody = JNull ->
   exists message,
     HttpServer.postTool P gcpTools toolName reqBody t =
       (Ok (HttpServer.mkResponse 500 (HttpServer.ErrorBody message)), t)).
Proof.
  split.
  - intros Hu Hn.
    unfold HttpServer.postTool, tryCatch, bind.
    assert (Hprop : HttpServer.property reqBody "arguments" t =
                    (Ok (field reqBody "arguments"), t))
      by (destruct reqBody; try reflexivity; congruence).
    rewrite Hprop.
    set (args := if truthyJson (field reqBody "arguments")
                 then field reqBody "arguments" else orEmptyObject reqBody).
    unfold HttpServer.dispatch, bind.
    destruct (startsWith toolName (lit "gcp_")); cbn [orb].
    + destruct (gcp_handleTool_returns P gcpTools toolName args t) as (r & t' & ->).
      eexists; eexists; split; reflexivity.
    + destruct (startsWith toolName (lit "azure_")).
      * destruct (azure_handleTool_returns P toolName args t) as (r & t' & ->).
        eexists; eexists; split; reflexivity.
      * eexists; eexists; split; reflexivity.
  - intros [-> | ->]; eexists; reflexivity.
Qed.

(** X23.  [POST /mcp/call] answers 400 with ["Tool name is required"] when
    the body has no (or a falsy) [name], and does so before anything is
    dispatched: no outside call is made. *)
Theorem mcp_call_route_requires_a_name (body : list (jsstring * Json)) (t : Trace) :
  truthyJson (field (JObject body) "name") = false ->
  HttpServer.postMcpCall P gcpTools (JObject body) t =
    (Ok (HttpServer.mkResponse 400 (HttpServer.ErrorBody (lit "Tool name is required"))),
     t).
Proof.
  intros H. unfold HttpServer.postMcpCall, tryCatch, bind.
  cbn [HttpServer.destructure ret fst snd]. rewrite H. reflexivity.
Qed.

End Routes.

(* ===================================================================== *)
(** * A rejected step of the instance modification *)
(* ===================================================================== *)

Section RejectedStep.

Import SecurityValidator CommandExecutor ValidatorFacts ExecutorFacts HandlerFacts.

Variable P : Platform.

(** X24.  When both modifications are requested, the machine-type command
    passes the validator and the label command does not, the handler of
    [gcp_modify_gce_instance] changes the machine type and then throws the
    validator's reason: the first step's result is dropped, the label
    update is not spawned, and nothing undoes the first step.  The
    instance name, the zone and the machine type are strings, [labels] is
    an object, and [projectId] is a string when it is given. *)
Theorem rejected_label_step_keeps_the_machine_type_change
    (args : Json) (machineStep labelStep : jsstring) (t : Trace) :
  truthy (asString (field args "instance")) = true ->
  truthy (asString (field args "zone")) = true ->
  stringArgument (field args "projectId") = true ->
  recordArgument (field args "labels") = true ->
  modifySteps P args = [machineStep; labelStep] ->
  valid (validateGcpCommand (toLowerCase P) machineStep) = true ->
  valid (validateGcpCommand (toLowerCase P) labelStep) = false ->
  exists why,
    reason (validateGcpCommand (toLowerCase P) labelStep) = Some why /\
    GcpTools.handleModifyGceInstance P args t =
      (Throw why,
       t ++ [Exec (invocation Gcp machineStep (asString (field args "projectId")))
                  30000 10485760]).
Proof.
  intros Hi Hz _ _ Hsteps Hm Hl.
  destruct (rejection_has_reason (toLowerCase P) Gcp labelStep Hl) as (why & Hne & Hr).
  cbn [validate] in Hr.
  exists why. split; [now rewrite Hr|].
  revert Hsteps. unfold modifySteps, GcpTools.handleModifyGceInstance.
  rewrite Hi, Hz. cbn [negb orb].
  destruct (truthy (asString (field args "machineType"))) eqn:Hmt;
    destruct (asRecord (field args "labels")) as [entries|] eqn:Hlb;
    cbn [app]; try discriminate.
  rewrite (machineTypeCommand_given _ _ _ Hmt).
  match goal with
  | |- [?m; ?l] = _ -> _ => set (ms := m); set (ls := l); clearbody ms ls
  end.
  intros [= -> ->]. unfold bind.
  rewrite (executeGcpCommand_accepted P machineStep _ t Hm). cbn [ret app].
  assert (Hrun : forall u,
            executeGcpCommand P labelStep (asString (field args "projectId")) u =
            (Throw why, u)).
  { intros u. apply (execute_rejected P Gcp labelStep _ u Hr Hne). }
  rewrite Hrun. reflexivity.
Qed.

End RejectedStep.

(* ===================================================================== *)
(** * Metadata and instance power tools *)
(* ===================================================================== *)

Section MoreTools.

Import SecurityValidator CommandExecutor ExecutorFacts HandlerFacts StorageFacts.

Variable P : Platform.
Variable gcpTools : GcpTools.t.

(** X25.  The two metadata tools make one call each.
    [gcp_get_object_metadata] answers the client's metadata object,
    serialised as it is; [azure_get_blob_metadata] answers an object of
    eight properties, the [name] being the blob name of the request and
    the seven others being read from the client's properties.  An error
    of the client is answered as ["Error: Failed to get object
    metadata: "] or ["Error: Failed to get blob metadata: "] followed by
    its message.  The names are strings, and [accountKey] is a string
    when it is given. *)
Theorem metadata_tools_answer (args : Json) (t : Trace) :
  stringArgument (field args "accountKey") = true ->
  (forall bucketName objectName,
     GcpTools.storage gcpTools <> None ->
     asString (field args "bucketName") = Some bucketName -> bucketName <> [] ->
     asString (field args "objectName") = Some objectName -> objectName <> [] ->
     McpServer.callTool P gcpTools (lit "gcp_get_object_metadata") args t =
       (Ok match getMetadata P t bucketName objectName with
           | SdkOk metadata => mkToolResponse (textContent (stringify P metadata)) None
           | SdkError message =>
               mkToolResponse
                 (textContent (lit "Error: Failed to get object metadata: " +++ message))
                 (Some true)
           end,
        t ++ [GetMetadata bucketName objectName])) /\
  (forall accountName containerName blobName,
     asString (field args "accountName") = Some accountName -> accountName <> [] ->
     asString (field args "containerName") = Some containerName ->
     containerName <> [] ->
     asString (field args "blobName") = Some blobName -> blobName <> [] ->
     let client := AzureTools.getBlobServiceClient
                     accountName (asString (field args "accountKey")) in
     McpServer.callTool P gcpTools (lit "azure_get_blob_metadata") args t =
       (Ok match getProperties P t client containerName blobName with
           | SdkOk properties =>
               mkToolResponse
                 (textContent
                    (stringify P
                       (JObject
                          [(lit "name", JString blobName);
                           (lit "contentType", field properties "contentType");
                           (lit "contentLength", field properties "contentLength");
                           (lit "lastModified", field properties "lastModified");
                           (lit "etag", field properties "etag");
                           (lit "metadata", field properties "metadata");
                           (lit "blobType", field properties "blobType");
                           (lit "accessTier", field properties "accessTier")])))
                 None
           | SdkError message =>
               mkToolResponse
                 (textContent (lit "Error: Failed to get blob metadata: " +++ message))
                 (Some true)
           end,
        t ++ [GetProperties client containerName blobName])).
Proof.
  intros _. split.
  - intros bucketName objectName Hs Hb Hbn Ho Hon.
    change (McpServer.callTool P gcpTools (lit "gcp_get_object_metadata") args t)
      with (tryCatch (GcpTools.handleGetObjectMetadata P gcpTools (orEmptyObject args))
                     (fun message => ret (errorResponse message)) t).
    unfold tryCatch, GcpTools.handleGetObjectMetadata.
    destruct (GcpTools.storage gcpTools); [|congruence].
    rewrite !field_orEmptyObject, Hb, Ho.
    destruct bucketName; [congruence|]. destruct objectName; [congruence|].
    cbn [truthy negb orb interp]. unfold tryCatch, bind, await.
    destruct (getMetadata P t _ _); reflexivity.
  - intros accountName containerName blobName Ha Han Hc Hcn Hb Hbn client.
    change (McpServer.callTool P gcpTools (lit "azure_get_blob_metadata") args t)
      with (tryCatch (AzureTools.handleGetBlobMetadata P (orEmptyObject args))
                     (fun message => ret (errorResponse message)) t).
    unfold tryCatch, AzureTools.handleGetBlobMetadata.
    rewrite !field_orEmptyObject, Ha, Hc, Hb.
    destruct accountName; [congruence|]. destruct containerName; [congruence|].
    destruct blobName; [congruence|].
    cbn [truthy negb orb interp]. unfold tryCatch, bind, await.
    fold client.
    destruct (getProperties P t client _ _); reflexivity.
Qed.

(** X26.  The instance power tools run one CLI command each, the
    instance name and the zone being put into it as they are:
    [gcp_start_gce_instance] runs [compute instances start],
    [gcp_stop_gce_instance] runs [compute instances stop] and
    [gcp_restart_gce_instance] runs [compute instances reset].  When the
    validator accepts the command it is spawned once and the response is
    the serialised outcome, [isError] being true exactly when the exit
    code is not 0.  The instance name and the zone are strings, and
    [projectId] is a string when it is given. *)
Theorem power_tools_run_one_command
    (tool verb : string) (args : Json) (instance zone : jsstring) (t : Trace) :
  In (tool, verb) [("gcp_start_gce_instance", "start");
                   ("gcp_stop_gce_instance", "stop");
                   ("gcp_restart_gce_instance", "reset")]%string ->
  asString (field args "instance") = Some instance -> instance <> [] ->
  asString (field args "zone") = Some zone -> zone <> [] ->
  stringArgument (field args "projectId") = true ->
  let command := lit "compute instances " +++ lit verb +++ lit " " +++
                 instance +++ lit " --zone=" +++ zone in
  valid (validateGcpCommand (toLowerCase P) command) = true ->
  let fullCommand := invocation Gcp command (asString (field args "projectId")) in
  let result := settle (execAsync P t fullCommand 30000 10485760) in
  McpServer.callTool P gcpTools (lit tool) args t =
    (Ok (mkToolResponse
           (textContent
              (stringify P
                 (JObject [(lit "stdout", JString (stdout result));
                           (lit "stderr", JString (stderr result));
                           (lit "exitCode", codeJson (exitCode result))])))
           (Some (isNonZero (exitCode result)))),
     t ++ [Exec fullCommand 30000 10485760]).
Proof.
  intros Hin Hi Hine Hz Hzne _ command Hv fullCommand result.
  assert (Hcall : McpServer.callTool P gcpTools (lit tool) args t =
                  tryCatch (GcpTools.instanceCommand P verb (orEmptyObject args))
                           (fun message => ret (errorResponse message)) t).
  { cbn [In] in Hin.
    destruct Hin as [[= <- <-] | [[= <- <-] | [[= <- <-] | []]]]; reflexivity. }
  rewrite Hcall. unfold tryCatch, GcpTools.instanceCommand.
  rewrite !field_orEmptyObject, Hi, Hz.
  destruct instance as [|i0 i']; [congruence|]. destruct zone as [|z0 z']; [congruence|].
  cbn [truthy negb orb interp]. unfold bind.
  fold command.
  rewrite (executeGcpCommand_accepted P command _ t Hv).
  reflexivity.
Qed.

End MoreTools.

(* ===================================================================== *)
(** * The further theorems at concrete inputs *)
(* ===================================================================== *)

Module Checks.

Import SecurityValidator.

Lemma ascii_runtime : lowersAscii asciiToLowerCase.
Proof. intros s _. reflexivity. Defined.

Lemma dispatch_returns_witness :
  startsWith (lit "gcp_nothing") (lit "gcp_") ||
  startsWith (lit "gcp_nothing") (lit "azure_") = true /\
  exists response t',
    McpServer.callTool Demo.quiet Demo.gcp (lit "gcp_nothing") (JObject []) [] =
      (Ok response, t').
Proof.
  split; [reflexivity|].
  apply (proj2 (@dispatch_returns_iff_prefixed Demo.quiet Demo.gcp
                  (lit "gcp_nothing") (JObject []) [])).
  reflexivity.
Defined.

Lemma gcp_switch_witness :
  advertised GcpTools.tools (lit "gcp_delete_everything") = false /\
  GcpTools.handleTool Demo.quiet Demo.gcp (lit "gcp_delete_everything") (JObject []) [] =
    (Ok (errorResponse (lit "Unknown GCP tool: gcp_delete_everything")), []).
Proof.
  split; [reflexivity|].
  apply (proj1 (@gcp_switch_handles_exactly_the_catalogue (lit "gcp_delete_everything"))).
  reflexivity.
Defined.

Lemma azure_switch_witness :
  advertised AzureTools.tools (lit "azure_delete_everything") = false /\
  AzureTools.handleTool Demo.quiet (lit "azure_delete_everything") (JObject []) [] =
    (Ok (errorResponse (lit "Unknown Azure tool: azure_delete_everything")), []).
Proof.
  split; [reflexivity|].
  apply (proj1 (@azure_switch_handles_exactly_the_catalogue
                  (lit "azure_delete_everything"))).
  reflexivity.
Defined.

Lemma catalogue_witness :
  advertised AzureTools.tools (lit "azure_list_blobs") = true /\
  startsWith (lit "azure_list_blobs") (lit "gcp_") = false /\
  startsWith (lit "azure_list_blobs") (lit "azure_") = true.
Proof.
  split; [reflexivity|].
  destruct (@advertised_tools_reach_their_class []) as (_ & _ & _ & Hazure).
  apply Hazure. reflexivity.
Defined.

Lemma required_argument_witness :
  exists tool,
    In tool (GcpTools.tools ++ AzureTools.tools) /\
    Schema.name tool = lit "azure_read_blob_content" /\
    In "blobName"%string (requiredKeys tool) /\
    truthyJson (field Demo.blobArgs "blobName") = false /\
    exists message,
      McpServer.callTool Demo.quiet Demo.gcp (Schema.name tool) Demo.blobArgs [] =
        (Ok (errorResponse message), []).
Proof.
  exists (nth 15 (GcpTools.tools ++ AzureTools.tools)
              (Schema.mkTool [] [] (Schema.mkInputSchema "" [] None))).
  assert (Hin : In (nth 15 (GcpTools.tools ++ AzureTools.tools)
                        (Schema.mkTool [] [] (Schema.mkInputSchema "" [] None)))
                   (GcpTools.tools ++ AzureTools.tools))
    by (apply nth_In; vm_compute; lia).
  assert (Hkey : In "blobName"%string
                    (requiredKeys (nth 15 (GcpTools.tools ++ AzureTools.tools)
                        (Schema.mkTool [] [] (Schema.mkInputSchema "" [] None)))))
    by (vm_compute; tauto).
  split; [exact Hin|]. split; [reflexivity|]. split; [exact Hkey|].
  split; [reflexivity|].
  apply (@missing_required_argument_is_an_error Demo.quiet Demo.gcp _ "blobName"%string
           Demo.blobArgs [] Hin Hkey).
  reflexivity.
Defined.

Lemma run_rejected_witness :
  asString (field Lab.loginArgs "command") = Some (lit "login --use-device-code") /\
  valid (validate (toLowerCase Demo.quiet) Azure (lit "login --use-device-code")) = false /\
  McpServer.callTool Demo.quiet Demo.gcp (lit "azure_run_az_command") Lab.loginArgs [] =
    (Ok (mkToolResponse
           (textContent
              (lit "Error: Command blocked: login commands are not allowed for security reasons"))
           (Some true)), []).
Proof.
  split; [reflexivity|]. split; [reflexivity|].
  assert (Hne : lit "login --use-device-code" <> []) by discriminate.
  destruct (@run_command_tool_reports_the_rejection Demo.quiet Demo.gcp Azure
              Lab.loginArgs (lit "login --use-device-code") [] eq_refl Hne eq_refl)
    as (why & Hwhy & Hrun).
  vm_compute in Hwhy. injection Hwhy as <-. exact Hrun.
Defined.

Lemma run_accepted_witness :
  asString (field Lab.listVmArgs "command") = Some (lit "vm list") /\
  stringArgument (field Lab.listVmArgs (scopeKey Azure)) = true /\
  valid (validate (toLowerCase (Demo.platform Demo.timesOut [] [])) Azure
                  (lit "vm list")) = true /\
  snd (McpServer.callTool (Demo.platform Demo.timesOut [] []) Demo.gcp
         (lit "azure_run_az_command") Lab.listVmArgs []) =
    [Exec (lit "az vm list --subscription sub-1") 30000 10485760] /\
  exists response,
    fst (McpServer.callTool (Demo.platform Demo.timesOut [] []) Demo.gcp
           (lit "azure_run_az_command") Lab.listVmArgs []) = Ok response /\
    isError response = Some true.
Proof.
  split; [reflexivity|]. split; [reflexivity|]. split; [reflexivity|].
  destruct (@run_command_tool_reports_the_outcome (Demo.platform Demo.timesOut [] [])
              Demo.gcp Azure Lab.listVmArgs (lit "vm list") [] eq_refl eq_refl eq_refl)
    as (Hrun & _).
  change (runCommandTool Azure) with (lit "azure_run_az_command") in Hrun.
  rewrite Hrun. split; [reflexivity|].
  eexists. split; reflexivity.
Defined.

Lemma missing_and_blank_witness :
  truthyJson (field (JObject []) "command") = false /\
  whitespaceOnly [32; 9]%N = true /\
  McpServer.callTool Demo.quiet Demo.gcp (lit "gcp_run_gcloud_command") (JObject []) [] =
    (Ok (mkToolResponse (textContent (lit "Error: Command is required")) (Some true)),
     []) /\
  McpServer.callTool Demo.quiet Demo.gcp (lit "gcp_run_gcloud_command") Lab.blankArgs [] =
    (Ok (mkToolResponse (textContent (lit "Error: Empty command")) (Some true)), []).
Proof.
  split; [reflexivity|]. split; [reflexivity|]. split.
  - apply (proj1 (@run_command_tool_on_missing_and_blank_commands
                    Demo.quiet Demo.gcp Gcp (JObject []) [])).
    reflexivity.
  - apply (proj2 (@run_command_tool_on_missing_and_blank_commands
                    Demo.quiet Demo.gcp Gcp Lab.blankArgs []) [32; 9]%N).
    + reflexivity.
    + discriminate.
    + reflexivity.
Defined.

Lemma permitted_witness :
  whitespaceOnly (lit "compute auth list") = false /\
  validate asciiToLowerCase Gcp (lit "compute auth list") = mkValidation true None.
Proof.
  split; [reflexivity|].
  apply (proj2 (@command_is_permitted_iff asciiToLowerCase Gcp (lit "compute auth list"))).
  split; [reflexivity|]. split; [reflexivity|]. intros _. reflexivity.
Defined.

Lemma padding_witness :
  whitespaceOnly [32; 9]%N = true /\
  whitespaceOnly [10]%N = true /\
  validate asciiToLowerCase Gcp ([32; 9]%N ++ lit "auth list" ++ [10]%N) =
    validate asciiToLowerCase Gcp (lit "auth list") /\
  valid (validate asciiToLowerCase Gcp (lit "auth list")) = false.
Proof.
  split; [reflexivity|]. split; [reflexivity|]. split; [|reflexivity].
  apply (@padding_does_not_change_the_verdict asciiToLowerCase Gcp
           [32; 9]%N (lit "auth list") [10]%N); reflexivity.
Defined.

Lemma ascii_case_witness :
  isAscii (lit "Config LIST") = true /\
  asciiToLowerCase (lit "Config LIST") = asciiToLowerCase (lit "config list") /\
  validate asciiToLowerCase Azure (lit "Config LIST") =
    validate asciiToLowerCase Azure (lit "config list").
Proof.
  split; [reflexivity|]. split; [reflexivity|].
  apply (@verdict_ignores_ascii_case asciiToLowerCase Azure
           (lit "Config LIST") (lit "config list") ascii_runtime);
    reflexivity.
Defined.

Lemma instance_info_witness :
  asString (field Lab.evalArgs "instance") = Some (lit "Eval-box") /\
  includes (asciiToLowerCase (lit "Eval-box")) (lit "eval") = true /\
  McpServer.callTool Demo.quiet Demo.gcp (lit "gcp_get_gce_instance_info")
                     Lab.evalArgs [] =
    (Ok (mkToolResponse
           (textContent (lit "Error: Potentially dangerous format evaluation detected"))
           (Some true)), []).
Proof.
  split; [reflexivity|]. split; [reflexivity|].
  apply (@instance_info_refuses_names_that_contain_eval Demo.quiet Demo.gcp
           ascii_runtime Lab.evalArgs (lit "Eval-box") (lit "us-central1-a") []);
    try reflexivity; try discriminate.
  left. reflexivity.
Defined.

Lemma list_instances_witness :
  valid (validateGcpCommand (toLowerCase Demo.quiet)
                            (listInstancesCommand (JObject []))) = true /\
  McpServer.callTool Demo.quiet Demo.gcp (lit "gcp_list_gce_instances") (JObject []) [] =
    (Ok (mkToolResponse (textContent (lit "[]")) (Some false)),
     [Exec (lit "gcloud compute instances list --format=json") 30000 10485760]).
Proof.
  split; [reflexivity|].
  rewrite (@list_instances_answers_from_stdout Demo.quiet Demo.gcp (JObject []) []
             eq_refl eq_refl eq_refl eq_refl).
  reflexivity.
Defined.

Lemma storage_accounts_witness :
  valid (validateAzureCommand (toLowerCase Demo.quiet)
                              (storageAccountsCommand (JObject []))) = true /\
  McpServer.callTool Demo.quiet Demo.gcp (lit "azure_list_storage_accounts")
                     (JObject []) [] =
    (Ok (mkToolResponse
           (textContent (lit "Error: Failed to parse storage accounts output"))
           (Some true)),
     [Exec (lit "az storage account list") 30000 10485760]).
Proof.
  split; [reflexivity|].
  rewrite (@list_storage_accounts_answers Demo.quiet Demo.gcp (JObject []) []
             eq_refl eq_refl eq_refl).
  reflexivity.
Defined.

(** The client answers three files to a request capped at two: three
    entries. *)
Lemma list_objects_witness_uncapped :
  GcpTools.storage Demo.gcp <> None /\
  asString (field Lab.bucketArgs "bucketName") = Some (lit "b") /\
  stringArgument (field Lab.bucketArgs "prefix") = true /\
  integerArgument (field Lab.bucketArgs "maxResults") = true /\
  McpServer.callTool Lab.stocked Demo.gcp (lit "gcp_list_objects") Lab.bucketArgs [] =
    (Ok (listing Lab.stocked (map GcpTools.objectEntry (map Lab.file (seq 1 3)))),
     [GetFiles (lit "b") (lit "logs/") 2]).
Proof.
  split; [discriminate|]. repeat (split; [reflexivity|]).
  assert (Hs : GcpTools.storage Demo.gcp <> None) by discriminate.
  assert (Hne : lit "b" <> []) by discriminate.
  rewrite (@list_objects_relies_on_the_client_for_the_cap Lab.stocked Demo.gcp
             Lab.bucketArgs (lit "b") [] Hs eq_refl Hne eq_refl eq_refl).
  reflexivity.
Defined.

Lemma content_witness :
  integerArgument (field Lab.objectArgs "maxBytes") = true /\
  stringArgument (field Lab.objectArgs "accountKey") = true /\
  GcpTools.storage Demo.gcp <> None /\
  asString (field Lab.objectArgs "bucketName") = Some (lit "b") /\
  asString (field Lab.objectArgs "objectName") = Some (lit "o") /\
  McpServer.callTool Lab.stocked Demo.gcp (lit "gcp_read_object_content")
                     Lab.objectArgs [] =
    (Ok (mkToolResponse (textContent (lit "hello")) None),
     [Download (lit "b") (lit "o") 0 9]).
Proof.
  split; [reflexivity|]. split; [reflexivity|].
  split; [discriminate|]. split; [reflexivity|]. split; [reflexivity|].
  destruct (@content_tools_read_a_bounded_range Lab.stocked Demo.gcp Lab.objectArgs []
              eq_refl eq_refl)
    as (Hgcp & _).
  assert (Hs : GcpTools.storage Demo.gcp <> None) by discriminate.
  assert (Hb : lit "b" <> []) by discriminate.
  assert (Ho : lit "o" <> []) by discriminate.
  rewrite (Hgcp (lit "b") (lit "o") Hs eq_refl Hb eq_refl Ho).
  reflexivity.
Defined.

Lemma list_buckets_witness :
  GcpTools.storage Demo.gcp = Some (mkStorage None) /\
  truthyJson (field (JObject []) "projectId") = false /\
  McpServer.callTool Lab.stocked Demo.gcp (lit "gcp_list_buckets") (JObject []) [] =
    (Ok (listing Lab.stocked
           [GcpTools.bucketEntry (mkGcsBucket (lit "b") JUndefined)]),
     [GetBuckets (mkStorage None)]).
Proof.
  split; [reflexivity|]. split; [reflexivity|].
  rewrite (@list_buckets_lists_every_bucket_of_the_shared_client Lab.stocked Demo.gcp
             (JObject []) (mkStorage None) [] eq_refl eq_refl).
  reflexivity.
Defined.

Lemma mcp_call_witness :
  field Lab.callBody "name" = JString (lit "gcp_list_objects") /\
  HttpServer.postMcpCall Demo.quiet Demo.gcp Lab.callBody [] =
    (Ok (HttpServer.mkResponse 200
           (HttpServer.ResultBody
              (mkToolResponse (textContent (lit "Error: Bucket name is required"))
                              (Some true)))), []).
Proof.
  split; [reflexivity|].
  destruct (@mcp_call_route_relays_the_dispatcher Demo.quiet Demo.gcp
              [(lit "name", Demo.str "gcp_list_objects"); (lit "arguments", JObject [])]
              (lit "gcp_list_objects") [] eq_refl eq_refl)
    as (response & t' & Hcall & Hhttp).
  vm_compute in Hcall. injection Hcall as <- <-. exact Hhttp.
Defined.

Lemma wrapped_arguments_witness :
  field Lab.wrappedBody "arguments" = Lab.bucketArgs /\
  truthyJson Lab.bucketArgs = true /\
  truthyJson (field Lab.bucketArgs "arguments") = false /\
  HttpServer.postTool Lab.stocked Demo.gcp (lit "gcp_list_objects") Lab.wrappedBody [] =
  HttpServer.postTool Lab.stocked Demo.gcp (lit "gcp_list_objects") Lab.bucketArgs [].
Proof.
  repeat (split; [reflexivity|]).
  apply (@tools_route_accepts_wrapped_and_bare_arguments Lab.stocked Demo.gcp
           (lit "gcp_list_objects") Lab.wrappedBody Lab.bucketArgs []);
    reflexivity.
Defined.

Lemma tools_route_witness :
  exists response t',
    HttpServer.postTool Demo.quiet Demo.gcpWithoutStorage (lit "gcp_list_objects")
                        (JObject []) [] = (Ok response, t') /\
    HttpServer.status response = 200%Z.
Proof.
  destruct (@tools_route_status Demo.quiet Demo.gcpWithoutStorage
              (lit "gcp_list_objects") (JObject []) []) as (Hbody & _).
  apply Hbody; discriminate.
Defined.

Lemma mcp_call_name_witness :
  truthyJson (field (JObject []) "name") = false /\
  HttpServer.postMcpCall Demo.quiet Demo.gcp (JObject []) [] =
    (Ok (HttpServer.mkResponse 400 (HttpServer.ErrorBody (lit "Tool name is required"))),
     []).
Proof.
  split; [reflexivity|].
  apply (@mcp_call_route_requires_a_name Demo.quiet Demo.gcp [] []). reflexivity.
Defined.

Lemma rejected_step_witness :
  stringArgument (field Demo.suspiciousArgs "projectId") = true /\
  recordArgument (field Demo.suspiciousArgs "labels") = true /\
  modifySteps Demo.quiet Demo.suspiciousArgs =
    [lit "compute instances set-machine-type vm --zone=z --machine-type=n1";
     lit "compute instances add-labels vm --zone=z --labels=eval--format=1"] /\
  GcpTools.handleModifyGceInstance Demo.quiet Demo.suspiciousArgs [] =
    (Throw (lit "Potentially dangerous format evaluation detected"),
     [Exec (lit "gcloud compute instances set-machine-type vm --zone=z --machine-type=n1")
           30000 10485760]).
Proof.
  repeat (split; [reflexivity|]).
  destruct (@rejected_label_step_keeps_the_machine_type_change Demo.quiet
              Demo.suspiciousArgs
              (lit "compute instances set-machine-type vm --zone=z --machine-type=n1")
              (lit "compute instances add-labels vm --zone=z --labels=eval--format=1")
              [] eq_refl eq_refl eq_refl eq_refl eq_refl eq_refl eq_refl)
    as (why & Hwhy & Hrun).
  vm_compute in Hwhy. injection Hwhy as <-. exact Hrun.
Defined.

Lemma metadata_witness :
  stringArgument (field Lab.blobArgs "accountKey") = true /\
  asString (field Lab.blobArgs "blobName") = Some (lit "x") /\
  McpServer.callTool Lab.stocked Demo.gcp (lit "azure_get_blob_metadata")
                     Lab.blobArgs [] =
    (Ok (mkToolResponse
           (textContent
              (Demo.compact
                 (JObject [(lit "name", Demo.str "x");
                           (lit "contentType", JUndefined);
                           (lit "contentLength", JUndefined);
                           (lit "lastModified", JUndefined);
                           (lit "etag", Demo.str "e1");
                           (lit "metadata", JUndefined);
                           (lit "blobType", JUndefined);
                           (lit "accessTier", JUndefined)])))
           None),
     [GetProperties (AzureTools.getBlobServiceClient (lit "acct") None)
                    (lit "logs") (lit "x")]).
Proof.
  split; [reflexivity|]. split; [reflexivity|].
  destruct (@metadata_tools_answer Lab.stocked Demo.gcp Lab.blobArgs [] eq_refl)
    as (_ & Hazure).
  assert (Ha : lit "acct" <> []) by discriminate.
  assert (Hc : lit "logs" <> []) by discriminate.
  assert (Hx : lit "x" <> []) by discriminate.
  rewrite (Hazure (lit "acct") (lit "logs") (lit "x") eq_refl Ha eq_refl Hc eq_refl Hx).
  reflexivity.
Defined.

Lemma power_tools_witness :
  asString (field Demo.instanceArgs "instance") = Some (lit "vm") /\
  asString (field Demo.instanceArgs "zone") = Some (lit "z") /\
  stringArgument (field Demo.instanceArgs "projectId") = true /\
  snd (McpServer.callTool Demo.quiet Demo.gcp (lit "gcp_restart_gce_instance")
                          Demo.instanceArgs []) =
    [Exec (lit "gcloud compute instances reset vm --zone=z") 30000 10485760].
Proof.
  split; [reflexivity|]. split; [reflexivity|]. split; [reflexivity|].
  assert (Hin : In ("gcp_restart_gce_instance", "reset")%string
                   [("gcp_start_gce_instance", "start");
                    ("gcp_stop_gce_instance", "stop");
                    ("gcp_restart_gce_instance", "reset")]%string)
    by (right; right; left; reflexivity).
  assert (Hi : lit "vm" <> []) by discriminate.
  assert (Hz : lit "z" <> []) by discriminate.
  rewrite (@power_tools_run_one_command Demo.quiet Demo.gcp
             "gcp_restart_gce_instance"%string "reset"%string Demo.instanceArgs
             (lit "vm") (lit "z") [] Hin eq_refl Hi eq_refl Hz eq_refl eq_refl).
  reflexivity.
Defined.

End Checks.
